(** * University enrolment system: a shallow embedding and its properties

    The Python program keeps a dictionary from e-mail addresses to
    [Student] objects in a pickled file and manipulates it through three
    controllers ([StudentController], [SubjectController],
    [AdminController]).  This development embeds the persistence and
    business-rule layer of the program and states its properties.

    Modelling conventions.
    - A Python [str] is a [string]; a character is a code point below 256.
      On that range the class [\d] of Python's [re] is exactly [0-9].
      Module [Wide] has the password validator on strings of arbitrary
      code points, where [\d] is Unicode's category Nd.
    - A Python [dict] is an association list in insertion order without
      duplicate keys (module [PyDict]).
    - [random.randint] reads the next element of an entropy list that is
      part of the world; an exhausted list stands for a loop that has not
      returned yet.
    - The pickled file is a component of the world: [load_data] returns its
      content (a copy: no aliasing survives pickling) and [save_data]
      replaces it.
    - An [int] mark is a [Z]; an average mark, in Python the [float]
      nearest to the quotient, is the quotient itself, a [Q], and the
      division raises [OverflowError] where Python's does: when the
      quotient rounds to a float beyond the largest one.  The rounding
      itself is not modelled.  Python compares numbers by value, rounding
      to nearest is monotone and the thresholds 50, 65, 75, 85 are floats,
      so a comparison of a rounded average with a threshold could differ
      from the comparison of the quotient only for a quotient within 2^-47
      of the threshold, which takes more than 2^46 subjects.
    - What the program only prints after computing it (the grade groups,
      the pass/fail lists) is the result of the modelled call; the lines
      printed by the controllers that the properties speak of are kept in
      the world. *)

From Stdlib Require Import String Ascii List ZArith QArith Qabs Lia Bool Arith.
From Stdlib Require Import DecimalString.
From Stdlib Require Decimal DecimalFacts DecimalNat.
Import ListNotations.

Local Open Scope list_scope.
Local Open Scope string_scope.

(** ** Strings *)

Definition nl : string := String (ascii_of_nat 10) EmptyString.
Definition esc : string := String (ascii_of_nat 27) EmptyString.

(** [all p s]: every character of [s] satisfies [p]. *)
Fixpoint all (p : ascii -> bool) (s : string) : bool :=
  match s with
  | EmptyString => true
  | String c s' => p c && all p s'
  end.

(** [str(n)] for a natural number. *)
Definition str_of_nat (n : nat) : string :=
  NilEmpty.string_of_uint (Nat.to_uint n).

(** [zfill w s]: pad [s] with zeros on the left up to width [w]. *)
Fixpoint zeros (n : nat) : string :=
  match n with
  | O => EmptyString
  | S n' => String "0" (zeros n')
  end.

Definition zfill (w : nat) (s : string) : string :=
  zeros (w - String.length s) ++ s.

(** [f"{n:06}"] and [f"{n:03}"] for a non-negative [n]. *)
Definition format_0 (w : nat) (n : Z) : string :=
  zfill w (str_of_nat (Z.to_nat n)).

(** [str(n)] for an integer. *)
Definition str_of_Z (n : Z) : string :=
  NilEmpty.string_of_int (Z.to_int n).

(** [sep.join(parts)] *)
Fixpoint join (sep : string) (parts : list string) : string :=
  match parts with
  | [] => EmptyString
  | [x] => x
  | x :: parts' => x ++ sep ++ join sep parts'
  end.

(** A decimal digit. *)
Definition is_digit (c : ascii) : bool :=
  (nat_of_ascii "0" <=? nat_of_ascii c)%nat && (nat_of_ascii c <=? nat_of_ascii "9")%nat.

(** ** The fragment of Python's [re] used by the program *)

Module Re.

(** A pattern is a sequence of items: the anchors, a literal character,
    one character of a class, and a class repeated [lo] times or more. *)
Inductive item : Type :=
| Bol                                   (* ^ *)
| Eol                                   (* $ *)
| Lit (c : ascii)                       (* a literal, escaped or not *)
| Set_ (p : ascii -> bool)              (* [...] *)
| Rep (p : ascii -> bool) (lo : nat).   (* [...]{lo,} ; + is {1,} *)

Definition pattern := list item.

Definition lits (s : string) : pattern :=
  map Lit (list_ascii_of_string s).

Definition in_range (lo hi c : ascii) : bool :=
  (nat_of_ascii lo <=? nat_of_ascii c)%nat && (nat_of_ascii c <=? nat_of_ascii hi)%nat.

Definition lower (c : ascii) : bool := in_range "a" "z" c.
Definition upper (c : ascii) : bool := in_range "A" "Z" c.
Definition alpha (c : ascii) : bool := lower c || upper c.   (* [a-zA-Z] *)
Definition digit (c : ascii) : bool := in_range "0" "9" c.   (* \d *)

(** Without [re.MULTILINE], [$] matches at the end of the string and just
    before a line feed that is the last character of the string. *)
Definition at_end (s : string) : bool :=
  match s with
  | EmptyString => true
  | String c EmptyString => Ascii.eqb c (ascii_of_nat 10)
  | _ => false
  end.

(** The repetition tries the longest run first and backtracks. *)
Fixpoint rep (p : ascii -> bool) (k : nat -> string -> bool)
         (lo : nat) (pos : nat) (s : string) : bool :=
  match s with
  | String c s' =>
      (p c && rep p k (Nat.pred lo) (S pos) s') || ((lo =? 0)%nat && k pos s)
  | EmptyString => (lo =? 0)%nat && k pos s
  end.

Fixpoint run (pat : pattern) (pos : nat) (s : string) : bool :=
  match pat with
  | [] => true
  | Bol :: pat' => (pos =? 0)%nat && run pat' pos s
  | Eol :: pat' => at_end s && run pat' pos s
  | Lit c :: pat' =>
      match s with
      | String c' s' => Ascii.eqb c c' && run pat' (S pos) s'
      | EmptyString => false
      end
  | Set_ p :: pat' =>
      match s with
      | String c' s' => p c' && run pat' (S pos) s'
      | EmptyString => false
      end
  | Rep p lo :: pat' => rep p (run pat') lo pos s
  end.

(** [re.match(pat, s) is not None]: a match that starts at position 0. *)
Definition matches (pat : pattern) (s : string) : bool := run pat 0 s.

End Re.

(** ** Credential validator ([StudentController._is_valid_email],
       [StudentController._is_valid_password]) *)

(** [r"^[a-zA-Z]+\.[a-zA-Z]+@university\.com$"] *)
Definition email_pattern : Re.pattern :=
  ([Re.Bol; Re.Rep Re.alpha 1; Re.Lit "."; Re.Rep Re.alpha 1]
     ++ Re.lits "@university.com" ++ [Re.Eol])%list.

(** [r"^[A-Z][a-zA-Z]{4,}\d{3,}$"] *)
Definition password_pattern : Re.pattern :=
  [Re.Bol; Re.Set_ Re.upper; Re.Rep Re.alpha 4; Re.Rep Re.digit 3; Re.Eol].

Definition _is_valid_email (email : string) : bool :=
  Re.matches email_pattern email.

Definition _is_valid_password (password : string) : bool :=
  Re.matches password_pattern password.

(** The validators as the specification words them. *)

(** Two alphabetic tokens separated by a dot, then the fixed domain, and
    nothing else. *)
Definition spec_email (s : string) : Prop :=
  exists a b : string,
    s = a ++ "." ++ b ++ "@university.com"
    /\ a <> EmptyString /\ b <> EmptyString /\ all Re.alpha a = true /\ all Re.alpha b = true.

(** One uppercase letter, four or more further letters, three or more
    trailing digits, and nothing else. *)
Definition spec_password (s : string) : Prop :=
  exists (u : ascii) (l d : string),
    s = String u (l ++ d)
    /\ Re.upper u = true
    /\ all Re.alpha l = true /\ (4 <= String.length l)%nat
    /\ all Re.digit d = true /\ (3 <= String.length d)%nat.

(** ** The password validator on strings of arbitrary code points

    A Python [str] is a sequence of code points up to 0x10FFFF, and on a
    [str] the class [\d] of [re] is Unicode's category Nd.  Below 256 that
    is [0-9]; which code points from 256 on it holds depends on the
    Unicode tables of the interpreter, so they are a parameter [nd] of
    the validator. *)

Module Wide.

Definition str : Type := list N.

Definition of_string (s : string) : str :=
  map N_of_ascii (list_ascii_of_string s).

Inductive item : Type :=
| Bol                                (* ^ *)
| Eol                                (* $ *)
| Set_ (p : N -> bool)               (* [...] *)
| Rep (p : N -> bool) (lo : nat).    (* [...]{lo,} *)

Definition pattern := list item.

Definition in_range (lo hi c : N) : bool := ((lo <=? c) && (c <=? hi))%N.

Definition lower (c : N) : bool := in_range 97 122 c.
Definition upper (c : N) : bool := in_range 65 90 c.
Definition alpha (c : N) : bool := lower c || upper c.      (* [a-zA-Z] *)
Definition digit (nd : N -> bool) (c : N) : bool :=           (* \d *)
  if (c <? 256)%N then in_range 48 57 c else nd c.

Definition at_end (s : str) : bool :=
  match s with
  | [] => true
  | [c] => (c =? 10)%N
  | _ => false
  end.

Fixpoint rep (p : N -> bool) (k : nat -> str -> bool)
         (lo : nat) (pos : nat) (s : str) : bool :=
  match s with
  | c :: s' =>
      (p c && rep p k (Nat.pred lo) (S pos) s') || ((lo =? 0)%nat && k pos s)
  | [] => (lo =? 0)%nat && k pos s
  end.

Fixpoint run (pat : pattern) (pos : nat) (s : str) : bool :=
  match pat with
  | [] => true
  | Bol :: pat' => (pos =? 0)%nat && run pat' pos s
  | Eol :: pat' => at_end s && run pat' pos s
  | Set_ p :: pat' =>
      match s with
      | c' :: s' => p c' && run pat' (S pos) s'
      | [] => false
      end
  | Rep p lo :: pat' => rep p (run pat') lo pos s
  end.

Definition matches (pat : pattern) (s : str) : bool := run pat 0 s.

(** [r"^[A-Z][a-zA-Z]{4,}\d{3,}$"] *)
Definition password_pattern (nd : N -> bool) : pattern :=
  [Bol; Set_ upper; Rep alpha 4; Rep (digit nd) 3; Eol].

Definition _is_valid_password (nd : N -> bool) (password : str) : bool :=
  matches (password_pattern nd) password.

(** One uppercase letter, four or more further letters, three or more
    trailing digits of the class [\d], and nothing else. *)
Definition password_form (nd : N -> bool) (s : str) : Prop :=
  exists (u : N) (l d : str),
    s = u :: (l ++ d)%list
    /\ upper u = true
    /\ forallb alpha l = true /\ (4 <= List.length l)%nat
    /\ forallb (digit nd) d = true /\ (3 <= List.length d)%nat.

(** The digits 0 to 9 of the Arabic script, U+0660 to U+0669. *)
Definition arabic_indic (c : N) : bool := in_range 1632 1641 c.

End Wide.


(** ** Python dictionaries *)

Module PyDict.
Section Dict.
Context {V : Type}.

(** Entries in insertion order. *)
Definition t : Type := list (string * V).

Definition keys (d : t) : list string := map fst d.
Definition values (d : t) : list V := map snd d.
Definition items (d : t) : list (string * V) := d.

(** [d.get(k)] *)
Fixpoint getitem (k : string) (d : t) : option V :=
  match d with
  | [] => None
  | (k', v) :: d' => if String.eqb k' k then Some v else getitem k d'
  end.

(** [k in d] *)
Definition contains (k : string) (d : t) : bool :=
  match getitem k d with
  | Some _ => true
  | None => false
  end.

(** [d[k] = v]: an existing key keeps its place, a new key goes last. *)
Fixpoint setitem (k : string) (v : V) (d : t) : t :=
  match d with
  | [] => [(k, v)]
  | (k', v') :: d' =>
      if String.eqb k' k then (k', v) :: d' else (k', v') :: setitem k v d'
  end.

(** [del d[k]]: [None] stands for [KeyError]. *)
Fixpoint delitem (k : string) (d : t) : option t :=
  match d with
  | [] => None
  | (k', v') :: d' =>
      if String.eqb k' k then Some d'
      else match delitem k d' with
           | Some d'' => Some ((k', v') :: d'')
           | None => None
           end
  end.

(** A dictionary holds a key once. *)
Definition wf (d : t) : Prop := NoDup (keys d).
End Dict.
Arguments t : clear implicits.
End PyDict.

(** [x in xs] for a collection of strings. *)
Definition mem (x : string) (xs : list string) : bool :=
  existsb (String.eqb x) xs.

(** ** Numbers *)

Definition Qlt_bool (x y : Q) : bool := negb (Qle_bool y x).

(** ** Grade policy and the [Subject] class *)

Module Subject.

(** The attributes [id], [mark], [grade]; the dictionary [subject_info]
    that a student stores has the same three entries. *)
Record t : Type := mk { id : string; mark : Z; grade : string }.

(** [Subject.assign_grade] *)
Definition assign_grade (mark : Q) : string :=
  if Qlt_bool mark 50 then "Z"
  else if Qle_bool 50 mark && Qlt_bool mark 65 then "P"
  else if Qle_bool 65 mark && Qlt_bool mark 75 then "C"
  else if Qle_bool 75 mark && Qlt_bool mark 85 then "D"
  else "HD".

End Subject.

(** The [Student] attributes. *)
Module StudentData.
Record t : Type :=
  mk { id : string; name : string; email : string; password : string;
       subjects : list Subject.t }.

Definition set_id (v : string) (s : t) : t :=
  mk v (name s) (email s) (password s) (subjects s).
Definition set_password (v : string) (s : t) : t :=
  mk (id s) (name s) (email s) v (subjects s).
Definition set_subjects (v : list Subject.t) (s : t) : t :=
  mk (id s) (name s) (email s) (password s) v.
End StudentData.

(** ** The world: the pickled file, the random source, the terminal *)

Record World : Type :=
  mkWorld { file : PyDict.t StudentData.t;   (* content of students.data *)
            entropy : list Z;                (* what [random] will deliver *)
            stdout : list string }.          (* lines printed, oldest first *)

Inductive outcome (A : Type) : Type :=
| Ok (a : A) (w : World)      (* the call returned [a] *)
| Raise (e : string)          (* an exception left the call *)
| Starved.                    (* the entropy ran out before the call returned *)
Arguments Ok {A} a w.
Arguments Raise {A} e.
Arguments Starved {A}.

Definition M (A : Type) : Type := World -> outcome A.

Definition ret {A} (a : A) : M A := fun w => Ok a w.

Definition bind {A B} (c : M A) (k : A -> M B) : M B :=
  fun w => match c w with
           | Ok a w' => k a w'
           | Raise e => Raise e
           | Starved => Starved
           end.

Notation "x <- c ;; k" := (bind c (fun x => k))
  (at level 61, c at next level, right associativity).
Notation "c ;;; k" := (bind c (fun _ => k))
  (at level 61, right associativity).

Definition raise {A} (e : string) : M A := fun _ => Raise e.

Definition print (line : string) : M unit :=
  fun w => Ok tt (mkWorld (file w) (entropy w) (stdout w ++ [line])%list).

(** [random.randint(a, b)]: the next entropy value brought into [a..b]. *)
Definition randint (a b : Z) : M Z :=
  fun w => match entropy w with
           | [] => Starved
           | r :: rs => Ok (a + r mod (b - a + 1))%Z (mkWorld (file w) rs (stdout w))
           end.

(** [while cond(x): x = body(x)] *)
Fixpoint while_fuel {X} (fuel : nat) (cond : X -> bool) (body : X -> M X) (x : X) : M X :=
  match fuel with
  | O => fun _ => Starved
  | S fuel' =>
      if cond x then x' <- body x ;; while_fuel fuel' cond body x'
      else ret x
  end.

(** [while True: r = body(); if r is a result: return it] *)
Fixpoint until_fuel {A} (fuel : nat) (body : M (option A)) : M A :=
  match fuel with
  | O => fun _ => Starved
  | S fuel' =>
      r <- body ;;
      match r with
      | Some a => ret a
      | None => until_fuel fuel' body
      end
  end.

(** The loops of the program draw a random number in every round, so a loop
    cannot make more rounds than there is entropy left. *)
Definition while_ {X} (cond : X -> bool) (body : X -> M X) (x : X) : M X :=
  fun w => while_fuel (S (List.length (entropy w))) cond body x w.

Definition while_true {A} (body : M (option A)) : M A :=
  fun w => until_fuel (S (List.length (entropy w))) body w.

(** [a / b] for two [int]s.  The result is the float nearest to the
    quotient; Python raises [OverflowError] when that float would lie
    beyond the largest one, which is so from [2^1024 - 2^970] on, half
    way between the largest float and [2^1024]. *)
Definition float_limit : Z := (2 ^ 1024 - 2 ^ 970)%Z.

Definition true_divide (a b : Z) : M Q :=
  if (b =? 0)%Z then raise "ZeroDivisionError"
  else
    let quotient := inject_Z a / inject_Z b in
    if Qle_bool (inject_Z float_limit) (Qabs quotient) then raise "OverflowError"
    else ret quotient.

(** ** The [Subject] and [Student] constructors and methods *)

(** [Subject()] *)
Definition Subject_new : M Subject.t :=
  i <- randint 1 999 ;;
  m <- randint 25 100 ;;
  ret (Subject.mk (format_0 3 i) m (Subject.assign_grade (inject_Z m))).

Module Student.
Include StudentData.

(** [Student(name, email, password)] *)
Definition new (name email password : string) : M t :=
  i <- randint 1 999999 ;;
  ret (mk (format_0 6 i) name email password []).

(** [self.enroll_subject()]: the returned pair is the method's result and
    the object after the call. *)
Definition enroll_subject (self : t) : M (option Subject.t * t) :=
  if (4 <=? List.length (subjects self))%nat then ret (None, self)
  else
    new_subject <- Subject_new ;;
    let existing_subject_ids := map Subject.id (subjects self) in
    new_subject <- while_ (fun s => mem (Subject.id s) existing_subject_ids)
                          (fun _ => Subject_new) new_subject ;;
    let subject_info :=
      Subject.mk (Subject.id new_subject) (Subject.mark new_subject)
                 (Subject.grade new_subject) in
    ret (Some subject_info, set_subjects (subjects self ++ [subject_info])%list self).

(** [self.drop_subject(subject_id)] *)
Definition drop_subject (self : t) (subject_id : string) : t :=
  set_subjects
    (filter (fun subject => negb (String.eqb (Subject.id subject) subject_id))
            (subjects self))
    self.

(** [self.calculate_average_mark()]; [sum] adds the marks to 0 from left
    to right. *)
Definition calculate_average_mark (self : t) : M Q :=
  match subjects self with
  | [] => ret 0
  | _ :: _ =>
      let total_marks := fold_left Z.add (map Subject.mark (subjects self)) 0%Z in
      true_divide total_marks (Z.of_nat (List.length (subjects self)))
  end.

(** [self.is_passing()] *)
Definition is_passing (self : t) : M bool :=
  average_mark <- calculate_average_mark self ;;
  ret (Qle_bool 50 average_mark).

(** [self.change_password(new_password)] *)
Definition change_password (self : t) (new_password : string) : t :=
  set_password new_password self.

End Student.

(** ** The [Database] class *)

Module Database.

Definition save_data (data : PyDict.t Student.t) : M unit :=
  fun w => Ok tt (mkWorld data (entropy w) (stdout w)).

Definition load_data : M (PyDict.t Student.t) :=
  fun w => Ok (file w) w.

Definition clear_data : M unit :=
  fun w => Ok tt (mkWorld [] (entropy w) (stdout w)).

End Database.

(** ** Messages *)

Definition red (s : string) : string := esc ++ "[91m" ++ s ++ esc ++ "[0m".
Definition yellow (s : string) : string := esc ++ "[93m" ++ s ++ esc ++ "[0m".

Definition msg_incorrect_format : string :=
  red "Incorrect email or password format.".

Definition msg_does_not_exist : string :=
  yellow "Email and password formats acceptable." ++ nl ++ red "Student does not exist.".

Definition msg_login_successful : string := yellow "Login successful.".

Definition msg_invalid_password : string :=
  red "Invalid password format. Must start with an uppercase letter, contain at least five letters, and end with three or more digits.".

Definition msg_already_exists : string := red "Student already exists.".

Definition msg_four_only : string :=
  red "Students are allowed to enrol in 4 subjects only.".

(** ** [StudentController] *)

Module StudentController.

(** [login_student]: the result is the returned message or the returned
    [Student]. *)
Definition login_student (email password : string) : M (string + Student.t) :=
  data <- Database.load_data ;;
  if negb (_is_valid_email email) || negb (_is_valid_password password) then
    ret (inl msg_incorrect_format)
  else if negb (PyDict.contains email data) then
    ret (inl msg_does_not_exist)
  else
    match PyDict.getitem email data with
    | None => raise "KeyError"
    | Some stored =>
        if String.eqb (Student.password stored) password then
          print msg_login_successful ;;;
          ret (inr stored)
        else
          ret (inl msg_incorrect_format)
    end.

(** [change_student_password]: the result is the caller's object after
    the call. *)
Definition change_student_password (student : Student.t) (new_password : string)
  : M Student.t :=
  if negb (_is_valid_password new_password) then
    print msg_invalid_password ;;;
    ret student
  else
    let student := Student.set_password new_password student in
    data <- Database.load_data ;;
    let data := PyDict.setitem (Student.email student) student data in
    Database.save_data data ;;;
    ret student.

Definition generate_student_id : M string :=
  data <- Database.load_data ;;
  let existing_ids := map Student.id (PyDict.values data) in
  while_true
    (i <- randint 1 999999 ;;
     let student_id := format_0 6 i in
     ret (if negb (mem student_id existing_ids) then Some student_id else None)).

(** [register_student]: [None] or the new [Student]. *)
Definition register_student (name email password : string) : M (option Student.t) :=
  data <- Database.load_data ;;
  if PyDict.contains email data then
    print msg_already_exists ;;;
    ret None
  else
    student_id <- generate_student_id ;;
    student <- Student.new name email password ;;
    let student := Student.set_id student_id student in
    let data := PyDict.setitem email student data in
    Database.save_data data ;;;
    ret (Some student).

End StudentController.

(** ** [SubjectController] *)

Module SubjectController.

(** [enroll_subject]: the result is the caller's object after the call. *)
Definition enroll_subject (student : Student.t) : M Student.t :=
  r <- Student.enroll_subject student ;;
  let '(subject_info, student) := r in
  match subject_info with
  | None =>
      print msg_four_only ;;;
      ret student
  | Some subject_info =>
      print (yellow ("Enrolling in Subject-" ++ Subject.id subject_info)) ;;;
      print (yellow ("You are now enrolled in "
                       ++ str_of_nat (List.length (Student.subjects student))
                       ++ " out of 4 subjects.")) ;;;
      data <- Database.load_data ;;
      let data := PyDict.setitem (Student.email student) student data in
      Database.save_data data ;;;
      ret student
  end.

(** [remove_subject]: the result is the caller's object after the call. *)
Definition remove_subject (student : Student.t) (subject_id : string) : M Student.t :=
  if negb (existsb (fun subj => String.eqb (Subject.id subj) subject_id)
                   (Student.subjects student)) then
    print ("Subject " ++ subject_id ++ " not found.") ;;;
    ret student
  else
    let student := Student.drop_subject student subject_id in
    data <- Database.load_data ;;
    let data := PyDict.setitem (Student.email student) student data in
    Database.save_data data ;;;
    print (yellow ("Dropping Subject-" ++ subject_id)) ;;;
    print (yellow ("You are now enrolled in "
                     ++ str_of_nat (List.length (Student.subjects student))
                     ++ " out of 4 subjects")) ;;;
    ret student.

(** [show_enrolled_subjects] *)
Definition show_enrolled_subjects (student : Student.t) : M unit :=
  let subjects := Student.subjects student in
  print (yellow ("Showing " ++ str_of_nat (List.length subjects) ++ " subjects")) ;;;
  match subjects with
  | [] => print (yellow "Showing 0 subjects")
  | _ =>
      fold_left
        (fun (printing : M unit) (subject : Subject.t) =>
           printing ;;;
           print ("[ Subject::" ++ Subject.id subject
                    ++ " -- mark = " ++ str_of_Z (Subject.mark subject)
                    ++ " -- grade = " ++ Subject.grade subject ++ " ]"))
        subjects (ret tt)
  end.

End SubjectController.

(** ** [AdminController]

    The controller keeps a [Subject] of its own only to call
    [assign_grade], which does not read the object. *)

Module AdminController.

Definition msg_nothing_to_display : string :=
  yellow "Student List" ++ nl ++ "   < Nothing to Display >".

(** [show_all_students]: the text that the method returns. *)
Definition show_all_students : M string :=
  data <- Database.load_data ;;
  match data with
  | [] => ret msg_nothing_to_display
  | _ =>
      let output :=
        fold_left
          (fun output item =>
             let '(email, student) := item in
             let line := Student.name student ++ " :: " ++ Student.id student
                           ++ " --> Email: " ++ email in
             (output ++ [line])%list)
          (PyDict.items data) [yellow "Student List"] in
      ret (join nl output)
  end.

(** An entry of a grade group: name, id, grade, average mark. *)
Definition graded : Type := (string * string * string * Q)%type.

(** An entry of the pass/fail partition: name, id, average mark. *)
Definition marked : Type := (string * string * Q)%type.

(** [groups[grade].append(entry)]; a missing key is a [KeyError]. *)
Definition append_to (grade : string) (entry : graded)
           (groups : PyDict.t (list graded)) : option (PyDict.t (list graded)) :=
  match PyDict.getitem grade groups with
  | None => None
  | Some students => Some (PyDict.setitem grade (students ++ [entry])%list groups)
  end.

(** The first loop of [group_students_by_grade]. *)
Fixpoint group_loop (items : list (string * Student.t))
         (groups : PyDict.t (list graded)) : M (PyDict.t (list graded)) :=
  match items with
  | [] => ret groups
  | (email, student) :: items' =>
      avg_mark <- Student.calculate_average_mark student ;;
      let grade := Subject.assign_grade avg_mark in
      match append_to grade (Student.name student, Student.id student, grade, avg_mark) groups with
      | None => raise "KeyError"
      | Some groups' => group_loop items' groups'
      end
  end.

(** [group_students_by_grade]: the dictionary [groups] that the method
    builds and then prints. *)
Definition group_students_by_grade : M (PyDict.t (list graded)) :=
  data <- Database.load_data ;;
  let groups : PyDict.t (list graded) :=
    [("HD", []); ("D", []); ("C", []); ("P", []); ("Z", [])] in
  group_loop (PyDict.items data) groups.

(** The loop of [partition_students_pass_fail]. *)
Fixpoint partition_loop (items : list (string * Student.t))
         (passed failed : list marked) : M (list marked * list marked) :=
  match items with
  | [] => ret (passed, failed)
  | (email, student) :: items' =>
      avg_mark <- Student.calculate_average_mark student ;;
      passing <- Student.is_passing student ;;
      if passing : bool then
        partition_loop items' (passed ++ [(Student.name student, Student.id student, avg_mark)])%list failed
      else
        partition_loop items' passed (failed ++ [(Student.name student, Student.id student, avg_mark)])%list
  end.

(** [partition_students_pass_fail]: the lists [passed] and [failed] that
    the method builds and then prints. *)
Definition partition_students_pass_fail : M (list marked * list marked) :=
  data <- Database.load_data ;;
  partition_loop (PyDict.items data) [] [].

(** [remove_student] *)
Definition remove_student (student_id : string) : M bool :=
  data <- Database.load_data ;;
  let to_remove :=
    map fst (filter (fun item => String.eqb (Student.id (snd item)) student_id)
                    (PyDict.items data)) in
  match to_remove with
  | first :: _ =>
      match PyDict.delitem first data with
      | None => raise "KeyError"
      | Some data =>
          Database.save_data data ;;;
          ret true
      end
  | [] => ret false
  end.

(** [clear_all_student_data] *)
Definition clear_all_student_data : M unit :=
  Database.clear_data ;;;
  print (yellow "All student data has been cleared.").

End AdminController.

(** ** A front end

    The menus and the forms get a [Student] object from [login_student],
    keep it while the student is logged in, and hand it back to the
    controllers; the admin menu calls [remove_student] and
    [clear_all_student_data].  [held] lists every object that the callers
    got from [login_student] or [register_student] (the menus of the
    program hold one at a time); a request names one of them by its
    position. *)

Module Session.

Inductive request : Type :=
| Register (name email password : string)
| Login (email password : string)
| ChangePassword (who : nat) (new_password : string)
| Enroll (who : nat)
| Drop (who : nat) (subject_id : string)
| RemoveStudent (student_id : string)
| ClearAll.

Fixpoint put (who : nat) (s : Student.t) (held : list Student.t) {struct held}
  : list Student.t :=
  match held, who with
  | [], _ => []
  | _ :: held', O => s :: held'
  | h :: held', S who' => h :: put who' s held'
  end.

(** Run a controller call on the object at position [who]. *)
Definition on (who : nat) (held : list Student.t) (call : Student.t -> M Student.t)
  : M (list Student.t) :=
  match nth_error held who with
  | None => ret held
  | Some student => student' <- call student ;; ret (put who student' held)
  end.

Definition serve (r : request) (held : list Student.t) : M (list Student.t) :=
  match r with
  | Register name email password =>
      s <- StudentController.register_student name email password ;;
      match s with
      | Some student => ret (held ++ [student])%list
      | None => ret held
      end
  | Login email password =>
      s <- StudentController.login_student email password ;;
      match s with
      | inr student => ret (held ++ [student])%list
      | inl _ => ret held
      end
  | ChangePassword who new_password =>
      on who held (fun student => StudentController.change_student_password student new_password)
  | Enroll who =>
      on who held SubjectController.enroll_subject
  | Drop who subject_id =>
      on who held (fun student => SubjectController.remove_subject student subject_id)
  | RemoveStudent student_id =>
      AdminController.remove_student student_id ;;; ret held
  | ClearAll =>
      AdminController.clear_all_student_data ;;; ret held
  end.

Fixpoint run (rs : list request) (held : list Student.t) : M (list Student.t) :=
  match rs with
  | [] => ret held
  | r :: rs' => held' <- serve r held ;; run rs' held'
  end.

End Session.

(** ** The text menus ([UniversitySystem])

    [input(prompt)] writes the prompt to the terminal and reads the next
    line that the user types; the lines to come are threaded through the
    menus.  At the end of the input [input] raises [EOFError].  Every
    round of every loop of the menus reads a line, so a loop cannot make
    more rounds than there are lines left. *)

Module UniversitySystem.

Definition IO (A : Type) : Type := list string -> M (A * list string).

Definition io_ret {A} (a : A) : IO A := fun lines => ret (a, lines).

Definition io_bind {A B} (c : IO A) (k : A -> IO B) : IO B :=
  fun lines => r <- c lines ;; k (fst r) (snd r).

Definition lift {A} (c : M A) : IO A :=
  fun lines => a <- c ;; ret (a, lines).

Notation "x <~ c ;; k" := (io_bind c (fun x => k))
  (at level 61, c at next level, right associativity).
Notation "c ~;; k" := (io_bind c (fun _ => k))
  (at level 61, right associativity).

Definition input (prompt : string) : IO string :=
  fun lines =>
    match lines with
    | [] => raise "EOFError"
    | line :: lines' => print prompt ;;; ret (line, lines')
    end.

Definition say (line : string) : IO unit := lift (print line).

Definition blue (s : string) : string := esc ++ "[94m" ++ s ++ esc ++ "[0m".
Definition green (s : string) : string := esc ++ "[92m" ++ s ++ esc ++ "[0m".
Definition reset : string := esc ++ "[0m".

(** [str.lower] on code points below 256: the letters A-Z and the
    capital letters of Latin-1 (192 to 222 without the sign at 215). *)
Definition lower_char (c : ascii) : ascii :=
  let n := nat_of_ascii c in
  if ((65 <=? n) && (n <=? 90))%nat
     || ((192 <=? n) && (n <=? 222) && negb (n =? 215))%nat
  then ascii_of_nat (n + 32) else c.

Fixpoint lower (s : string) : string :=
  match s with
  | EmptyString => EmptyString
  | String c s' => String (lower_char c) (lower s')
  end.

(** The loops of the sign-up: ask until the validator accepts. *)
Fixpoint ask_email (fuel : nat) : IO string :=
  match fuel with
  | O => fun _ _ => Starved
  | S fuel' =>
      email <~ input "Enter email: " ;;
      if _is_valid_email email then io_ret email
      else
        say (yellow "Invalid email format. Please use firstname.lastname@university.com format.") ~;;
        ask_email fuel'
  end.

Fixpoint ask_password (fuel : nat) : IO string :=
  match fuel with
  | O => fun _ _ => Starved
  | S fuel' =>
      password <~ input "Enter password: " ;;
      if _is_valid_password password then
        say (yellow "Email and password formats acceptable.") ~;;
        io_ret password
      else
        say (red "Invalid password format. Password must start with an uppercase letter, contain at least five letters, and end with three or more digits.") ~;;
        ask_password fuel'
  end.

(** The loop of the password change: ask for the confirmation until it
    equals the new password. *)
Fixpoint confirm_password (fuel : nat) (new_password : string) : IO unit :=
  match fuel with
  | O => fun _ _ => Starved
  | S fuel' =>
      confirm <~ input (reset ++ "Confirm Password: " ++ reset) ;;
      if negb (String.eqb new_password confirm) then
        say (red "Password does not match - try again") ~;;
        confirm_password fuel' new_password
      else io_ret tt
  end.

(** [subject_menu(student)]: the result is the student object when the
    menu is left. *)
Fixpoint subject_menu_loop (fuel : nat) (student : Student.t) : IO Student.t :=
  match fuel with
  | O => fun _ _ => Starved
  | S fuel' =>
      say (nl ++ blue "--- Subject Enrolment System ---") ~;;
      choice <~ input (blue ("(c) change password" ++ nl ++ "(e) enroll" ++ nl
                               ++ "(r) remove" ++ nl ++ "(s) show" ++ nl ++ "(x) exit")
                         ++ nl ++ "Select an option: ") ;;
      let choice := lower choice in
      if String.eqb choice "c" then
        say (nl ++ yellow "Updating Password") ~;;
        new_password <~ input (reset ++ "New Password: " ++ reset) ;;
        confirm_password fuel' new_password ~;;
        student <~ lift (StudentController.change_student_password student new_password) ;;
        say (yellow "Password updated successfully.") ~;;
        subject_menu_loop fuel' student
      else if String.eqb choice "e" then
        student <~ lift (SubjectController.enroll_subject student) ;;
        subject_menu_loop fuel' student
      else if String.eqb choice "r" then
        subject_id <~ input (reset ++ "Enter subject ID to remove: " ++ reset) ;;
        student <~ lift (SubjectController.remove_subject student subject_id) ;;
        subject_menu_loop fuel' student
      else if String.eqb choice "s" then
        lift (SubjectController.show_enrolled_subjects student) ~;;
        subject_menu_loop fuel' student
      else if String.eqb choice "x" then io_ret student
      else
        say (red "Invalid option.") ~;;
        subject_menu_loop fuel' student
  end.

Definition subject_menu (student : Student.t) : IO Student.t :=
  fun lines => subject_menu_loop (S (List.length lines)) student lines.

(** [student_menu()] *)
Fixpoint student_menu_loop (fuel : nat) : IO unit :=
  match fuel with
  | O => fun _ _ => Starved
  | S fuel' =>
      say (nl ++ blue "--- Student System ---") ~;;
      choice <~ input (blue "(l) login, (r) register, (x) exit" ++ nl
                         ++ "Select an option: ") ;;
      let choice := lower choice in
      if String.eqb choice "l" then
        say (green "Student Sign In") ~;;
        email <~ input (reset ++ "Enter email: ") ;;
        password <~ input (reset ++ "Enter password: ") ;;
        login_result <~ lift (StudentController.login_student email password) ;;
        match login_result with
        | inr student =>
            subject_menu_loop fuel' student ~;;
            student_menu_loop fuel'
        | inl message =>
            say (red message) ~;;
            student_menu_loop fuel'
        end
      else if String.eqb choice "r" then
        say (green "Student Sign Up") ~;;
        email <~ ask_email fuel' ;;
        password <~ ask_password fuel' ;;
        data <~ lift Database.load_data ;;
        if PyDict.contains email data then
          say msg_already_exists ~;;
          student_menu_loop fuel'
        else
          name <~ input (reset ++ "Enter name: ") ;;
          student <~ lift (StudentController.register_student name email password) ;;
          match student with
          | Some student =>
              say (yellow ("Student " ++ name ++ " successfully registered with ID: "
                             ++ Student.id student ++ ".")) ~;;
              student_menu_loop fuel'
          | None => student_menu_loop fuel'
          end
      else if String.eqb choice "x" then io_ret tt
      else
        say "Invalid option." ~;;
        student_menu_loop fuel'
  end.

Definition student_menu : IO unit :=
  fun lines => student_menu_loop (S (List.length lines)) lines.

(** [admin_menu()].  The lines that [group_students_by_grade] and
    [partition_students_pass_fail] print are not modelled. *)
Fixpoint admin_menu_loop (fuel : nat) : IO unit :=
  match fuel with
  | O => fun _ _ => Starved
  | S fuel' =>
      say (nl ++ blue "--- Admin System (c/g/p/r/s/x) ---") ~;;
      choice <~ input (blue "Select an option: ") ;;
      let choice := lower choice in
      if String.eqb choice "c" then
        say (yellow "Clearing students database") ~;;
        confirm <~ input (red "Are you sure you want to clear the database (Y)ES/(N)O: ") ;;
        let confirm := lower confirm in
        if String.eqb confirm "y" then
          lift AdminController.clear_all_student_data ~;;
          say (yellow "Students data cleared") ~;;
          admin_menu_loop fuel'
        else
          say (yellow "Clearing operation cancelled") ~;;
          admin_menu_loop fuel'
      else if String.eqb choice "g" then
        say (yellow "Grade Grouping") ~;;
        lift AdminController.group_students_by_grade ~;;
        admin_menu_loop fuel'
      else if String.eqb choice "p" then
        say (yellow "PASS/FAIL Partition") ~;;
        lift AdminController.partition_students_pass_fail ~;;
        admin_menu_loop fuel'
      else if String.eqb choice "r" then
        student_id <~ input "Remove by ID: " ;;
        removed <~ lift (AdminController.remove_student student_id) ;;
        if removed : bool then
          say (yellow ("Removing Student " ++ student_id ++ " Account")) ~;;
          admin_menu_loop fuel'
        else
          say (red ("Student " ++ student_id ++ " does not exist")) ~;;
          admin_menu_loop fuel'
      else if String.eqb choice "s" then
        result <~ lift AdminController.show_all_students ;;
        say result ~;;
        admin_menu_loop fuel'
      else if String.eqb choice "x" then io_ret tt
      else
        say (red "Invalid option.") ~;;
        admin_menu_loop fuel'
  end.

Definition admin_menu : IO unit :=
  fun lines => admin_menu_loop (S (List.length lines)) lines.

End UniversitySystem.

(** ** Predicates used in the statements *)

(** At most four subjects. *)
Definition capped (s : Student.t) : Prop :=
  (List.length (Student.subjects s) <= 4)%nat.

(** The enrolment cap holds in the file and for every object held. *)
Definition all_capped (w : World) (held : list Student.t) : Prop :=
  Forall capped (PyDict.values (file w)) /\ Forall capped held.

(** Some record of the dictionary has this student id. *)
Definition has_id (student_id : string) (data : PyDict.t Student.t) : Prop :=
  exists s, In s (PyDict.values data) /\ Student.id s = student_id.

(** The student ids of the dictionary are pairwise distinct. *)
Definition unique_ids (data : PyDict.t Student.t) : Prop :=
  NoDup (map Student.id (PyDict.values data)).




(** The unweighted mean of a list of marks, 0 for an empty list: the
    average mark as the specification words it. *)
Definition spec_mean (marks : list Z) : Q :=
  match marks with
  | [] => 0
  | _ :: _ => inject_Z (fold_right Z.add 0%Z marks) / inject_Z (Z.of_nat (List.length marks))
  end.

Definition mean_mark (s : Student.t) : Q :=
  spec_mean (map Subject.mark (Student.subjects s)).

(** The mean of the marks is 50 or more. *)
Definition passes (s : Student.t) : bool := Qle_bool 50 (mean_mark s).

(** The mean of the marks is beyond the floats. *)
Definition overflows (s : Student.t) : bool :=
  Qle_bool (inject_Z float_limit) (Qabs (mean_mark s)).

(** No student of the record set has a mean beyond the floats. *)
Definition representable (data : PyDict.t Student.t) : Prop :=
  Forall (fun s => overflows s = false) (PyDict.values data).

(** The entries the admin reports make of a student. *)
Definition graded_entry (s : Student.t) : AdminController.graded :=
  (Student.name s, Student.id s, Subject.assign_grade (mean_mark s), mean_mark s).

Definition marked_entry (s : Student.t) : AdminController.marked :=
  (Student.name s, Student.id s, mean_mark s).

(** The keys of the dictionary [groups]. *)
Definition five_grades : list string := ["HD"; "D"; "C"; "P"; "Z"].

(** The average mark of the student earns grade [g]. *)
Definition in_bucket (g : string) (s : Student.t) : bool :=
  String.eqb (Subject.assign_grade (mean_mark s)) g.

(** The id and the mark that [Subject()] makes of two entropy values. *)
Definition subject_id_of (r : Z) : string := format_0 3 (1 + r mod (999 - 1 + 1))%Z.
Definition subject_of (r m : Z) : Subject.t :=
  let mark := (25 + m mod (100 - 25 + 1))%Z in
  Subject.mk (subject_id_of r) mark (Subject.assign_grade (inject_Z mark)).

(** The id that [generate_student_id] makes of an entropy value. *)
Definition student_id_of (r : Z) : string := format_0 6 (1 + r mod (999999 - 1 + 1))%Z.

(** Worlds that differ in the file, the entropy or the terminal only. *)
Definition with_file (data : PyDict.t Student.t) (w : World) : World :=
  mkWorld data (entropy w) (stdout w).
Definition with_entropy (rs : list Z) (w : World) : World :=
  mkWorld (file w) rs (stdout w).
Definition printed (lines : list string) (w : World) : World :=
  mkWorld (file w) (entropy w) (stdout w ++ lines)%list.

(** A subject as [Subject()] makes it: a mark from 25 to 100 and the grade
    of that mark. *)
Definition subject_sound (x : Subject.t) : Prop :=
  (25 <= Subject.mark x <= 100)%Z
  /\ Subject.grade x = Subject.assign_grade (inject_Z (Subject.mark x)).

(** The subjects of a student are sound and their ids differ. *)
Definition student_sound (s : Student.t) : Prop :=
  NoDup (map Subject.id (Student.subjects s))
  /\ Forall subject_sound (Student.subjects s).

Definition all_sound (w : World) (held : list Student.t) : Prop :=
  Forall student_sound (PyDict.values (file w)) /\ Forall student_sound held.

(** Every record is stored under the e-mail of its student, once. *)
Definition store_keyed (data : PyDict.t Student.t) : Prop :=
  PyDict.wf data /\ Forall (fun item => fst item = Student.email (snd item)) data.

(** The three calls on a student object either leave object and file as
    they are, or change the object and save it under its e-mail. *)
Definition saves_or_not (P : Student.t -> Student.t -> Prop)
           (student student' : Student.t) (w w' : World) : Prop :=
  (student' = student /\ file w' = file w)
  \/ (P student student'
      /\ file w' = PyDict.setitem (Student.email student') student' (file w)).

(** The e-mail and the password of the student pass the validator. *)
Definition valid_credentials (s : Student.t) : Prop :=
  _is_valid_email (Student.email s) = true
  /\ _is_valid_password (Student.password s) = true.

(** A string of exactly [n] decimal digits. *)
Definition digits (n : nat) (s : string) : Prop :=
  String.length s = n /\ all is_digit s = true.

(** A group entry without its grade. *)
Definition forget_grade (e : AdminController.graded) : AdminController.marked :=
  let '(name, student_id, _, avg_mark) := e in (name, student_id, avg_mark).

(** The entropy that a sequence of [Subject()] calls reads, id first. *)
Definition draws (pairs : list (Z * Z)) : list Z :=
  flat_map (fun p => [fst p; snd p]) pairs.

(** ** Sample data *)

Definition john : Student.t :=
  Student.mk "000042" "John" "john.smith@university.com" "Abcde123" [].

Definition john_world : World :=
  mkWorld [("john.smith@university.com", john)] [] [].

Definition s101 : Subject.t := Subject.mk "101" 40 "Z".
Definition s102 : Subject.t := Subject.mk "102" 60 "P".
Definition s103 : Subject.t := Subject.mk "103" 70 "C".
Definition s104 : Subject.t := Subject.mk "104" 90 "HD".

(** A student with marks 40 and 60. *)
Definition ann : Student.t :=
  Student.mk "000007" "Ann" "ann.lee@university.com" "Abcde123" [s101; s102].

(** A student with three subjects. *)
Definition bob : Student.t :=
  Student.mk "000008" "Bob" "bob.ray@university.com" "Abcde123" [s101; s102; s103].

(** A student with four subjects. *)
Definition cat : Student.t :=
  Student.mk "000009" "Cat" "cat.fox@university.com" "Abcde123" [s101; s102; s103; s104].

(** Two records that share a student id. *)
Definition twin_a : Student.t :=
  Student.mk "000001" "Tia" "tia.one@university.com" "Abcde123" [].
Definition twin_b : Student.t :=
  Student.mk "000001" "Tom" "tom.two@university.com" "Abcde123" [].
Definition twins : PyDict.t Student.t :=
  [("tia.one@university.com", twin_a); ("tom.two@university.com", twin_b)].

(** A student with one mark beyond the floats. *)
Definition huge : Student.t :=
  Student.mk "000010" "Max" "max.big@university.com" "Abcde123"
             [Subject.mk "105" (10 ^ 400) "HD"].

(** An empty file and some entropy. *)
Definition fresh_world (rs : list Z) : World := mkWorld [] rs [].

(** * Properties *)

Example email_ok : _is_valid_email "john.smith@university.com" = true.
Proof. reflexivity. Qed.
Example email_no_dot : _is_valid_email "johnsmith@university.com" = false.
Proof. reflexivity. Qed.
Example email_other : _is_valid_email "john.smith@other.com" = false.
Proof. reflexivity. Qed.
Example email_digits : _is_valid_email "John.Smith123@university.com" = false.
Proof. reflexivity. Qed.
Example password_ok : _is_valid_password "Abcde123" = true.
Proof. reflexivity. Qed.
Example password_lower : _is_valid_password "abcde123" = false.
Proof. reflexivity. Qed.
Example password_short : _is_valid_password "Abc123" = false.
Proof. reflexivity. Qed.
Example password_two_digits : _is_valid_password "Abcdefg12" = false.
Proof. reflexivity. Qed.
Example email_nl : _is_valid_email ("john.smith@university.com" ++ nl) = true.
Proof. reflexivity. Qed.
Example str_of_nat_ex : str_of_nat 0 = "0" /\ str_of_nat 4 = "4".
Proof. split; reflexivity. Qed.
Example format_ex : format_0 6 42 = "000042" /\ format_0 3 999 = "999" /\ format_0 6 1234567 = "1234567".
Proof. repeat split; reflexivity. Qed.

(** ** Strings *)

Lemma all_app (p : ascii -> bool) (a b : string) :
  all p (a ++ b) = all p a && all p b.
Proof.
  induction a as [|c a IH]; simpl; [reflexivity|].
  now rewrite IH, andb_assoc.
Qed.

Lemma append_nil_r (s : string) : s ++ EmptyString = s.
Proof. induction s; simpl; congruence. Qed.

Lemma append_assoc (a b c : string) : (a ++ b) ++ c = a ++ b ++ c.
Proof. induction a; simpl; congruence. Qed.

Lemma length_append (a b : string) :
  String.length (a ++ b) = (String.length a + String.length b)%nat.
Proof. induction a; simpl; congruence. Qed.

Lemma append_inj_r (a b c : string) : a ++ b = a ++ c -> b = c.
Proof. induction a; simpl; intros H; [assumption|]. injection H; auto. Qed.

Lemma append_inj_l (a b c : string) : a ++ c = b ++ c -> a = b.
Proof.
  revert b; induction a as [|x a IH]; intros [|y b] H; simpl in H.
  - reflexivity.
  - apply (f_equal String.length) in H. simpl in H. rewrite length_append in H. lia.
  - apply (f_equal String.length) in H. simpl in H. rewrite length_append in H. lia.
  - injection H as -> H. f_equal. auto.
Qed.

(** ** The matcher *)

Lemma at_end_iff (s : string) : Re.at_end s = true <-> s = EmptyString \/ s = nl.
Proof.
  destruct s as [|c [|d s]]; simpl.
  - intuition.
  - rewrite Ascii.eqb_eq. unfold nl. split.
    + intros ->. now right.
    + intros [H|H]; [discriminate|]. now injection H.
  - split; [discriminate|]. unfold nl. intros [H|H]; discriminate.
Qed.

(** A repetition matches a run of the class of at least [lo] characters
    such that the continuation accepts what follows the run. *)
Lemma rep_true_iff (p : ascii -> bool) (k : nat -> string -> bool) (s : string) :
  forall lo pos,
    Re.rep p k lo pos s = true <->
    exists a rest,
      s = a ++ rest /\ all p a = true /\ (lo <= String.length a)%nat
      /\ k (pos + String.length a)%nat rest = true.
Proof.
  induction s as [|c s IH]; intros lo pos; simpl.
  - rewrite andb_true_iff, Nat.eqb_eq. split.
    + intros [-> Hk]. exists EmptyString, EmptyString. simpl. rewrite Nat.add_0_r. auto.
    + intros (a & rest & E & _ & Hlo & Hk).
      destruct a; [|discriminate]. simpl in *. subst rest.
      rewrite Nat.add_0_r in Hk. split; [lia|assumption].
  - rewrite orb_true_iff, !andb_true_iff, Nat.eqb_eq, IH. split.
    + intros [[Hc (a & rest & -> & Ha & Hlo & Hk)] | [-> Hk]].
      * exists (String c a), rest. simpl. rewrite Hc, Ha.
        rewrite Nat.add_succ_r. repeat split; auto. lia.
      * exists EmptyString, (String c s). simpl. rewrite Nat.add_0_r. auto.
    + intros (a & rest & E & Ha & Hlo & Hk). destruct a as [|c' a]; simpl in *.
      * right. subst rest. rewrite Nat.add_0_r in Hk. split; [lia|assumption].
      * left. injection E as <- ->. apply andb_true_iff in Ha as [Hc Ha].
        split; [assumption|]. exists a, rest.
        rewrite Nat.add_succ_r in Hk. repeat split; auto. lia.
Qed.

Lemma run_lits (l : string) (pat : Re.pattern) :
  forall pos s,
    Re.run (Re.lits l ++ pat)%list pos s = true <->
    exists rest, s = l ++ rest /\ Re.run pat (pos + String.length l)%nat rest = true.
Proof.
  induction l as [|c l IH]; intros pos s; simpl.
  - rewrite Nat.add_0_r. split; [eauto|]. now intros (rest & -> & H).
  - unfold Re.lits in *. simpl. destruct s as [|c' s].
    + split; [discriminate|]. intros (rest & E & _). discriminate.
    + rewrite andb_true_iff, Ascii.eqb_eq, IH. rewrite Nat.add_succ_r. split.
      * intros [-> (rest & -> & H)]. eauto.
      * intros (rest & E & H). injection E as -> ->. eauto.
Qed.

Lemma nonempty_length (s : string) : s <> EmptyString <-> (1 <= String.length s)%nat.
Proof. destruct s; simpl; split; intros; try congruence; try lia. Qed.

(** What the e-mail pattern accepts: the specified form, followed by
    nothing or by one line feed. *)
Lemma email_accepts (s : string) :
  _is_valid_email s = true <->
  exists a b t,
    s = a ++ "." ++ b ++ "@university.com" ++ t
    /\ a <> EmptyString /\ b <> EmptyString /\ all Re.alpha a = true /\ all Re.alpha b = true
    /\ (t = EmptyString \/ t = nl).
Proof.
  unfold _is_valid_email, Re.matches, email_pattern.
  cbn [app Re.run Nat.eqb andb]. rewrite rep_true_iff. split.
  - intros (a & r1 & -> & Ha & La & H). cbn [Re.run] in H.
    destruct r1 as [|c r1]; [discriminate|].
    apply andb_true_iff in H as [Hc H]. apply Ascii.eqb_eq in Hc as <-.
    apply rep_true_iff in H as (b & r2 & -> & Hb & Lb & H).
    apply run_lits in H as (t & -> & H). cbn [Re.run] in H.
    rewrite andb_true_r in H. apply at_end_iff in H.
    exists a, b, t. rewrite !nonempty_length. simpl. auto 10.
  - intros (a & b & t & -> & Na & Nb & Ha & Hb & Ht).
    apply nonempty_length in Na, Nb.
    exists a, ("." ++ b ++ "@university.com" ++ t). repeat split; auto.
    cbn [Re.run append]. rewrite Ascii.eqb_refl. cbn [andb].
    apply rep_true_iff. exists b, ("@university.com" ++ t). repeat split; auto.
    apply run_lits. exists t. split; [reflexivity|]. cbn [Re.run].
    rewrite andb_true_r. now apply at_end_iff.
Qed.

(** What the password pattern accepts. *)
Lemma password_accepts (s : string) :
  _is_valid_password s = true <->
  exists u l d t,
    s = String u (l ++ d ++ t)
    /\ Re.upper u = true
    /\ all Re.alpha l = true /\ (4 <= String.length l)%nat
    /\ all Re.digit d = true /\ (3 <= String.length d)%nat
    /\ (t = EmptyString \/ t = nl).
Proof.
  unfold _is_valid_password, Re.matches, password_pattern.
  cbn [Re.run Nat.eqb andb]. destruct s as [|u s].
  - split; [discriminate|]. intros (u & l & d & t & E & _). discriminate.
  - rewrite andb_true_iff, rep_true_iff. split.
    + intros (Hu & l & r1 & -> & Hl & Ll & H).
      apply rep_true_iff in H as (d & t & -> & Hd & Ld & H).
      cbn [Re.run] in H. rewrite andb_true_r in H. apply at_end_iff in H.
      exists u, l, d, t. auto 10.
    + intros (u' & l & d & t & E & Hu & Hl & Ll & Hd & Ld & Ht).
      injection E as <- ->. split; [assumption|].
      exists l, (d ++ t). repeat split; auto.
      apply rep_true_iff. exists d, t. repeat split; auto.
      cbn [Re.run]. rewrite andb_true_r. now apply at_end_iff.
Qed.

(** ** Credential validator against its specification *)

Lemma all_impl (p q : ascii -> bool) (s : string) :
  (forall c, p c = true -> q c = true) -> all p s = true -> all q s = true.
Proof.
  intros Hpq. induction s as [|c s IH]; simpl; [reflexivity|].
  rewrite !andb_true_iff. intros [H1 H2]. auto.
Qed.

Lemma spec_email_chars (s : string) :
  spec_email s ->
  all (fun c => Re.alpha c || Ascii.eqb c "." || Ascii.eqb c "@") s = true.
Proof.
  intros (a & b & -> & _ & _ & Ha & Hb).
  rewrite !all_app, !andb_true_iff. repeat split.
  - apply (all_impl Re.alpha); [|assumption]. now intros c ->.
  - apply (all_impl Re.alpha); [|assumption]. now intros c ->.
Qed.

Lemma spec_password_chars (s : string) :
  spec_password s -> all (fun c => Re.alpha c || Re.digit c) s = true.
Proof.
  intros (u & l & d & -> & Hu & Hl & _ & Hd & _).
  simpl. rewrite all_app, !andb_true_iff. repeat split.
  - unfold Re.alpha. now rewrite Hu, orb_true_r.
  - apply (all_impl Re.alpha); [|assumption]. now intros c ->.
  - apply (all_impl Re.digit); [|assumption]. intros c ->. apply orb_true_r.
Qed.

(** X1. The e-mail validator accepts the specified strings and, besides them,
    each of them followed by one line feed. *)
Theorem is_valid_email_refinement (s : string) :
  _is_valid_email s = true <->
  spec_email s \/ exists s', s = s' ++ nl /\ spec_email s'.
Proof.
  rewrite email_accepts. split.
  - intros (a & b & t & -> & Na & Nb & Ha & Hb & [-> | ->]).
    + left. exists a, b. auto.
    + right. exists (a ++ "." ++ b ++ "@university.com"). split.
      * now rewrite !append_assoc.
      * exists a, b. auto.
  - intros [(a & b & -> & H) | (s' & -> & a & b & -> & H)].
    + exists a, b, EmptyString. intuition.
    + exists a, b, nl. rewrite !append_assoc. intuition.
Qed.

(** *** The validator on strings of arbitrary code points *)

Lemma wide_at_end_iff (s : Wide.str) :
  Wide.at_end s = true <-> s = [] \/ s = [10%N].
Proof.
  destruct s as [|c [|d s]]; simpl.
  - intuition.
  - rewrite N.eqb_eq. split.
    + intros ->. now right.
    + intros [H|H]; [discriminate|]. now injection H.
  - split; [discriminate|]. intros [H|H]; discriminate.
Qed.

Lemma wide_rep_true_iff (p : N -> bool) (k : nat -> Wide.str -> bool) (s : Wide.str) :
  forall lo pos,
    Wide.rep p k lo pos s = true <->
    exists run_ rest,
      s = (run_ ++ rest)%list /\ forallb p run_ = true
      /\ (lo <= List.length run_)%nat
      /\ k (pos + List.length run_)%nat rest = true.
Proof.
  induction s as [|c s IH]; intros lo pos; simpl.
  - rewrite andb_true_iff, Nat.eqb_eq. split.
    + intros [-> Hk]. exists [], []. simpl. rewrite Nat.add_0_r. auto.
    + intros (a & rest & E & _ & Hlo & Hk).
      symmetry in E. apply app_eq_nil in E as [-> ->]. simpl in *.
      rewrite Nat.add_0_r in Hk. split; [lia|assumption].
  - rewrite orb_true_iff, !andb_true_iff, Nat.eqb_eq, IH. split.
    + intros [[Hc (a & rest & -> & Ha & Hlo & Hk)] | [-> Hk]].
      * exists (c :: a), rest. simpl. rewrite Hc, Ha.
        rewrite Nat.add_succ_r. repeat split; auto. lia.
      * exists [], (c :: s). simpl. rewrite Nat.add_0_r. auto.
    + intros (a & rest & E & Ha & Hlo & Hk). destruct a as [|c' a]; simpl in *.
      * right. subst rest. rewrite Nat.add_0_r in Hk. split; [lia|assumption].
      * left. injection E as <- ->. apply andb_true_iff in Ha as [Hc Ha].
        split; [assumption|]. exists a, rest.
        rewrite Nat.add_succ_r in Hk. repeat split; auto. lia.
Qed.

Lemma wide_password_accepts (nd : N -> bool) (s : Wide.str) :
  Wide._is_valid_password nd s = true <->
  exists u l d t,
    s = u :: (l ++ d ++ t)%list
    /\ Wide.upper u = true
    /\ forallb Wide.alpha l = true /\ (4 <= List.length l)%nat
    /\ forallb (Wide.digit nd) d = true /\ (3 <= List.length d)%nat
    /\ (t = [] \/ t = [10%N]).
Proof.
  unfold Wide._is_valid_password, Wide.matches, Wide.password_pattern.
  cbn [Wide.run Nat.eqb andb]. destruct s as [|u s].
  - split; [discriminate|]. intros (u & l & d & t & E & _). discriminate.
  - rewrite andb_true_iff, wide_rep_true_iff. split.
    + intros (Hu & l & r1 & -> & Hl & Ll & H).
      apply wide_rep_true_iff in H as (d & t & -> & Hd & Ld & H).
      cbn [Wide.run] in H. rewrite andb_true_r in H. apply wide_at_end_iff in H.
      exists u, l, d, t. auto 10.
    + intros (u' & l & d & t & E & Hu & Hl & Ll & Hd & Ld & Ht).
      injection E as <- ->. split; [assumption|].
      exists l, (d ++ t)%list. repeat split; auto.
      apply wide_rep_true_iff. exists d, t. repeat split; auto.
      cbn [Wide.run]. rewrite andb_true_r. now apply wide_at_end_iff.
Qed.

(** On a code point below 256 the classes are those of the 8-bit model. *)
Lemma wide_classes (nd : N -> bool) (c : ascii) :
  Wide.upper (N_of_ascii c) = Re.upper c
  /\ Wide.alpha (N_of_ascii c) = Re.alpha c
  /\ Wide.digit nd (N_of_ascii c) = Re.digit c
  /\ (N_of_ascii c =? 10)%N = Ascii.eqb c (ascii_of_nat 10).
Proof.
  destruct c as [[|] [|] [|] [|] [|] [|] [|] [|]]; repeat split; reflexivity.
Qed.

Lemma wide_at_end_of_string (s : string) :
  Wide.at_end (Wide.of_string s) = Re.at_end s.
Proof.
  destruct s as [|c [|d s]]; try reflexivity.
  exact (proj2 (proj2 (proj2 (wide_classes (fun _ => false) c)))).
Qed.

Lemma wide_rep_of_string (p : ascii -> bool) (q : N -> bool)
      (k : nat -> string -> bool) (k' : nat -> Wide.str -> bool) :
  (forall c, q (N_of_ascii c) = p c) ->
  (forall pos s, k' pos (Wide.of_string s) = k pos s) ->
  forall s lo pos, Wide.rep q k' lo pos (Wide.of_string s) = Re.rep p k lo pos s.
Proof.
  intros Hq Hk. induction s as [|c s IH]; intros lo pos.
  - simpl. now rewrite <- Hk.
  - change (Wide.of_string (String c s)) with (N_of_ascii c :: Wide.of_string s).
    simpl. rewrite Hq, IH. f_equal. f_equal. apply (Hk pos (String c s)).
Qed.

Lemma wide_password_of_string (nd : N -> bool) (s : string) :
  Wide._is_valid_password nd (Wide.of_string s) = _is_valid_password s.
Proof.
  unfold Wide._is_valid_password, _is_valid_password, Wide.matches, Re.matches,
    Wide.password_pattern, password_pattern.
  cbn [Wide.run Re.run Nat.eqb andb]. destruct s as [|u s]; [reflexivity|].
  change (Wide.of_string (String u s)) with (N_of_ascii u :: Wide.of_string s).
  destruct (wide_classes nd u) as (-> & _). f_equal.
  apply wide_rep_of_string; [intros c; apply (wide_classes nd c)|].
  intros pos r. apply wide_rep_of_string; [intros c; apply (wide_classes nd c)|].
  intros pos' r'. cbn [Wide.run Re.run]. now rewrite wide_at_end_of_string.
Qed.

Lemma of_string_below (s : string) :
  Forall (fun c => (c < 256)%N) (Wide.of_string s).
Proof.
  induction s as [|c s IH]; constructor; [apply N_ascii_bounded|exact IH].
Qed.

(** X2. On a Python string, a sequence of arbitrary code points, the
    password validator accepts exactly one letter A-Z, four or more
    letters a-z or A-Z and three or more characters of the class [\d],
    and each such string followed by one line feed.  The class [\d] is
    0-9 below code point 256 and whatever decimal digits [nd] the
    Unicode tables of the interpreter hold from 256 on.  On the strings
    of code points below 256 the validator is the one of the 8-bit
    model, which accepts the specified strings (digits 0 to 9) and each
    of them followed by one line feed.  A decimal digit from 256 on,
    thrice after five letters, is accepted as well, which is not the
    specified form with the digits 0 to 9. *)
Theorem is_valid_password_refinement (nd : N -> bool) :
  (forall s : Wide.str,
      Wide._is_valid_password nd s = true <->
      Wide.password_form nd s
      \/ exists s', s = (s' ++ [10%N])%list /\ Wide.password_form nd s')
  /\ (forall s : string,
         Wide._is_valid_password nd (Wide.of_string s) = _is_valid_password s)
  /\ (forall s : string,
         _is_valid_password s = true <->
         spec_password s \/ exists s', s = s' ++ nl /\ spec_password s')
  /\ (forall c : N,
         (255 < c)%N -> nd c = true ->
         Wide._is_valid_password nd [65; 98; 99; 100; 101; c; c; c]%N = true
         /\ ~ Wide.password_form (fun _ => false) [65; 98; 99; 100; 101; c; c; c]%N
         /\ forall s : string, Wide.of_string s <> [65; 98; 99; 100; 101; c; c; c]%N).
Proof.
  split; [|split; [exact (wide_password_of_string nd)|split]].
  - intros s. rewrite wide_password_accepts. split.
    + intros (u & l & d & t & -> & Hu & Hl & Ll & Hd & Ld & [-> | ->]).
      * left. exists u, l, d. rewrite app_nil_r. auto 10.
      * right. exists (u :: l ++ d)%list. split.
        -- simpl. now rewrite app_assoc.
        -- exists u, l, d. auto 10.
    + intros [(u & l & d & -> & H) | (s' & -> & u & l & d & -> & H)].
      * exists u, l, d, []. rewrite app_nil_r. intuition.
      * exists u, l, d, [10%N]. simpl. rewrite <- app_assoc. intuition.
  - intros s. rewrite password_accepts. split.
    + intros (u & l & d & t & -> & Hu & Hl & Ll & Hd & Ld & [-> | ->]).
      * left. exists u, l, d. rewrite append_nil_r. auto 10.
      * right. exists (String u (l ++ d)). split.
        -- simpl. now rewrite append_assoc.
        -- exists u, l, d. auto 10.
    + intros [(u & l & d & -> & H) | (s' & -> & u & l & d & -> & H)].
      * exists u, l, d, EmptyString. rewrite append_nil_r. intuition.
      * exists u, l, d, nl. simpl. rewrite append_assoc. intuition.
  - intros c Hc Hnd.
    assert (D : Wide.digit nd c = true).
    { unfold Wide.digit. destruct (c <? 256)%N eqn:L; [|exact Hnd].
      apply N.ltb_lt in L. lia. }
    assert (D0 : Wide.digit (fun _ => false) c = false).
    { unfold Wide.digit. destruct (c <? 256)%N eqn:L; [|reflexivity].
      apply N.ltb_lt in L. lia. }
    split; [|split].
    + apply wide_password_accepts.
      exists 65%N, [98; 99; 100; 101]%N, [c; c; c], [].
      simpl. rewrite D. repeat split; auto.
    + intros (u & l & d & E & _ & _ & _ & Hd & Ld).
      assert (Last : exists d', d = (d' ++ [c])%list).
      { destruct (exists_last (l := d)) as (d' & x & ->).
        - intros ->. simpl in Ld. lia.
        - exists d'. f_equal. f_equal.
          change [65; 98; 99; 100; 101; c; c; c]%N
            with ([65; 98; 99; 100; 101; c; c]%N ++ [c])%list in E.
          rewrite app_comm_cons, app_assoc in E.
          apply app_inj_tail in E as [_ E]. now symmetry. }
      destruct Last as (d' & ->).
      rewrite forallb_app in Hd. simpl in Hd. rewrite D0 in Hd.
      rewrite andb_false_r in Hd. discriminate.
    + intros s E.
      pose proof (of_string_below s) as B. rewrite E in B.
      rewrite Forall_forall in B.
      specialize (B c). simpl in B. assert (c < 256)%N by auto 10. lia.
Qed.

(** C5. The e-mail validator is meant to accept exactly the strings made of
    two alphabetic tokens around a dot and the domain university.com.  It
    accepts the four example strings as specified, but it also accepts
    "john.smith@university.com" followed by a line feed, which is not of
    that form. *)
Theorem is_valid_email_trailing_newline :
  _is_valid_email "john.smith@university.com" = true
  /\ _is_valid_email "johnsmith@university.com" = false
  /\ _is_valid_email "john.smith@other.com" = false
  /\ _is_valid_email "John.Smith123@university.com" = false
  /\ _is_valid_email ("john.smith@university.com" ++ nl) = true
  /\ ~ spec_email ("john.smith@university.com" ++ nl).
Proof.
  repeat split; try reflexivity.
  intros H. apply spec_email_chars in H. vm_compute in H. discriminate.
Qed.

(** C6. The password validator is meant to accept exactly the strings made
    of an uppercase letter, four or more letters and three or more digits.
    It accepts and rejects the four example strings as specified, but it
    also accepts "Abcde123" followed by a line feed, which does not end
    with digits. *)
Theorem is_valid_password_trailing_newline :
  _is_valid_password "Abcde123" = true
  /\ _is_valid_password "abcde123" = false
  /\ _is_valid_password "Abc123" = false
  /\ _is_valid_password "Abcdefg12" = false
  /\ _is_valid_password ("Abcde123" ++ nl) = true
  /\ ~ spec_password ("Abcde123" ++ nl).
Proof.
  repeat split; try reflexivity.
  intros H. apply spec_password_chars in H. vm_compute in H. discriminate.
Qed.

(** ** Grade policy *)

Lemma Qlt_bool_iff (x y : Q) : Qlt_bool x y = true <-> x < y.
Proof.
  unfold Qlt_bool. rewrite negb_true_iff, <- not_true_iff_false, Qle_bool_iff.
  split; [apply Qnot_le_lt | apply Qlt_not_le].
Qed.

Lemma Qlt_bool_false (x y : Q) : Qlt_bool x y = false <-> y <= x.
Proof.
  unfold Qlt_bool. rewrite negb_false_iff. apply Qle_bool_iff.
Qed.

Lemma assign_grade_cases (mark : Q) :
  (mark < 50 /\ Subject.assign_grade mark = "Z")
  \/ (50 <= mark /\ mark < 65 /\ Subject.assign_grade mark = "P")
  \/ (65 <= mark /\ mark < 75 /\ Subject.assign_grade mark = "C")
  \/ (75 <= mark /\ mark < 85 /\ Subject.assign_grade mark = "D")
  \/ (85 <= mark /\ Subject.assign_grade mark = "HD").
Proof.
  unfold Subject.assign_grade.
  destruct (Qlt_bool mark 50) eqn:H50.
  { left. now rewrite <- Qlt_bool_iff. }
  apply Qlt_bool_false in H50. right.
  assert (E50 : Qle_bool 50 mark = true) by now apply Qle_bool_iff.
  rewrite E50. cbn [andb].
  destruct (Qlt_bool mark 65) eqn:H65.
  { left. rewrite <- Qlt_bool_iff. auto. }
  apply Qlt_bool_false in H65. right.
  assert (E65 : Qle_bool 65 mark = true) by now apply Qle_bool_iff.
  rewrite E65. cbn [andb].
  destruct (Qlt_bool mark 75) eqn:H75.
  { left. rewrite <- Qlt_bool_iff. auto. }
  apply Qlt_bool_false in H75. right.
  assert (E75 : Qle_bool 75 mark = true) by now apply Qle_bool_iff.
  rewrite E75. cbn [andb].
  destruct (Qlt_bool mark 85) eqn:H85.
  { left. rewrite <- Qlt_bool_iff. auto. }
  apply Qlt_bool_false in H85. right. auto.
Qed.

(** C4. For every mark, integer or fractional, [assign_grade] returns Z
    below 50, P from 50 to below 65, C from 65 to below 75, D from 75 to
    below 85 and HD from 85 on; an integer mark is graded as the same
    number taken as a fraction; and the eight boundary marks get the
    grades Z, P, P, C, C, D, D, HD. *)
Theorem assign_grade_thresholds :
  (forall mark : Q,
      (mark < 50 -> Subject.assign_grade mark = "Z")
      /\ (50 <= mark -> mark < 65 -> Subject.assign_grade mark = "P")
      /\ (65 <= mark -> mark < 75 -> Subject.assign_grade mark = "C")
      /\ (75 <= mark -> mark < 85 -> Subject.assign_grade mark = "D")
      /\ (85 <= mark -> Subject.assign_grade mark = "HD"))
  /\ (forall (m : Z) (q : Q), inject_Z m == q ->
        Subject.assign_grade (inject_Z m) = Subject.assign_grade q)
  /\ Subject.assign_grade (499 # 10) = "Z"
  /\ Subject.assign_grade 50 = "P"
  /\ Subject.assign_grade (649 # 10) = "P"
  /\ Subject.assign_grade 65 = "C"
  /\ Subject.assign_grade (749 # 10) = "C"
  /\ Subject.assign_grade 75 = "D"
  /\ Subject.assign_grade (849 # 10) = "D"
  /\ Subject.assign_grade 85 = "HD".
Proof.
  split; [|split; [|repeat split; reflexivity]].
  - intros mark.
    destruct (assign_grade_cases mark)
      as [[L E] | [(L & U & E) | [(L & U & E) | [(L & U & E) | [L E]]]]];
      rewrite E; repeat split; intros;
      try reflexivity; exfalso;
      repeat match goal with
             | H : _ <= _ |- _ => apply Qle_bool_iff in H
             | H : _ < _ |- _ => apply Qlt_bool_iff in H
             end;
      unfold Qlt_bool, Qle_bool in *;
      repeat match goal with
             | H : negb _ = true |- _ => apply negb_true_iff in H
             | H : (_ <=? _)%Z = true |- _ => apply Z.leb_le in H
             | H : (_ <=? _)%Z = false |- _ => apply Z.leb_gt in H
             end;
      simpl in *; lia.
  - intros m q Hq.
    destruct (assign_grade_cases (inject_Z m))
      as [[L E] | [(L & U & E) | [(L & U & E) | [(L & U & E) | [L E]]]]];
      rewrite E; rewrite Hq in *;
      destruct (assign_grade_cases q)
        as [[L' E'] | [(L' & U' & E') | [(L' & U' & E') | [(L' & U' & E') | [L' E']]]]];
      rewrite E'; try reflexivity; exfalso;
      repeat match goal with
             | H : _ <= _ |- _ => apply Qle_bool_iff in H
             | H : _ < _ |- _ => apply Qlt_bool_iff in H
             end;
      unfold Qlt_bool, Qle_bool in *;
      repeat match goal with
             | H : negb _ = true |- _ => apply negb_true_iff in H
             | H : (_ <=? _)%Z = true |- _ => apply Z.leb_le in H
             | H : (_ <=? _)%Z = false |- _ => apply Z.leb_gt in H
             end;
      simpl in *; lia.
Qed.

(** ** Dictionaries *)

Section DictFacts.
Context {V : Type}.
Implicit Types (d : PyDict.t V) (k : string) (v : V).

Lemma getitem_None_iff k d : PyDict.getitem k d = None <-> ~ In k (PyDict.keys d).
Proof.
  induction d as [|[k' v'] d IH]; simpl; [intuition|].
  destruct (String.eqb_spec k' k) as [->|N].
  - split; [discriminate|]. intros H. exfalso. auto.
  - rewrite IH. intuition.
Qed.

Lemma getitem_In k v d : PyDict.getitem k d = Some v -> In (k, v) d.
Proof.
  induction d as [|[k' v'] d IH]; simpl; [discriminate|].
  destruct (String.eqb_spec k' k) as [->|N]; [|auto].
  intros H. injection H as ->. now left.
Qed.

Lemma contains_false k d : PyDict.contains k d = false <-> PyDict.getitem k d = None.
Proof. unfold PyDict.contains. destruct (PyDict.getitem k d); intuition discriminate. Qed.

Lemma contains_true k d :
  PyDict.contains k d = true <-> exists v, PyDict.getitem k d = Some v.
Proof.
  unfold PyDict.contains. destruct (PyDict.getitem k d); split;
    try discriminate; eauto. intros (v & H). discriminate.
Qed.

Lemma getitem_setitem_eq k v d : PyDict.getitem k (PyDict.setitem k v d) = Some v.
Proof.
  induction d as [|[k' v'] d IH]; simpl.
  - now rewrite String.eqb_refl.
  - destruct (String.eqb k' k) eqn:E; simpl; now rewrite E.
Qed.

Lemma getitem_setitem_neq k k' v d :
  k <> k' -> PyDict.getitem k' (PyDict.setitem k v d) = PyDict.getitem k' d.
Proof.
  intros N. induction d as [|[k0 v0] d IH]; simpl.
  - destruct (String.eqb_spec k k'); congruence.
  - destruct (String.eqb_spec k0 k) as [->|N0]; simpl.
    + destruct (String.eqb_spec k k'); congruence.
    + now rewrite IH.
Qed.

(** A new key goes to the end. *)
Lemma setitem_absent k v d :
  PyDict.getitem k d = None -> PyDict.setitem k v d = (d ++ [(k, v)])%list.
Proof.
  induction d as [|[k' v'] d IH]; simpl; [reflexivity|].
  destruct (String.eqb k' k); [discriminate|]. intros H. now rewrite IH.
Qed.

Lemma keys_setitem_present k v d :
  In k (PyDict.keys d) -> PyDict.keys (PyDict.setitem k v d) = PyDict.keys d.
Proof.
  induction d as [|[k' v'] d IH]; simpl; [contradiction|].
  destruct (String.eqb_spec k' k) as [->|N]; simpl; [reflexivity|].
  intros [E|H]; [contradiction|]. now rewrite IH.
Qed.

Lemma Forall_values_setitem (P : V -> Prop) k v d :
  Forall P (PyDict.values d) -> P v -> Forall P (PyDict.values (PyDict.setitem k v d)).
Proof.
  intros H Hv. induction d as [|[k' v'] d IH]; simpl.
  - auto.
  - inversion H; subst. destruct (String.eqb k' k); simpl; constructor; auto.
Qed.

Lemma Forall_values_delitem (P : V -> Prop) k d d' :
  PyDict.delitem k d = Some d' -> Forall P (PyDict.values d) -> Forall P (PyDict.values d').
Proof.
  revert d'. induction d as [|[k' v'] d IH]; simpl; intros d' E H; [discriminate|].
  inversion H; subst. destruct (String.eqb k' k).
  - now injection E as <-.
  - destruct (PyDict.delitem k d) as [d''|]; [|discriminate].
    injection E as <-. simpl. constructor; auto.
Qed.

(** Deleting a key that first occurs after [pre]. *)
Lemma delitem_middle k v (pre post : PyDict.t V) :
  ~ In k (PyDict.keys pre) ->
  PyDict.delitem k (pre ++ (k, v) :: post)%list = Some (pre ++ post)%list.
Proof.
  induction pre as [|[k' v'] pre IH]; simpl; intros N.
  - now rewrite String.eqb_refl.
  - destruct (String.eqb_spec k' k) as [->|N']; [exfalso; auto|].
    rewrite IH; auto.
Qed.

(** A dictionary holds exactly one entry for a key it contains. *)
Lemma wf_one_entry k d :
  PyDict.wf d -> PyDict.contains k d = true ->
  List.length (filter (fun item => String.eqb (fst item) k) d) = 1%nat.
Proof.
  unfold PyDict.wf. induction d as [|[k' v'] d IH]; simpl; intros W C.
  - discriminate.
  - inversion W as [|? ? N W']; subst. unfold PyDict.contains in C. simpl in C.
    destruct (String.eqb_spec k' k) as [->|N'].
    + simpl. f_equal. clear IH C W W'. induction d as [|[k0 v0] d IH]; [reflexivity|].
      simpl in *. destruct (String.eqb_spec k0 k) as [->|]; [exfalso; auto|].
      apply IH. auto.
    + apply IH; assumption.
Qed.

End DictFacts.

(** ** Authentication *)

Lemma messages_differ : msg_does_not_exist <> msg_incorrect_format.
Proof. intros H. vm_compute in H. discriminate. Qed.

(** C2, as amended.  [login_student] answers a malformed e-mail or password
    with the message "Incorrect email or password format." whatever the
    file holds; a well-formed pair whose e-mail keys no record with the
    different message "Student does not exist."; a well-formed pair whose
    stored password differs from the supplied one (compared character by
    character) with the same message as a malformed pair; and it returns
    the stored student when the passwords are equal. *)
Theorem login_student_outcomes (email password : string) (w : World) :
  (_is_valid_email email = false \/ _is_valid_password password = false ->
   StudentController.login_student email password w = Ok (inl msg_incorrect_format) w)
  /\ (_is_valid_email email = true -> _is_valid_password password = true ->
      PyDict.getitem email (file w) = None ->
      StudentController.login_student email password w = Ok (inl msg_does_not_exist) w)
  /\ (forall stored,
         _is_valid_email email = true -> _is_valid_password password = true ->
         PyDict.getitem email (file w) = Some stored ->
         Student.password stored <> password ->
         StudentController.login_student email password w = Ok (inl msg_incorrect_format) w)
  /\ (forall stored,
         _is_valid_email email = true -> _is_valid_password password = true ->
         PyDict.getitem email (file w) = Some stored ->
         Student.password stored = password ->
         StudentController.login_student email password w
         = Ok (inr stored) (printed [msg_login_successful] w))
  /\ msg_does_not_exist <> msg_incorrect_format.
Proof.
  unfold StudentController.login_student, bind, Database.load_data, ret, raise, print.
  repeat split.
  - intros [-> | ->]; [reflexivity|]. now rewrite orb_true_r.
  - intros -> -> G. apply contains_false in G. now rewrite G.
  - intros stored -> -> G N. simpl.
    assert (C : PyDict.contains email (file w) = true)
      by (apply contains_true; eauto).
    rewrite C, G. simpl. apply String.eqb_neq in N. now rewrite N.
  - intros stored -> -> G E. simpl.
    assert (C : PyDict.contains email (file w) = true)
      by (apply contains_true; eauto).
    rewrite C, G. simpl. apply String.eqb_eq in E. now rewrite E.
  - apply messages_differ.
Qed.

Lemma login_student_outcomes_witness :
  StudentController.login_student "john.smith" "Abcde123" john_world
  = Ok (inl msg_incorrect_format) john_world
  /\ StudentController.login_student "jane.doe@university.com" "Abcde123" john_world
     = Ok (inl msg_does_not_exist) john_world
  /\ StudentController.login_student "john.smith@university.com" "Abcde124" john_world
     = Ok (inl msg_incorrect_format) john_world
  /\ StudentController.login_student "john.smith@university.com" "Abcde123" john_world
     = Ok (inr john) (printed [msg_login_successful] john_world).
Proof.
  split; [|split; [|split]].
  - apply (login_student_outcomes "john.smith" "Abcde123" john_world).
    left. reflexivity.
  - apply (login_student_outcomes "jane.doe@university.com" "Abcde123" john_world);
      reflexivity.
  - apply (login_student_outcomes "john.smith@university.com" "Abcde124" john_world)
      with (stored := john); try reflexivity.
    intros H. vm_compute in H. discriminate.
  - apply (login_student_outcomes "john.smith@university.com" "Abcde123" john_world)
      with (stored := john); reflexivity.
Defined.

(** A wrong password is not told apart from a malformed one: both calls
    return the same value. *)
Lemma login_wrong_password_not_distinct :
  _is_valid_email "john.smith@university.com" = true
  /\ _is_valid_password "Abcde124" = true
  /\ _is_valid_password "abcde" = false
  /\ PyDict.getitem "john.smith@university.com" (file john_world) = Some john
  /\ Student.password john <> "Abcde124"
  /\ StudentController.login_student "john.smith@university.com" "Abcde124" john_world
     = StudentController.login_student "john.smith@university.com" "abcde" john_world.
Proof.
  repeat split; try reflexivity.
  intros H. vm_compute in H. discriminate.
Qed.

(** ** Registration *)

Lemma mem_In (x : string) (xs : list string) : mem x xs = true <-> In x xs.
Proof.
  unfold mem. rewrite existsb_exists. split.
  - intros (y & Hy & E). apply String.eqb_eq in E. now subst.
  - intros H. exists x. split; [assumption|apply String.eqb_refl].
Qed.

Section GenerateId.
Variable existing_ids : list string.

Let body : M (option string) :=
  i <- randint 1 999999 ;;
  let student_id := format_0 6 i in
  ret (if negb (mem student_id existing_ids) then Some student_id else None).

(** What the loop returns is new, and it has used up the draws that
    collided and the one it returns. *)
Lemma until_fresh_inv (fuel : nat) :
  forall w student_id w',
    until_fuel fuel body w = Ok student_id w' ->
    mem student_id existing_ids = false
    /\ file w' = file w /\ stdout w' = stdout w
    /\ exists pre r,
        entropy w = (pre ++ r :: entropy w')%list
        /\ student_id = student_id_of r
        /\ Forall (fun x => mem (student_id_of x) existing_ids = true) pre.
Proof.
  induction fuel as [|fuel IH]; intros w sid w'; simpl; [discriminate|].
  unfold bind at 1. unfold body at 1, bind, randint.
  destruct (entropy w) as [|r rs] eqn:E; [discriminate|].
  unfold ret at 1. fold (student_id_of r).
  destruct (mem (student_id_of r) existing_ids) eqn:Hm; simpl.
  - intros H. apply IH in H as (Hf & F & O & pre & r' & E' & -> & Hpre).
    simpl in *. repeat split; auto.
    exists (r :: pre), r'. simpl. rewrite E'. repeat split; auto.
  - unfold ret. intros H. injection H as <- <-. simpl. repeat split; auto.
    exists [], r. simpl. auto.
Qed.

(** The loop returns at the first draw that does not collide. *)
Lemma until_fresh_returns (pre : list Z) :
  forall fuel w r rest,
    (List.length pre < fuel)%nat ->
    entropy w = (pre ++ r :: rest)%list ->
    Forall (fun x => mem (student_id_of x) existing_ids = true) pre ->
    mem (student_id_of r) existing_ids = false ->
    until_fuel fuel body w = Ok (student_id_of r) (with_entropy rest w).
Proof.
  induction pre as [|x pre IH]; intros fuel w r rest L E Hpre Hr;
    (destruct fuel as [|fuel]; [simpl in L; lia|]); simpl in *.
  - unfold bind at 1. unfold body at 1, bind, randint. rewrite E.
    unfold ret at 1. fold (student_id_of r). rewrite Hr. reflexivity.
  - unfold bind at 1. unfold body at 1, bind, randint. rewrite E.
    unfold ret at 1. fold (student_id_of x).
    inversion Hpre; subst.
    match goal with H : mem (student_id_of x) _ = true |- _ => rewrite H end.
    simpl. rewrite (IH fuel _ r rest); auto. lia.
Qed.
End GenerateId.

Lemma generate_student_id_inv (w w' : World) (student_id : string) :
  StudentController.generate_student_id w = Ok student_id w' ->
  ~ has_id student_id (file w)
  /\ file w' = file w /\ stdout w' = stdout w
  /\ exists pre r,
      entropy w = (pre ++ r :: entropy w')%list /\ student_id = student_id_of r.
Proof.
  unfold StudentController.generate_student_id, bind, Database.load_data, while_true.
  intros H. apply until_fresh_inv in H as (Hm & F & O & pre & r & E & -> & _).
  repeat split; eauto.
  intros (s & Hs & Hid).
  assert (In (student_id_of r) (map Student.id (PyDict.values (file w)))).
  { rewrite <- Hid. now apply in_map. }
  apply mem_In in H. congruence.
Qed.

Lemma generate_student_id_returns (w : World) (pre : list Z) (r : Z) (rest : list Z) :
  entropy w = (pre ++ r :: rest)%list ->
  Forall (fun x => has_id (student_id_of x) (file w)) pre ->
  ~ has_id (student_id_of r) (file w) ->
  StudentController.generate_student_id w = Ok (student_id_of r) (with_entropy rest w).
Proof.
  intros E Hpre Hr.
  unfold StudentController.generate_student_id, bind, Database.load_data, while_true.
  apply until_fresh_returns with (pre := pre).
  - rewrite E, length_app. simpl. lia.
  - assumption.
  - eapply Forall_impl; [|exact Hpre]. intros x (s & Hs & Hid). simpl.
    apply mem_In. rewrite <- Hid. now apply in_map.
  - apply not_true_iff_false. intros H. apply mem_In in H.
    apply in_map_iff in H as (s & Hid & Hs). apply Hr. exists s. auto.
Qed.

(** X3. A call with an e-mail that keys a record prints "Student already
    exists.", returns [None] and leaves the file as it is, with its one
    record for that e-mail. *)
Theorem register_student_duplicate (name email password : string) (w : World) :
  PyDict.wf (file w) ->
  PyDict.contains email (file w) = true ->
  StudentController.register_student name email password w
  = Ok None (printed [msg_already_exists] w)
  /\ List.length (filter (fun item => String.eqb (fst item) email) (file w)) = 1%nat.
Proof.
  intros W C. split; [|now apply wf_one_entry].
  unfold StudentController.register_student, bind, Database.load_data.
  now rewrite C.
Qed.

(** A call with a new e-mail that returns has stored, under the e-mail and
    after the records present, a student without subjects whose id no
    record had. *)
Theorem register_student_new (name email password : string) (w w' : World)
        (result : option Student.t) :
  PyDict.contains email (file w) = false ->
  StudentController.register_student name email password w = Ok result w' ->
  exists student,
    result = Some student
    /\ Student.name student = name /\ Student.email student = email
    /\ Student.password student = password /\ Student.subjects student = []
    /\ ~ has_id (Student.id student) (file w)
    /\ file w' = (file w ++ [(email, student)])%list
    /\ PyDict.getitem email (file w') = Some student.
Proof.
  intros C.
  unfold StudentController.register_student. unfold bind at 1.
  unfold Database.load_data at 1. rewrite C. unfold bind at 1.
  destruct (StudentController.generate_student_id w) as [sid w1| |] eqn:G;
    try discriminate.
  apply generate_student_id_inv in G as (Hnew & F & O & _).
  unfold Student.new, bind, randint, ret, Database.save_data.
  destruct (entropy w1) as [|r rs]; [discriminate|]. simpl.
  intros H. injection H as <- <-. simpl.
  apply contains_false in C.
  eexists. repeat split; try reflexivity; simpl.
  - assumption.
  - now apply setitem_absent.
  - apply getitem_setitem_eq.
Qed.

(** X4. The call returns as soon as the entropy holds a draw that does not
    collide, and one more value for the constructor. *)
Theorem register_student_returns (name email password : string) (w : World)
        (pre : list Z) (r r' : Z) (rest : list Z) :
  PyDict.contains email (file w) = false ->
  entropy w = (pre ++ r :: r' :: rest)%list ->
  Forall (fun x => has_id (student_id_of x) (file w)) pre ->
  ~ has_id (student_id_of r) (file w) ->
  let student := Student.mk (student_id_of r) name email password [] in
  StudentController.register_student name email password w
  = Ok (Some student) (mkWorld (file w ++ [(email, student)])%list rest (stdout w)).
Proof.
  intros C E Hpre Hr student.
  unfold StudentController.register_student. unfold bind at 1.
  unfold Database.load_data at 1. rewrite C. unfold bind at 1.
  rewrite (generate_student_id_returns w pre r (r' :: rest)); auto.
  unfold Student.new, bind, randint, ret, Database.save_data. simpl.
  apply contains_false in C. rewrite (setitem_absent _ _ _ C). reflexivity.
Qed.

(** C1. [register_student] is documented to register a student "if email
    and password are valid", and the specification has it fail on a
    malformed e-mail or password.  It does not consult the validator: with
    an empty file it registers the e-mail "nobody" with the password
    "secret", both of which the validator rejects. *)
Theorem register_student_skips_validation :
  let w := mkWorld [] [41; 7]%Z [] in
  let eve := Student.mk "000042" "Eve" "nobody" "secret" [] in
  _is_valid_email "nobody" = false
  /\ _is_valid_password "secret" = false
  /\ StudentController.register_student "Eve" "nobody" "secret" w
     = Ok (Some eve) (mkWorld [("nobody", eve)] [] []).
Proof. repeat split; reflexivity. Qed.

(** ** Enrolment *)

Lemma Subject_new_inv (w w' : World) (x : Subject.t) :
  Subject_new w = Ok x w' ->
  file w' = file w /\ stdout w' = stdout w
  /\ exists r m, entropy w = r :: m :: entropy w' /\ x = subject_of r m.
Proof.
  unfold Subject_new, bind, randint, ret.
  destruct (entropy w) as [|r [|m rs]] eqn:E; simpl; try discriminate.
  intros H. injection H as <- <-. simpl. repeat split. eauto.
Qed.

Lemma Subject_new_returns (w : World) (r m : Z) (rest : list Z) :
  entropy w = r :: m :: rest ->
  Subject_new w = Ok (subject_of r m) (with_entropy rest w).
Proof.
  intros E. unfold Subject_new, bind, randint, ret. rewrite E. reflexivity.
Qed.

Lemma while_new_inv (cond : Subject.t -> bool) (fuel : nat) :
  forall x w x' w',
    while_fuel fuel cond (fun _ => Subject_new) x w = Ok x' w' ->
    cond x' = false /\ file w' = file w /\ stdout w' = stdout w.
Proof.
  induction fuel as [|fuel IH]; intros x w x' w'; simpl; [discriminate|].
  destruct (cond x) eqn:C.
  - unfold bind. destruct (Subject_new w) as [y w1| |] eqn:N; try discriminate.
    apply Subject_new_inv in N as (F & O & _).
    intros H. apply IH in H as (C' & F' & O'). repeat split; congruence.
  - unfold ret. intros H. injection H as <- <-. auto.
Qed.

Lemma while_new_returns (cond : Subject.t -> bool) (pairs : list (Z * Z)) :
  forall fuel x w r m rest,
    (List.length pairs < fuel)%nat ->
    cond x = true ->
    entropy w = (draws pairs ++ r :: m :: rest)%list ->
    Forall (fun p => cond (subject_of (fst p) (snd p)) = true) pairs ->
    cond (subject_of r m) = false ->
    while_fuel (S fuel) cond (fun _ => Subject_new) x w
    = Ok (subject_of r m) (with_entropy rest w).
Proof.
  induction pairs as [|[r0 m0] pairs IH]; intros fuel x w r m rest L Cx E Hp Hr;
    (destruct fuel as [|fuel]; [simpl in L; lia|]).
  - cbn [while_fuel]. rewrite Cx. unfold bind.
    rewrite (Subject_new_returns w r m rest E). rewrite Hr. reflexivity.
  - cbn [while_fuel]. cbn [while_fuel] in IH. rewrite Cx. unfold bind at 1.
    simpl in E. rewrite (Subject_new_returns w r0 m0 _ E).
    inversion Hp as [|? ? H0 Hp']; subst. simpl in H0.
    rewrite (IH fuel (subject_of r0 m0) _ r m rest); auto.
    simpl in L. lia.
Qed.

(** A student with four subjects or more gets none: the method returns
    [None] and changes nothing. *)
Lemma Student_enroll_full (self : Student.t) (w : World) :
  (4 <= List.length (Student.subjects self))%nat ->
  Student.enroll_subject self w = Ok (None, self) w.
Proof.
  intros H. unfold Student.enroll_subject.
  apply Nat.leb_le in H. now rewrite H.
Qed.

(** Below the cap, a call that returns has appended one subject whose id
    the student did not have. *)
Lemma Student_enroll_inv (self self' : Student.t) (w w' : World)
      (result : option Subject.t) :
  (List.length (Student.subjects self) < 4)%nat ->
  Student.enroll_subject self w = Ok (result, self') w' ->
  exists subject_info,
    result = Some subject_info
    /\ self' = Student.set_subjects (Student.subjects self ++ [subject_info])%list self
    /\ ~ In (Subject.id subject_info) (map Subject.id (Student.subjects self))
    /\ file w' = file w /\ stdout w' = stdout w.
Proof.
  intros L. unfold Student.enroll_subject.
  apply Nat.leb_gt in L. rewrite L. unfold bind at 1.
  destruct (Subject_new w) as [x w1| |] eqn:N; try discriminate.
  apply Subject_new_inv in N as (F & O & _).
  unfold bind at 1, while_.
  match goal with
  | |- context [while_fuel ?f ?c ?b ?x ?w] =>
      destruct (while_fuel f c b x w) as [y w2| |] eqn:Wh; try discriminate
  end.
  apply while_new_inv in Wh as (C & F' & O').
  unfold ret. intros H. injection H as <- <- <-.
  eexists. repeat split; try congruence.
  simpl. intros H. apply mem_In in H. congruence.
Qed.

(** Below the cap, the call returns at the first drawn id that the student
    does not have. *)
Lemma Student_enroll_returns (self : Student.t) (w : World)
      (pairs : list (Z * Z)) (r m : Z) (rest : list Z) :
  (List.length (Student.subjects self) < 4)%nat ->
  entropy w = (draws pairs ++ r :: m :: rest)%list ->
  Forall (fun p => In (subject_id_of (fst p)) (map Subject.id (Student.subjects self))) pairs ->
  ~ In (subject_id_of r) (map Subject.id (Student.subjects self)) ->
  Student.enroll_subject self w
  = Ok (Some (subject_of r m),
        Student.set_subjects (Student.subjects self ++ [subject_of r m])%list self)
       (with_entropy rest w).
Proof.
  intros L E Hp Hr. unfold Student.enroll_subject.
  apply Nat.leb_gt in L. rewrite L. unfold bind at 1.
  set (existing := map Subject.id (Student.subjects self)) in *.
  assert (Hr' : mem (subject_id_of r) existing = false).
  { apply not_true_iff_false. now rewrite mem_In. }
  destruct pairs as [|[r0 m0] pairs].
  - simpl in E. rewrite (Subject_new_returns w r m rest E).
    unfold bind, while_. cbn [while_fuel]. cbn [Subject.id subject_of].
    rewrite Hr'. reflexivity.
  - simpl in E. rewrite (Subject_new_returns w r0 m0 _ E).
    inversion Hp as [|? ? H0 Hp']; subst. simpl in H0.
    unfold bind, while_.
    rewrite (while_new_returns _ pairs _ _ _ r m rest); auto.
    + simpl. rewrite length_app. simpl.
      assert (List.length (draws pairs) = 2 * List.length pairs)%nat.
      { clear. induction pairs; simpl; lia. }
      lia.
    + simpl. now apply mem_In.
    + eapply Forall_impl; [|exact Hp']. intros p Hin. simpl. now apply mem_In.
Qed.

(** The controller at the cap: the message, and nothing saved. *)
Lemma controller_enroll_full (student : Student.t) (w : World) :
  (4 <= List.length (Student.subjects student))%nat ->
  SubjectController.enroll_subject student w = Ok student (printed [msg_four_only] w).
Proof.
  intros H. unfold SubjectController.enroll_subject, bind.
  now rewrite Student_enroll_full.
Qed.

(** The controller below the cap: a call that returns has saved the
    student, with one subject more, under the student's e-mail. *)
Lemma controller_enroll_inv (student student' : Student.t) (w w' : World) :
  (List.length (Student.subjects student) < 4)%nat ->
  SubjectController.enroll_subject student w = Ok student' w' ->
  (exists subject_info,
      student' = Student.set_subjects (Student.subjects student ++ [subject_info])%list student
      /\ ~ In (Subject.id subject_info) (map Subject.id (Student.subjects student)))
  /\ file w' = PyDict.setitem (Student.email student) student' (file w).
Proof.
  intros L. unfold SubjectController.enroll_subject. unfold bind at 1.
  destruct (Student.enroll_subject student w) as [[result self'] w1| |] eqn:E;
    try discriminate.
  apply (Student_enroll_inv _ _ _ _ _ L) in E as (info & -> & -> & Hnew & F & O).
  unfold bind, print, Database.load_data, Database.save_data, ret. simpl.
  intros H. injection H as <- <-. simpl. rewrite F. split; eauto.
Qed.

Lemma values_In {V} (k : string) (v : V) (d : PyDict.t V) :
  In (k, v) d -> In v (PyDict.values d).
Proof. intros H. apply (in_map snd) in H. exact H. Qed.

(** ** The enrolment cap *)

Section Cap.
Implicit Types (student : Student.t) (w : World).

Let file_capped w : Prop := Forall capped (PyDict.values (file w)).

Lemma change_password_capped student new_password w student' w' :
  StudentController.change_student_password student new_password w = Ok student' w' ->
  capped student -> file_capped w -> capped student' /\ file_capped w'.
Proof.
  unfold StudentController.change_student_password, file_capped.
  destruct (_is_valid_password new_password); simpl;
    unfold bind, print, ret, Database.load_data, Database.save_data; simpl;
    intros H C F; injection H as <- <-; simpl; split; auto.
  now apply Forall_values_setitem.
Qed.

Lemma enroll_capped student w student' w' :
  SubjectController.enroll_subject student w = Ok student' w' ->
  capped student -> file_capped w -> capped student' /\ file_capped w'.
Proof.
  unfold file_capped, capped. intros H C F.
  destruct (Nat.eq_dec (List.length (Student.subjects student)) 4) as [E|N].
  - rewrite controller_enroll_full in H by lia.
    injection H as <- <-. auto.
  - apply controller_enroll_inv in H as ((info & -> & _) & ->); [|lia].
    assert (C' : capped (Student.set_subjects (Student.subjects student ++ [info])%list student)).
    { unfold capped. simpl. rewrite length_app. simpl. lia. }
    split; [exact C'|]. now apply Forall_values_setitem.
Qed.

Lemma remove_subject_capped student subject_id w student' w' :
  SubjectController.remove_subject student subject_id w = Ok student' w' ->
  capped student -> file_capped w -> capped student' /\ file_capped w'.
Proof.
  unfold SubjectController.remove_subject, file_capped.
  destruct (negb _); simpl;
    unfold bind, print, ret, Database.load_data, Database.save_data; simpl;
    intros H C F; injection H as <- <-; simpl; auto.
  assert (C' : capped (Student.drop_subject student subject_id)).
  { unfold capped in *. simpl.
    etransitivity; [apply filter_length_le|exact C]. }
  split; [exact C'|]. now apply Forall_values_setitem.
Qed.

Lemma register_capped name email password w result w' :
  StudentController.register_student name email password w = Ok result w' ->
  file_capped w ->
  file_capped w' /\ (forall student', result = Some student' -> capped student').
Proof.
  unfold file_capped. intros H F.
  destruct (PyDict.contains email (file w)) eqn:C.
  - unfold StudentController.register_student, bind, Database.load_data in H.
    rewrite C in H. unfold print, ret in H. injection H as <- <-.
    split; [assumption|discriminate].
  - apply (register_student_new _ _ _ _ _ _ C) in H
      as (s & -> & _ & _ & _ & S0 & _ & -> & _).
    assert (Cs : capped s) by (unfold capped; rewrite S0; simpl; lia).
    split.
    + unfold PyDict.values. rewrite map_app. apply Forall_app. split; auto.
      simpl. auto.
    + intros s' E. now injection E as <-.
Qed.

Lemma login_capped email password w result w' :
  StudentController.login_student email password w = Ok result w' ->
  file_capped w ->
  file_capped w' /\ (forall student', result = inr student' -> capped student').
Proof.
  unfold file_capped, StudentController.login_student, bind, Database.load_data.
  intros H F.
  destruct (negb (_is_valid_email email) || negb (_is_valid_password password)).
  { injection H as <- <-. split; [assumption|discriminate]. }
  destruct (negb (PyDict.contains email (file w))).
  { injection H as <- <-. split; [assumption|discriminate]. }
  destruct (PyDict.getitem email (file w)) as [stored|] eqn:G; [|discriminate].
  destruct (String.eqb (Student.password stored) password).
  - unfold print, ret in H. injection H as <- <-. simpl. split; [assumption|].
    intros s' E. injection E as <-.
    apply getitem_In, values_In in G.
    rewrite Forall_forall in F. auto.
  - injection H as <- <-. split; [assumption|discriminate].
Qed.

Lemma remove_student_capped student_id w result w' :
  AdminController.remove_student student_id w = Ok result w' ->
  file_capped w -> file_capped w'.
Proof.
  unfold file_capped, AdminController.remove_student, bind, Database.load_data.
  intros H F.
  destruct (map fst _) as [|first rest].
  - injection H as _ <-. assumption.
  - destruct (PyDict.delitem first (file w)) as [data|] eqn:D; [|discriminate].
    unfold Database.save_data, ret in H. injection H as _ <-. simpl.
    eapply Forall_values_delitem; eauto.
Qed.

Lemma put_capped who student held :
  capped student -> Forall capped held -> Forall capped (Session.put who student held).
Proof.
  intros C. revert who. induction held as [|h held IH]; intros who H; simpl.
  - constructor.
  - inversion H; subst. destruct who; constructor; auto.
Qed.

Lemma on_capped who held (call : Student.t -> M Student.t) w held' w' :
  (forall student w student' w',
      call student w = Ok student' w' ->
      capped student -> file_capped w -> capped student' /\ file_capped w') ->
  Session.on who held call w = Ok held' w' ->
  all_capped w held -> all_capped w' held'.
Proof.
  unfold Session.on, all_capped. intros Hcall H [F Hh].
  destruct (nth_error held who) as [student|] eqn:N.
  - unfold bind in H. destruct (call student w) as [student' w1| |] eqn:E;
      try discriminate.
    unfold ret in H. injection H as <- <-.
    apply nth_error_In in N. rewrite Forall_forall in Hh.
    destruct (Hcall _ _ _ _ E (Hh _ N) F) as [C' F'].
    split; [assumption|]. apply put_capped; [assumption|].
    now apply Forall_forall.
  - injection H as <- <-. auto.
Qed.

(** Every request keeps the cap in the file and on the objects held. *)
Lemma serve_capped (r : Session.request) held w held' w' :
  all_capped w held -> Session.serve r held w = Ok held' w' -> all_capped w' held'.
Proof.
  intros A H. destruct r as [n e p | e p | who np | who | who sid | sid | ]; simpl in H.
  - unfold bind in H.
    destruct (StudentController.register_student n e p w) as [res w1| |] eqn:E;
      try discriminate.
    destruct A as [F Hh]. apply register_capped in E as [F' C']; [|exact F].
    destruct res as [s|]; injection H as <- <-; split; auto.
    apply Forall_app. split; auto.
  - unfold bind in H.
    destruct (StudentController.login_student e p w) as [res w1| |] eqn:E;
      try discriminate.
    destruct A as [F Hh]. apply login_capped in E as [F' C']; [|exact F].
    destruct res as [m|s]; injection H as <- <-; split; auto.
    apply Forall_app. split; auto.
  - eapply on_capped; [|exact H|exact A].
    intros ? ? ? ? E; eapply change_password_capped; exact E.
  - eapply on_capped; [|exact H|exact A].
    intros ? ? ? ? E; eapply enroll_capped; exact E.
  - eapply on_capped; [|exact H|exact A].
    intros ? ? ? ? E; eapply remove_subject_capped; exact E.
  - unfold bind in H.
    destruct (AdminController.remove_student sid w) as [res w1| |] eqn:E;
      try discriminate.
    injection H as <- <-. destruct A as [F Hh].
    split; [|assumption]. eapply remove_student_capped; eauto.
  - unfold AdminController.clear_all_student_data, bind, Database.clear_data,
      print, ret in H.
    injection H as <- <-. destruct A as [F Hh]. split; [constructor|assumption].
Qed.
End Cap.

(** Whatever a front end does, starting with an empty file and no object
    in hand, no student has more than four subjects. *)
Theorem run_capped (rs : list Session.request) :
  forall held w held' w',
    all_capped w held -> Session.run rs held w = Ok held' w' -> all_capped w' held'.
Proof.
  induction rs as [|r rs IH]; intros held w held' w' A H; simpl in H.
  - injection H as <- <-. assumption.
  - unfold bind in H. destruct (Session.serve r held w) as [held1 w1| |] eqn:E;
      try discriminate.
    eapply IH; [|exact H]. eapply serve_capped; eauto.
Qed.

(** C3. For a student with exactly four subjects, [enroll_subject] returns
    [None] and leaves the student as it is, and the controller prints
    "Students are allowed to enrol in 4 subjects only." and writes nothing
    to the file; and every request a front end can make keeps every student
    in the file, and every student object in hand, at four subjects or
    fewer. *)
Theorem enrolment_cap :
  (forall (student : Student.t) (w : World),
      List.length (Student.subjects student) = 4%nat ->
      Student.enroll_subject student w = Ok (None, student) w
      /\ SubjectController.enroll_subject student w
         = Ok student (mkWorld (file w) (entropy w) (stdout w ++ [msg_four_only])%list))
  /\ (forall (r : Session.request) (held held' : list Student.t) (w w' : World),
         all_capped w held -> Session.serve r held w = Ok held' w' -> all_capped w' held').
Proof.
  split.
  - intros student w L. split.
    + apply Student_enroll_full. lia.
    + apply controller_enroll_full. lia.
  - intros. eapply serve_capped; eauto.
Qed.

Lemma enrolment_cap_witness :
  SubjectController.enroll_subject cat john_world
  = Ok cat (mkWorld (file john_world) (entropy john_world) [msg_four_only])
  /\ exists held' w',
      Session.serve (Session.Enroll 0) [bob] (fresh_world [5; 10]%Z) = Ok held' w'
      /\ all_capped w' held'.
Proof.
  split.
  - apply (proj1 enrolment_cap cat john_world). reflexivity.
  - eexists. eexists. split; [reflexivity|].
    apply (proj2 enrolment_cap (Session.Enroll 0) [bob] _ (fresh_world [5; 10]%Z)).
    + split; repeat constructor.
    + reflexivity.
Defined.

(** ** Objects whose record is gone *)

(** C10, as amended.  For a student object whose e-mail keys no record:
    [change_student_password] with a well-formed password, [enroll_subject]
    when the student has fewer than four subjects, and [remove_subject] of
    a subject the student has, each write the object into the file under
    its e-mail, as a new last record.  The enrolment returns as soon as the
    entropy holds an id the student does not have. *)
Theorem saving_reinserts_the_student (student : Student.t) (w : World) :
  PyDict.contains (Student.email student) (file w) = false ->
  (forall new_password,
      _is_valid_password new_password = true ->
      let student' := Student.set_password new_password student in
      StudentController.change_student_password student new_password w
      = Ok student' (with_file (file w ++ [(Student.email student, student')])%list w))
  /\ ((List.length (Student.subjects student) < 4)%nat ->
      (forall student' w',
          SubjectController.enroll_subject student w = Ok student' w' ->
          file w' = (file w ++ [(Student.email student, student')])%list
          /\ List.length (Student.subjects student')
             = S (List.length (Student.subjects student)))
      /\ (forall pairs r m rest,
             entropy w = (draws pairs ++ r :: m :: rest)%list ->
             Forall (fun p => In (subject_id_of (fst p))
                                 (map Subject.id (Student.subjects student))) pairs ->
             ~ In (subject_id_of r) (map Subject.id (Student.subjects student)) ->
             exists student' w',
               SubjectController.enroll_subject student w = Ok student' w'
               /\ Student.subjects student'
                  = (Student.subjects student ++ [subject_of r m])%list))
  /\ (forall subject_id,
         existsb (fun subj => String.eqb (Subject.id subj) subject_id)
                 (Student.subjects student) = true ->
         let student' := Student.drop_subject student subject_id in
         exists w',
           SubjectController.remove_subject student subject_id w = Ok student' w'
           /\ file w' = (file w ++ [(Student.email student, student')])%list).
Proof.
  intros C. apply contains_false in C. repeat split.
  - intros np V student'.
    unfold StudentController.change_student_password. rewrite V. simpl.
    unfold bind, Database.load_data, Database.save_data, ret. simpl.
    subst student'. now rewrite setitem_absent.
  - apply controller_enroll_inv in H0 as ((info & -> & _) & ->); [|assumption].
    now rewrite setitem_absent.
  - apply controller_enroll_inv in H0 as ((info & -> & _) & _); [|assumption].
    simpl. rewrite length_app. simpl. lia.
  - intros pairs r m rest E Hp Hr.
    unfold SubjectController.enroll_subject, bind.
    rewrite (Student_enroll_returns student w pairs r m rest); auto.
    unfold print, Database.load_data, Database.save_data, ret. simpl.
    eexists. eexists. split; reflexivity.
  - intros subject_id Hin student'.
    unfold SubjectController.remove_subject. rewrite Hin. simpl.
    unfold bind, print, Database.load_data, Database.save_data, ret. simpl.
    eexists. split; [reflexivity|]. simpl.
    subst student'. now rewrite setitem_absent.
Qed.

Lemma saving_reinserts_the_student_witness :
  StudentController.change_student_password bob "Zyxwv987" (fresh_world [])
  = Ok (Student.set_password "Zyxwv987" bob)
       (with_file [(Student.email bob, Student.set_password "Zyxwv987" bob)] (fresh_world []))
  /\ (exists student' w',
         SubjectController.enroll_subject bob (fresh_world [5; 10]%Z) = Ok student' w'
         /\ Student.subjects student' = [s101; s102; s103; subject_of 5 10])
  /\ (exists w',
         SubjectController.remove_subject bob "102" (fresh_world []) = Ok (Student.drop_subject bob "102") w'
         /\ file w' = [(Student.email bob, Student.drop_subject bob "102")]).
Proof.
  split; [|split].
  - apply (proj1 (saving_reinserts_the_student bob (fresh_world []) eq_refl)).
    reflexivity.
  - apply (proj2 (proj1 (proj2 (saving_reinserts_the_student
                                  bob (fresh_world [5; 10]%Z) eq_refl))
                        ltac:(simpl; lia))
                 [] 5%Z 10%Z []).
    + reflexivity.
    + constructor.
    + simpl. intros [H|[H|[H|[]]]]; vm_compute in H; discriminate.
  - apply (proj2 (proj2 (saving_reinserts_the_student bob (fresh_world []) eq_refl))
                 "102").
    reflexivity.
Defined.

(** At the cap, or for a subject the student does not have, nothing is
    written: the object stays out of the file. *)
Lemma no_reinsertion_at_the_cap :
  PyDict.contains (Student.email cat) (file (fresh_world [5; 10]%Z)) = false
  /\ SubjectController.enroll_subject cat (fresh_world [5; 10]%Z)
     = Ok cat (mkWorld [] [5; 10]%Z [msg_four_only])
  /\ SubjectController.remove_subject cat "999" (fresh_world [])
     = Ok cat (mkWorld [] [] ["Subject 999 not found."]).
Proof. repeat split; reflexivity. Qed.

(** ** Average marks *)

Lemma sum_left_right (l : list Z) : fold_left Z.add l 0%Z = fold_right Z.add 0%Z l.
Proof. apply fold_symmetric; intros; lia. Qed.






Lemma calculate_average_mark_returns (s : Student.t) (w : World) :
  overflows s = false ->
  Student.calculate_average_mark s w = Ok (mean_mark s) w.
Proof.
  unfold overflows, mean_mark, spec_mean, Student.calculate_average_mark.
  destruct (Student.subjects s) as [|x l]; [reflexivity|].
  intros H. unfold true_divide.
  rewrite sum_left_right.
  rewrite <- (length_map Subject.mark (x :: l)).
  cbn [map] in *.
  destruct (Z.eqb_spec (Z.of_nat (List.length (Subject.mark x :: map Subject.mark l))) 0)
    as [Z0|_]; [simpl in Z0; lia|].
  cbv zeta. rewrite H. reflexivity.
Qed.

Lemma calculate_average_mark_raises (s : Student.t) (w : World) :
  overflows s = true ->
  Student.calculate_average_mark s w = Raise "OverflowError".
Proof.
  unfold overflows, mean_mark, spec_mean, Student.calculate_average_mark.
  destruct (Student.subjects s) as [|x l].
  { intros H. vm_compute in H. discriminate. }
  intros H. unfold true_divide.
  rewrite sum_left_right.
  rewrite <- (length_map Subject.mark (x :: l)).
  cbn [map] in *.
  destruct (Z.eqb_spec (Z.of_nat (List.length (Subject.mark x :: map Subject.mark l))) 0)
    as [Z0|_]; [simpl in Z0; lia|].
  cbv zeta. rewrite H. reflexivity.
Qed.

Lemma is_passing_returns (s : Student.t) (w : World) :
  overflows s = false -> Student.is_passing s w = Ok (passes s) w.
Proof.
  intros H. unfold Student.is_passing, bind.
  now rewrite calculate_average_mark_returns.
Qed.

(** A record set is representable or holds a student whose mean
    overflows. *)
Lemma representable_or_not (students : list Student.t) :
  Forall (fun s => overflows s = false) students
  \/ Exists (fun s => overflows s = true) students.
Proof.
  induction students as [|s l [IH|IH]]; auto.
  destruct (overflows s) eqn:O; auto.
Qed.

Lemma not_representable (data : PyDict.t Student.t) :
  ~ representable data -> Exists (fun s => overflows s = true) (PyDict.values data).
Proof.
  intros N. destruct (representable_or_not (PyDict.values data)); [contradiction|assumption].
Qed.

(** ** Pass/fail partition *)

Lemma partition_loop_spec (items : list (string * Student.t)) :
  forall passed failed w,
    Forall (fun s => overflows s = false) (map snd items) ->
    AdminController.partition_loop items passed failed w
    = Ok ((passed ++ map marked_entry (filter passes (map snd items)))%list,
          (failed ++ map marked_entry
                  (filter (fun s => negb (passes s)) (map snd items)))%list) w.
Proof.
  induction items as [|[email student] items IH]; intros passed failed w H; simpl.
  - now rewrite !app_nil_r.
  - inversion H as [|? ? O H']; subst. simpl in O. unfold bind.
    rewrite calculate_average_mark_returns, is_passing_returns by assumption.
    destruct (passes student); simpl; rewrite IH by assumption;
      rewrite <- app_assoc; reflexivity.
Qed.

Lemma partition_loop_raises (items : list (string * Student.t)) :
  forall passed failed w,
    Exists (fun s => overflows s = true) (map snd items) ->
    AdminController.partition_loop items passed failed w = Raise "OverflowError".
Proof.
  induction items as [|[email student] items IH]; intros passed failed w H; simpl.
  - inversion H.
  - unfold bind. destruct (overflows student) eqn:O.
    + now rewrite calculate_average_mark_raises.
    + rewrite calculate_average_mark_returns, is_passing_returns by assumption.
      simpl in H. apply Exists_cons in H as [H|H]; [simpl in H; congruence|].
      destruct (passes student); now apply IH.
Qed.




(** ** Grouping by grade *)

Lemma assign_grade_in_five (mark : Q) :
  In (Subject.assign_grade mark) five_grades.
Proof.
  unfold five_grades.
  destruct (assign_grade_cases mark)
    as [[_ E] | [(_ & _ & E) | [(_ & _ & E) | [(_ & _ & E) | [_ E]]]]];
    rewrite E; simpl; auto 6.
Qed.

Section Grouping.
(** The students of a list whose average mark earns grade [g]. *)
Let bucket (g : string) (students : list Student.t) : list AdminController.graded :=
  map graded_entry (filter (in_bucket g) students).

Lemma append_to_spec (grade : string) (entry : AdminController.graded)
      (groups : PyDict.t (list AdminController.graded)) :
  In grade (PyDict.keys groups) ->
  exists groups',
    AdminController.append_to grade entry groups = Some groups'
    /\ PyDict.keys groups' = PyDict.keys groups
    /\ forall g,
        PyDict.getitem g groups'
        = if String.eqb grade g
          then option_map (fun l => (l ++ [entry])%list) (PyDict.getitem g groups)
          else PyDict.getitem g groups.
Proof.
  intros Hin. unfold AdminController.append_to.
  destruct (PyDict.getitem grade groups) as [students|] eqn:G.
  - eexists. split; [reflexivity|]. split; [now apply keys_setitem_present|].
    intros g. destruct (String.eqb_spec grade g) as [<-|N].
    + now rewrite getitem_setitem_eq, G.
    + now apply getitem_setitem_neq.
  - apply getitem_None_iff in G. contradiction.
Qed.

Lemma group_loop_spec (items : list (string * Student.t)) :
  forall (groups : PyDict.t (list AdminController.graded)) (w : World),
    PyDict.keys groups = five_grades ->
    Forall (fun s => overflows s = false) (map snd items) ->
    exists groups',
      AdminController.group_loop items groups w = Ok groups' w
      /\ PyDict.keys groups' = five_grades
      /\ forall g,
          PyDict.getitem g groups'
          = option_map (fun l => (l ++ bucket g (map snd items))%list)
                       (PyDict.getitem g groups).
Proof.
  induction items as [|[email student] items IH]; intros groups w K H; simpl.
  - exists groups. repeat split; auto. intros g.
    destruct (PyDict.getitem g groups); simpl; [|reflexivity].
    unfold bucket. simpl. now rewrite app_nil_r.
  - inversion H as [|? ? O H']; subst. simpl in O. unfold bind.
    rewrite calculate_average_mark_returns by assumption.
    set (avg_mark := mean_mark student).
    set (grade := Subject.assign_grade avg_mark).
    destruct (append_to_spec grade (Student.name student, Student.id student, grade, avg_mark) groups)
      as (groups1 & -> & K1 & G1).
    { rewrite K. apply assign_grade_in_five. }
    destruct (IH groups1 w) as (groups2 & -> & K2 & G2); [congruence|assumption|].
    exists groups2. repeat split; auto. intros g. rewrite G2, G1.
    unfold bucket, in_bucket. simpl. fold avg_mark. fold grade.
    destruct (String.eqb grade g); destruct (PyDict.getitem g groups);
      simpl; try reflexivity.
    now rewrite <- app_assoc.
Qed.

Lemma group_loop_raises (items : list (string * Student.t)) :
  forall (groups : PyDict.t (list AdminController.graded)) (w : World),
    PyDict.keys groups = five_grades ->
    Exists (fun s => overflows s = true) (map snd items) ->
    AdminController.group_loop items groups w = Raise "OverflowError".
Proof.
  induction items as [|[email student] items IH]; intros groups w K H; simpl.
  - inversion H.
  - unfold bind. destruct (overflows student) eqn:O.
    + now rewrite calculate_average_mark_raises.
    + rewrite calculate_average_mark_returns by assumption.
      simpl in H. apply Exists_cons in H as [H|H]; [simpl in H; congruence|].
      destruct (append_to_spec (Subject.assign_grade (mean_mark student))
                  (Student.name student, Student.id student,
                   Subject.assign_grade (mean_mark student), mean_mark student) groups)
        as (groups1 & -> & K1 & _).
      { rewrite K. apply assign_grade_in_five. }
      apply IH; congruence.
Qed.


End Grouping.

Lemma group_loop_world (items : list (string * Student.t)) :
  forall (groups groups' : PyDict.t (list AdminController.graded)) (w w' : World),
    AdminController.group_loop items groups w = Ok groups' w' -> w' = w.
Proof.
  induction items as [|[email student] items IH]; intros groups groups' w w'; simpl.
  - unfold ret. intros H. now injection H as _ <-.
  - unfold bind. destruct (overflows student) eqn:O.
    + now rewrite calculate_average_mark_raises.
    + rewrite calculate_average_mark_returns by assumption.
      destruct (AdminController.append_to _ _ groups); [apply IH|discriminate].
Qed.

Lemma partition_loop_world (items : list (string * Student.t)) :
  forall (passed failed : list AdminController.marked) lists (w w' : World),
    AdminController.partition_loop items passed failed w = Ok lists w' -> w' = w.
Proof.
  induction items as [|[email student] items IH]; intros passed failed lists w w'; simpl.
  - unfold ret. intros H. now injection H as _ <-.
  - unfold bind. destruct (overflows student) eqn:O.
    + now rewrite calculate_average_mark_raises.
    + rewrite calculate_average_mark_returns, is_passing_returns by assumption.
      destruct (passes student); apply IH.
Qed.




(** ** Removing a student *)

Section Remove.
Variable student_id : string.

Let hit (item : string * Student.t) : bool :=
  String.eqb (Student.id (snd item)) student_id.

(** Either no record has the id, or the data split at the first record
    that has it. *)
Lemma first_hit (data : PyDict.t Student.t) :
  (filter hit data = [] /\ ~ has_id student_id data)
  \/ exists pre email student post,
      data = (pre ++ (email, student) :: post)%list
      /\ Student.id student = student_id
      /\ ~ has_id student_id pre
      /\ filter hit data = (email, student) :: filter hit post.
Proof.
  induction data as [|[e s] data IH]; simpl.
  - left. split; [reflexivity|]. intros (x & [] & _).
  - destruct (hit (e, s)) eqn:Hh; unfold hit in Hh; simpl in Hh;
      [apply String.eqb_eq in Hh as E | apply String.eqb_neq in Hh as N].
    + right. exists [], e, s, data. repeat split; auto. intros (x & [] & _).
    + destruct IH as [[F Hno] | (pre & e' & s' & post & -> & Hid & Hpre & F)].
      * left. split; [assumption|]. intros (x & [<-|Hx] & Hid); [contradiction|].
        apply Hno. exists x. auto.
      * right. exists ((e, s) :: pre), e', s', post. repeat split; auto.
        intros (x & [<-|Hx] & Hid'); [contradiction|].
        apply Hpre. exists x. auto.
Qed.

Lemma has_id_app (a b : PyDict.t Student.t) :
  has_id student_id (a ++ b)%list <-> has_id student_id a \/ has_id student_id b.
Proof.
  unfold has_id, PyDict.values. split.
  - intros (s & Hs & Hid). rewrite map_app in Hs. apply in_app_or in Hs as [H|H];
      [left|right]; eauto.
  - intros [(s & Hs & Hid)|(s & Hs & Hid)]; exists s; rewrite map_app;
      split; auto; apply in_or_app; auto.
Qed.
End Remove.

(** C9, as amended.  [remove_student] returns false and leaves the file
    unchanged when no record has the id.  When some record has it, the
    call returns true and saves the file without the first such record, in
    file order, every other record staying in place; no record of the
    saved file has the id if the ids in the file were pairwise distinct. *)
Theorem remove_student_outcomes (student_id : string) (w : World) :
  PyDict.wf (file w) ->
  (~ has_id student_id (file w) ->
   AdminController.remove_student student_id w = Ok false w)
  /\ (has_id student_id (file w) ->
      exists pre email student post,
        file w = (pre ++ (email, student) :: post)%list
        /\ Student.id student = student_id
        /\ ~ has_id student_id pre
        /\ AdminController.remove_student student_id w
           = Ok true (with_file (pre ++ post)%list w)
        /\ (unique_ids (file w) -> ~ has_id student_id (pre ++ post)%list)).
Proof.
  intros W.
  unfold AdminController.remove_student, bind, Database.load_data, PyDict.items.
  destruct (first_hit student_id (file w))
    as [[F Hno] | (pre & email & student & post & E & Hid & Hpre & F)].
  - split; [|contradiction]. intros _. now rewrite F.
  - split.
    { intros Hno. exfalso. apply Hno. exists student. split; [|assumption].
      rewrite E. unfold PyDict.values. rewrite map_app. apply in_or_app.
      right. now left. }
    intros _. exists pre, email, student, post. rewrite F. simpl.
    repeat split; auto.
    + rewrite E. rewrite delitem_middle; [reflexivity|].
      unfold PyDict.wf, PyDict.keys in W. rewrite E, map_app in W. simpl in W.
      apply NoDup_remove_2 in W. intros H. apply W. apply in_or_app. now left.
    + intros U. unfold unique_ids, PyDict.values in U.
      rewrite E, !map_app in U. simpl in U. apply NoDup_remove_2 in U.
      rewrite Hid in U. intros H. apply U.
      destruct H as (s & Hs & Hs'). unfold PyDict.values in Hs.
      rewrite map_app in Hs. rewrite <- Hs'. rewrite <- map_app.
      now apply in_map.
Qed.

Lemma remove_student_outcomes_witness :
  AdminController.remove_student "999999" john_world = Ok false john_world
  /\ exists pre email student post,
      file john_world = (pre ++ (email, student) :: post)%list
      /\ Student.id student = "000042"
      /\ ~ has_id "000042" pre
      /\ AdminController.remove_student "000042" john_world
         = Ok true (with_file (pre ++ post)%list john_world)
      /\ (unique_ids (file john_world) -> ~ has_id "000042" (pre ++ post)%list).
Proof.
  assert (W : PyDict.wf (file john_world)).
  { unfold PyDict.wf. simpl. constructor; [intros []|constructor]. }
  split.
  - apply (proj1 (remove_student_outcomes "999999" john_world W)).
    intros (s & [<-|[]] & H). vm_compute in H. discriminate.
  - apply (proj2 (remove_student_outcomes "000042" john_world W)).
    exists john. split; [now left|reflexivity].
Defined.

(** With two records of one id in the file, the call returns true, removes
    the first and leaves the second: the saved file still holds the id. *)
Lemma remove_student_leaves_a_twin :
  PyDict.wf twins
  /\ has_id "000001" twins
  /\ AdminController.remove_student "000001" (mkWorld twins [] [])
     = Ok true (mkWorld [("tom.two@university.com", twin_b)] [] [])
  /\ has_id "000001" [("tom.two@university.com", twin_b)].
Proof.
  split; [|split; [|split]].
  - unfold PyDict.wf. simpl. constructor.
    + intros [H|[]]. vm_compute in H. discriminate.
    + constructor; [intros []|constructor].
  - exists twin_a. split; [now left|reflexivity].
  - reflexivity.
  - exists twin_b. split; [now left|reflexivity].
Qed.

(** Such a file arises in use: a student registers and logs in, the admin
    removes the record, a second registration draws the same id, and the
    first student, still logged in, changes password. *)
Lemma twin_ids_in_use :
  exists held w,
    Session.run
      [Session.Register "Tia" "tia.one@university.com" "Abcde123";
       Session.RemoveStudent "000042";
       Session.Register "Tom" "tom.two@university.com" "Abcde123";
       Session.ChangePassword 0 "Zyxwv987"]
      [] (fresh_world [41; 0; 41; 0]%Z)
    = Ok held w
    /\ map Student.id (PyDict.values (file w)) = ["000042"; "000042"]
    /\ PyDict.keys (file w) = ["tom.two@university.com"; "tia.one@university.com"].
Proof. eexists. eexists. split; [reflexivity|]. split; reflexivity. Qed.

Lemma assign_grade_thresholds_witness :
  Subject.assign_grade (499 # 10) = "Z"
  /\ Subject.assign_grade (inject_Z 64) = "P"
  /\ Subject.assign_grade (7 # 1) = Subject.assign_grade (14 # 2)
  /\ Subject.assign_grade (200 # 2) = "HD".
Proof.
  split; [|split; [|split]].
  - apply (proj1 (proj1 assign_grade_thresholds (499 # 10))). reflexivity.
  - apply (proj1 (proj2 (proj1 assign_grade_thresholds (inject_Z 64))));
      [discriminate | reflexivity].
  - apply (proj1 (proj2 assign_grade_thresholds) 7%Z (14 # 2)). reflexivity.
  - apply (proj2 (proj2 (proj2 (proj2 (proj1 assign_grade_thresholds (200 # 2)))))).
    discriminate.
Defined.

(** A record comes back in use: the student logs in, the admin removes the
    record, and the student changes password. *)
Lemma removed_record_comes_back :
  exists held w,
    Session.run
      [Session.Login "john.smith@university.com" "Abcde123";
       Session.RemoveStudent "000042";
       Session.ChangePassword 0 "Zyxwv987"]
      [] john_world
    = Ok held w
    /\ file w = [("john.smith@university.com", Student.set_password "Zyxwv987" john)].
Proof. eexists. eexists. split; reflexivity. Qed.

(** * Further properties *)

(** ** The format of the ids *)

Lemma string_of_uint_length (d : Decimal.uint) :
  String.length (NilEmpty.string_of_uint d) = Decimal.nb_digits d.
Proof. induction d; simpl; congruence. Qed.

Lemma string_of_uint_digits (d : Decimal.uint) :
  all is_digit (NilEmpty.string_of_uint d) = true.
Proof. induction d; simpl; auto. Qed.

(** The little-endian digits of [r + 10 * q] for a digit [r]. *)
Lemma to_lu_step (q r : nat) :
  q <> 0%nat -> (r < 10)%nat ->
  Decimal.nb_digits (DecimalNat.Unsigned.to_lu (r + 10 * q))
  = S (Decimal.nb_digits (DecimalNat.Unsigned.to_lu q)).
Proof.
  intros Hq Hr.
  assert (E : forall k, DecimalNat.Unsigned.to_lu (k + 10 * q)
                        = Nat.iter k Decimal.Little.succ
                                   (Decimal.D0 (DecimalNat.Unsigned.to_lu q))).
  { induction k as [|k IH].
    - simpl Nat.iter. simpl Nat.add at 1.
      now apply DecimalNat.Unsigned.to_lu_tenfold.
    - change (S k + 10 * q)%nat with (S (k + 10 * q)).
      rewrite DecimalNat.Unsigned.to_lu_succ, IH. reflexivity. }
  rewrite E.
  do 10 (destruct r as [|r]; [reflexivity|]). lia.
Qed.

Lemma to_lu_digits (k : nat) :
  forall n, (n < 10 ^ S k)%nat ->
            (Decimal.nb_digits (DecimalNat.Unsigned.to_lu n) <= S k)%nat.
Proof.
  induction k as [|k IH]; intros n Hn.
  - change (10 ^ 1)%nat with 10%nat in Hn.
    do 10 (destruct n as [|n]; [simpl; lia|]). lia.
  - destruct (Nat.eq_dec (n / 10) 0) as [Z0|NZ].
    + apply Nat.div_small_iff in Z0; [|lia].
      do 10 (destruct n as [|n]; [simpl; lia|]). lia.
    + rewrite (Nat.div_mod_eq n 10) at 1.
      rewrite (Nat.add_comm (10 * (n / 10))).
      rewrite to_lu_step; auto.
      * apply le_n_S. apply IH.
        apply Nat.Div0.div_lt_upper_bound.
        change (10 ^ S (S k))%nat with (10 * 10 ^ S k)%nat in Hn. lia.
      * apply Nat.mod_upper_bound. lia.
Qed.

Lemma str_of_nat_length (k n : nat) :
  (n < 10 ^ S k)%nat -> (String.length (str_of_nat n) <= S k)%nat.
Proof.
  intros H. unfold str_of_nat.
  rewrite string_of_uint_length, DecimalNat.Unsigned.to_uint_alt,
    DecimalFacts.nb_digits_rev.
  now apply to_lu_digits.
Qed.

Lemma zeros_length (n : nat) : String.length (zeros n) = n.
Proof. induction n; simpl; congruence. Qed.

Lemma zeros_digits (n : nat) : all is_digit (zeros n) = true.
Proof. induction n; simpl; auto. Qed.

(** A number below [10 ^ w] is formatted as exactly [w] digits. *)
Lemma format_0_digits (k : nat) (n : Z) :
  (0 <= n < 10 ^ Z.of_nat (S k))%Z -> digits (S k) (format_0 (S k) n).
Proof.
  intros [L U]. unfold digits, format_0, zfill.
  assert (B : (String.length (str_of_nat (Z.to_nat n)) <= S k)%nat).
  { apply str_of_nat_length.
    apply Nat2Z.inj_lt. rewrite Z2Nat.id by assumption.
    rewrite Nat2Z.inj_pow. exact U. }
  rewrite length_append, zeros_length, all_app, zeros_digits.
  split; [lia|]. unfold str_of_nat. apply string_of_uint_digits.
Qed.

Lemma student_id_of_digits (r : Z) : digits 6 (student_id_of r).
Proof.
  unfold student_id_of. apply (format_0_digits 5).
  pose proof (Z.mod_pos_bound r (999999 - 1 + 1) ltac:(lia)).
  change (10 ^ Z.of_nat 6)%Z with 1000000%Z. lia.
Qed.

Lemma subject_id_of_digits (r : Z) : digits 3 (subject_id_of r).
Proof.
  unfold subject_id_of. apply (format_0_digits 2).
  pose proof (Z.mod_pos_bound r (999 - 1 + 1) ltac:(lia)).
  change (10 ^ Z.of_nat 3)%Z with 1000%Z. lia.
Qed.

(** ** Logging in: the three outcomes, for reuse *)

Lemma login_found (email password : string) (w : World) (stored : Student.t) :
  _is_valid_email email = true -> _is_valid_password password = true ->
  PyDict.getitem email (file w) = Some stored ->
  Student.password stored = password ->
  StudentController.login_student email password w
  = Ok (inr stored) (printed [msg_login_successful] w).
Proof.
  intros Ve Vp G E.
  unfold StudentController.login_student, bind, Database.load_data, ret, print.
  rewrite Ve, Vp. simpl.
  assert (C : PyDict.contains email (file w) = true) by (apply contains_true; eauto).
  rewrite C, G. simpl. apply String.eqb_eq in E. now rewrite E.
Qed.

Lemma login_wrong (email password : string) (w : World) (stored : Student.t) :
  _is_valid_email email = true -> _is_valid_password password = true ->
  PyDict.getitem email (file w) = Some stored ->
  Student.password stored <> password ->
  StudentController.login_student email password w = Ok (inl msg_incorrect_format) w.
Proof.
  intros Ve Vp G N.
  unfold StudentController.login_student, bind, Database.load_data, ret.
  rewrite Ve, Vp. simpl.
  assert (C : PyDict.contains email (file w) = true) by (apply contains_true; eauto).
  rewrite C, G. simpl. apply String.eqb_neq in N. now rewrite N.
Qed.

Lemma login_absent (email password : string) (w : World) :
  _is_valid_email email = true -> _is_valid_password password = true ->
  PyDict.getitem email (file w) = None ->
  StudentController.login_student email password w = Ok (inl msg_does_not_exist) w.
Proof.
  intros Ve Vp G.
  unfold StudentController.login_student, bind, Database.load_data, ret.
  rewrite Ve, Vp. simpl. apply contains_false in G. now rewrite G.
Qed.

(** ** Registration *)

(** What a registration that returns a student has done. *)
Lemma register_inv (name email password : string) (w w' : World) (student : Student.t) :
  StudentController.register_student name email password w = Ok (Some student) w' ->
  PyDict.getitem email (file w) = None
  /\ (exists r, student = Student.mk (student_id_of r) name email password [])
  /\ ~ has_id (Student.id student) (file w)
  /\ file w' = (file w ++ [(email, student)])%list
  /\ stdout w' = stdout w.
Proof.
  unfold StudentController.register_student. unfold bind at 1.
  unfold Database.load_data at 1.
  destruct (PyDict.contains email (file w)) eqn:C.
  { unfold bind, print, ret. discriminate. }
  unfold bind at 1.
  destruct (StudentController.generate_student_id w) as [sid w1| |] eqn:G;
    try discriminate.
  apply generate_student_id_inv in G as (Hnew & F & O & pre & r & E & ->).
  unfold Student.new, bind, randint, ret, Database.save_data.
  destruct (entropy w1) as [|r' rs]; [discriminate|]. simpl.
  intros H. injection H as <- <-. simpl.
  apply contains_false in C. repeat split; auto.
  - exists r. reflexivity.
  - now apply setitem_absent.
Qed.

(** X5. A registration that succeeds appends one record under the e-mail
    and changes no other: the new student has the given name, e-mail and
    password, no subjects, and an id of six digits that no record had; the
    records present stay as they were, in their order; nothing is
    printed. *)
Theorem register_student_appends (name email password : string) (w w' : World)
        (student : Student.t) :
  StudentController.register_student name email password w = Ok (Some student) w' ->
  Student.name student = name /\ Student.email student = email
  /\ Student.password student = password /\ Student.subjects student = []
  /\ digits 6 (Student.id student)
  /\ ~ has_id (Student.id student) (file w)
  /\ PyDict.getitem email (file w) = None
  /\ file w' = (file w ++ [(email, student)])%list
  /\ (forall k, k <> email -> PyDict.getitem k (file w') = PyDict.getitem k (file w))
  /\ stdout w' = stdout w.
Proof.
  intros H. apply register_inv in H as (G & (r & ->) & Hnew & F & O).
  simpl. repeat split; auto.
  - apply student_id_of_digits.
  - apply student_id_of_digits.
  - intros k N. rewrite F, <- (setitem_absent _ _ _ G).
    apply getitem_setitem_neq. congruence.
Qed.

Lemma register_student_appends_witness :
  exists student w',
    StudentController.register_student "Eve" "eve.roe@university.com" "Abcde123"
      (with_entropy [41; 7; 0]%Z john_world) = Ok (Some student) w'
    /\ digits 6 (Student.id student)
    /\ file w' = (file john_world ++ [("eve.roe@university.com", student)])%list.
Proof.
  eexists. eexists. split; [vm_compute; reflexivity|].
  split;
    apply (register_student_appends
             "Eve" "eve.roe@university.com" "Abcde123"
             (with_entropy [41; 7; 0]%Z john_world) _ _ eq_refl).
Defined.

(** X7. A student who has registered with a well-formed e-mail and password
    can log in with them at once, and gets the registered student. *)
Theorem register_then_login (name email password : string) (w w' : World)
        (student : Student.t) :
  _is_valid_email email = true -> _is_valid_password password = true ->
  StudentController.register_student name email password w = Ok (Some student) w' ->
  StudentController.login_student email password w'
  = Ok (inr student) (printed [msg_login_successful] w').
Proof.
  intros Ve Vp H. apply register_inv in H as (G & (r & ->) & _ & F & _).
  apply login_found; auto.
  rewrite F, <- (setitem_absent _ _ _ G). apply getitem_setitem_eq.
Qed.

Lemma register_then_login_witness :
  exists student w',
    StudentController.register_student "Eve" "eve.roe@university.com" "Abcde123"
      (fresh_world [41; 7]%Z) = Ok (Some student) w'
    /\ StudentController.login_student "eve.roe@university.com" "Abcde123" w'
       = Ok (inr student) (printed [msg_login_successful] w').
Proof.
  eexists. eexists. split; [vm_compute; reflexivity|].
  apply (register_then_login "Eve" "eve.roe@university.com" "Abcde123"
           (fresh_world [41; 7]%Z)); reflexivity.
Defined.

(** X8. A student registered with an e-mail or a password that the
    validator rejects can never log in with them: the log-in answers
    "Incorrect email or password format." *)
Theorem malformed_registration_cannot_log_in (name email password : string)
        (w w' : World) (student : Student.t) :
  _is_valid_email email = false \/ _is_valid_password password = false ->
  StudentController.register_student name email password w = Ok (Some student) w' ->
  PyDict.getitem email (file w') = Some student
  /\ StudentController.login_student email password w'
     = Ok (inl msg_incorrect_format) w'.
Proof.
  intros V H. apply register_inv in H as (G & (r & ->) & _ & F & _). split.
  - rewrite F, <- (setitem_absent _ _ _ G). apply getitem_setitem_eq.
  - unfold StudentController.login_student, bind, Database.load_data, ret.
    destruct V as [-> | ->]; [reflexivity|]. now rewrite orb_true_r.
Qed.

Lemma malformed_registration_cannot_log_in_witness :
  exists student w',
    StudentController.register_student "Eve" "nobody" "secret" (fresh_world [41; 7]%Z)
    = Ok (Some student) w'
    /\ PyDict.getitem "nobody" (file w') = Some student
    /\ StudentController.login_student "nobody" "secret" w'
       = Ok (inl msg_incorrect_format) w'.
Proof.
  eexists. eexists. split; [vm_compute; reflexivity|].
  apply (malformed_registration_cannot_log_in "Eve" "nobody" "secret"
           (fresh_world [41; 7]%Z)); [left|]; reflexivity.
Defined.

(** X9. Registering and then removing the student by the id just given
    leaves the file as it was before the registration. *)
Theorem register_then_remove (name email password : string) (w w' : World)
        (student : Student.t) :
  StudentController.register_student name email password w = Ok (Some student) w' ->
  AdminController.remove_student (Student.id student) w'
  = Ok true (with_file (file w) w').
Proof.
  intros H. apply register_inv in H as (G & _ & Hnew & F & _).
  unfold AdminController.remove_student, bind, Database.load_data, PyDict.items.
  rewrite F.
  assert (E : filter (fun item : string * Student.t =>
                        String.eqb (Student.id (snd item)) (Student.id student))
                     (file w ++ [(email, student)])%list
              = [(email, student)]).
  { rewrite filter_app. simpl. rewrite String.eqb_refl.
    replace (filter _ (file w)) with (@nil (string * Student.t)); [reflexivity|].
    symmetry. clear G F. induction (file w) as [|[k s] d IH]; [reflexivity|].
    simpl. destruct (String.eqb_spec (Student.id s) (Student.id student)) as [E|N].
    - exfalso. apply Hnew. exists s. split; [now left|assumption].
    - apply IH. intros (x & Hx & Hid). apply Hnew. exists x. split; [now right|assumption]. }
  rewrite E. simpl.
  rewrite delitem_middle by (now apply getitem_None_iff).
  unfold Database.save_data, ret, with_file. simpl. now rewrite app_nil_r.
Qed.

Lemma register_then_remove_witness :
  exists student w',
    StudentController.register_student "Eve" "eve.roe@university.com" "Abcde123"
      (with_entropy [41; 7; 0]%Z john_world) = Ok (Some student) w'
    /\ AdminController.remove_student (Student.id student) w'
       = Ok true (with_file (file john_world) w').
Proof.
  eexists. eexists. split; [vm_compute; reflexivity|].
  apply (register_then_remove "Eve" "eve.roe@university.com" "Abcde123"
           (with_entropy [41; 7; 0]%Z john_world)).
  reflexivity.
Defined.

(** ** Changing the password *)

(** X10. A password that the validator rejects changes nothing: the student
    object and the file stay as they are and the method prints its
    complaint.  A well-formed password is set on the object and the object
    is saved under its e-mail: only the password of the student differs,
    the records under other e-mails are untouched, a record already there
    keeps its place, and nothing is printed. *)
Theorem change_password_effect (student : Student.t) (new_password : string) (w : World) :
  (_is_valid_password new_password = false ->
   StudentController.change_student_password student new_password w
   = Ok student (printed [msg_invalid_password] w))
  /\ (_is_valid_password new_password = true ->
      exists w',
        StudentController.change_student_password student new_password w
        = Ok (Student.mk (Student.id student) (Student.name student)
                         (Student.email student) new_password
                         (Student.subjects student)) w'
        /\ PyDict.getitem (Student.email student) (file w')
           = Some (Student.mk (Student.id student) (Student.name student)
                              (Student.email student) new_password
                              (Student.subjects student))
        /\ (forall k, k <> Student.email student ->
                      PyDict.getitem k (file w') = PyDict.getitem k (file w))
        /\ (In (Student.email student) (PyDict.keys (file w)) ->
            PyDict.keys (file w') = PyDict.keys (file w))
        /\ stdout w' = stdout w /\ entropy w' = entropy w).
Proof.
  unfold StudentController.change_student_password. split; intros V; rewrite V; simpl.
  - reflexivity.
  - unfold bind, Database.load_data, Database.save_data, ret. simpl.
    eexists. split; [reflexivity|]. simpl. repeat split.
    + apply getitem_setitem_eq.
    + intros k N. apply getitem_setitem_neq. congruence.
    + apply keys_setitem_present.
Qed.

Lemma change_password_effect_witness :
  StudentController.change_student_password john "short" john_world
  = Ok john (printed [msg_invalid_password] john_world)
  /\ exists w',
      StudentController.change_student_password john "Zyxwv987" john_world
      = Ok (Student.mk "000042" "John" "john.smith@university.com" "Zyxwv987" []) w'
      /\ PyDict.keys (file w') = PyDict.keys (file john_world).
Proof.
  split.
  - apply (proj1 (change_password_effect john "short" john_world)). reflexivity.
  - destruct (proj2 (change_password_effect john "Zyxwv987" john_world) eq_refl)
      as (w' & E & _ & _ & K & _).
    exists w'. split; [exact E|]. apply K. simpl. now left.
Defined.

(** X11. After a change to a well-formed password, a student with a
    well-formed e-mail logs in with the new password and gets the changed
    student, and is turned away with any other well-formed password, the
    old one included. *)
Theorem change_password_then_login (student : Student.t) (new_password : string)
        (w : World) :
  _is_valid_password new_password = true ->
  _is_valid_email (Student.email student) = true ->
  exists student' w',
    StudentController.change_student_password student new_password w = Ok student' w'
    /\ Student.password student' = new_password
    /\ StudentController.login_student (Student.email student) new_password w'
       = Ok (inr student') (printed [msg_login_successful] w')
    /\ (forall other,
           _is_valid_password other = true -> other <> new_password ->
           StudentController.login_student (Student.email student) other w'
           = Ok (inl msg_incorrect_format) w').
Proof.
  intros Vp Ve.
  unfold StudentController.change_student_password. rewrite Vp. simpl.
  unfold bind, Database.load_data, Database.save_data, ret. simpl.
  eexists. eexists. split; [reflexivity|]. split; [reflexivity|]. split.
  - apply login_found; auto. simpl. apply getitem_setitem_eq.
  - intros other Vo N.
    apply login_wrong with (stored := Student.set_password new_password student);
      simpl; auto.
    apply getitem_setitem_eq.
Qed.

Lemma change_password_then_login_witness :
  exists student' w',
    StudentController.change_student_password john "Zyxwv987" john_world = Ok student' w'
    /\ Student.password student' = "Zyxwv987"
    /\ StudentController.login_student "john.smith@university.com" "Zyxwv987" w'
       = Ok (inr student') (printed [msg_login_successful] w')
    /\ StudentController.login_student "john.smith@university.com" "Abcde123" w'
       = Ok (inl msg_incorrect_format) w'.
Proof.
  destruct (change_password_then_login john "Zyxwv987" john_world eq_refl eq_refl)
    as (s' & w' & E & P & L & O).
  exists s', w'. repeat split; auto.
  apply O; [reflexivity|]. intros H. vm_compute in H. discriminate.
Defined.

(** ** Enrolling and dropping *)

Lemma while_new_origin (cond : Subject.t -> bool) (fuel : nat) :
  forall x w x' w',
    while_fuel fuel cond (fun _ => Subject_new) x w = Ok x' w' ->
    x' = x \/ exists r m, x' = subject_of r m.
Proof.
  induction fuel as [|fuel IH]; intros x w x' w'; simpl; [discriminate|].
  destruct (cond x).
  - unfold bind. destruct (Subject_new w) as [y w1| |] eqn:N; try discriminate.
    apply Subject_new_inv in N as (_ & _ & r & m & _ & ->).
    intros H. apply IH in H as [->|H]; eauto.
  - unfold ret. intros H. injection H as <- <-. auto.
Qed.

Lemma subject_of_sound (r m : Z) : subject_sound (subject_of r m).
Proof.
  unfold subject_sound, subject_of. cbn [Subject.mark Subject.grade].
  split; [|reflexivity].
  pose proof (Z.mod_pos_bound m (100 - 25 + 1) ltac:(lia)). lia.
Qed.

(** Below the cap, the subject that [enroll_subject] appends is one that
    [Subject()] made. *)
Lemma Student_enroll_shape (self self' : Student.t) (w w' : World)
      (result : option Subject.t) :
  (List.length (Student.subjects self) < 4)%nat ->
  Student.enroll_subject self w = Ok (result, self') w' ->
  exists r m,
    result = Some (subject_of r m)
    /\ self' = Student.set_subjects (Student.subjects self ++ [subject_of r m])%list self
    /\ ~ In (subject_id_of r) (map Subject.id (Student.subjects self))
    /\ file w' = file w /\ stdout w' = stdout w.
Proof.
  intros L H.
  destruct (Student_enroll_inv _ _ _ _ _ L H) as (info & -> & -> & Hnew & F & O).
  revert H. unfold Student.enroll_subject.
  apply Nat.leb_gt in L. rewrite L. unfold bind at 1.
  destruct (Subject_new w) as [x w1| |] eqn:N; try discriminate.
  apply Subject_new_inv in N as (_ & _ & r0 & m0 & _ & ->).
  unfold bind at 1, while_.
  match goal with
  | |- context [while_fuel ?f ?c ?b ?x ?w] =>
      destruct (while_fuel f c b x w) as [y w2| |] eqn:Wh; try discriminate
  end.
  apply while_new_origin in Wh.
  unfold ret. intros H. injection H as E1 E2 E3.
  assert (Y : exists r m, y = subject_of r m) by (destruct Wh as [->|Wh]; eauto).
  destruct Y as (r & m & ->). simpl in E1. subst info.
  exists r, m. repeat split; auto.
Qed.

(** X12. Below the cap, an enrolment that returns has appended one subject
    and changed nothing else on the student: the new subject has an id of
    three digits that the student did not have, a mark from 25 to 100 and
    the grade of that mark; the earlier subjects keep their order; the
    student is saved under its e-mail and the other records are
    untouched. *)
Theorem enrolment_appends_a_sound_subject (student student' : Student.t) (w w' : World) :
  (List.length (Student.subjects student) < 4)%nat ->
  SubjectController.enroll_subject student w = Ok student' w' ->
  exists subject,
    student' = Student.mk (Student.id student) (Student.name student)
                          (Student.email student) (Student.password student)
                          (Student.subjects student ++ [subject])%list
    /\ digits 3 (Subject.id subject)
    /\ ~ In (Subject.id subject) (map Subject.id (Student.subjects student))
    /\ (25 <= Subject.mark subject <= 100)%Z
    /\ Subject.grade subject = Subject.assign_grade (inject_Z (Subject.mark subject))
    /\ PyDict.getitem (Student.email student) (file w') = Some student'
    /\ (forall k, k <> Student.email student ->
                  PyDict.getitem k (file w') = PyDict.getitem k (file w)).
Proof.
  intros L. unfold SubjectController.enroll_subject. unfold bind at 1.
  destruct (Student.enroll_subject student w) as [[result self'] w1| |] eqn:E;
    try discriminate.
  apply (Student_enroll_shape _ _ _ _ _ L) in E as (r & m & -> & -> & Hnew & F & O).
  unfold bind, print, Database.load_data, Database.save_data, ret. simpl.
  intros H. injection H as <- <-. simpl.
  exists (subject_of r m). rewrite F.
  destruct (subject_of_sound r m) as [Hm Hg].
  repeat split; auto; try apply subject_id_of_digits; try apply Hm.
  - apply getitem_setitem_eq.
  - intros k N. apply getitem_setitem_neq. congruence.
Qed.

Lemma enrolment_appends_a_sound_subject_witness :
  exists student' w',
    SubjectController.enroll_subject bob (fresh_world [5; 10]%Z) = Ok student' w'
    /\ exists subject,
        Student.subjects student' = [s101; s102; s103; subject]
        /\ digits 3 (Subject.id subject)
        /\ (25 <= Subject.mark subject <= 100)%Z.
Proof.
  eexists. eexists.
  match goal with
  | |- ?eq /\ _ => assert (E : eq) by (vm_compute; reflexivity)
  end.
  split; [exact E|].
  destruct (enrolment_appends_a_sound_subject bob _ _ _ ltac:(simpl; lia) E)
    as (subject & Es & D & _ & Hm & _).
  exists subject. split; [rewrite Es; reflexivity|split; assumption].
Defined.

Lemma existsb_id_In (subject_id : string) (subjects : list Subject.t) :
  existsb (fun subj => String.eqb (Subject.id subj) subject_id) subjects = true
  <-> In subject_id (map Subject.id subjects).
Proof.
  rewrite existsb_exists, in_map_iff. split.
  - intros (x & Hx & E). apply String.eqb_eq in E. eauto.
  - intros (x & E & Hx). exists x. split; [assumption|]. now apply String.eqb_eq.
Qed.



Lemma setitem_setitem {V} (k : string) (v1 v2 : V) (d : PyDict.t V) :
  PyDict.setitem k v2 (PyDict.setitem k v1 d) = PyDict.setitem k v2 d.
Proof.
  induction d as [|[k' v'] d IH]; simpl.
  - now rewrite String.eqb_refl.
  - destruct (String.eqb k' k) eqn:E; simpl; rewrite E; [reflexivity|].
    now rewrite IH.
Qed.

(** X14. Enrolling and then dropping the subject just enrolled gives the
    student back as it was, and the file holds that student under its
    e-mail. *)
Theorem enroll_then_drop (student student1 : Student.t) (w w1 : World) :
  (List.length (Student.subjects student) < 4)%nat ->
  SubjectController.enroll_subject student w = Ok student1 w1 ->
  exists subject w2,
    Student.subjects student1 = (Student.subjects student ++ [subject])%list
    /\ SubjectController.remove_subject student1 (Subject.id subject) w1
       = Ok student w2
    /\ file w2 = PyDict.setitem (Student.email student) student (file w).
Proof.
  intros L E.
  apply (controller_enroll_inv _ _ _ _ L) in E as ((info & -> & Hnew) & F).
  exists info. eexists. split; [reflexivity|].
  unfold SubjectController.remove_subject. simpl.
  assert (Hin : existsb (fun subj => String.eqb (Subject.id subj) (Subject.id info))
                        (Student.subjects student ++ [info])%list = true).
  { apply existsb_id_In. rewrite map_app. apply in_or_app. right. now left. }
  rewrite Hin. simpl.
  unfold bind, print, Database.load_data, Database.save_data, ret. simpl.
  assert (Ef : filter (fun subject => negb (String.eqb (Subject.id subject) (Subject.id info)))
                      (Student.subjects student ++ [info])%list
               = Student.subjects student).
  { rewrite filter_app. simpl. rewrite String.eqb_refl. simpl. rewrite app_nil_r.
    clear -Hnew. induction (Student.subjects student) as [|y l IH]; [reflexivity|].
    simpl in *. destruct (String.eqb_spec (Subject.id y) (Subject.id info)) as [Ey|Ny].
    - exfalso. auto.
    - simpl. f_equal. apply IH. auto. }
  unfold Student.drop_subject. simpl. rewrite Ef, F.
  assert (Es : Student.set_subjects (Student.subjects student)
                 (Student.set_subjects (Student.subjects student ++ [info])%list student)
               = student) by (destruct student; reflexivity).
  rewrite Es. split; [reflexivity|]. simpl. apply setitem_setitem.
Qed.

Lemma enroll_then_drop_witness :
  exists student1 w1 subject w2,
    SubjectController.enroll_subject bob (fresh_world [5; 10]%Z) = Ok student1 w1
    /\ SubjectController.remove_subject student1 (Subject.id subject) w1 = Ok bob w2.
Proof.
  eexists. eexists.
  match goal with
  | |- exists subject w2, ?eq /\ _ =>
      assert (E : eq) by (vm_compute; reflexivity)
  end.
  destruct (enroll_then_drop bob _ _ _ ltac:(simpl; lia) E) as (subject & w2 & _ & D & _).
  exists subject, w2. split; assumption.
Defined.

(** ** What a request does to the file and to the objects held *)

Lemma register_none (name email password : string) (w w' : World) :
  StudentController.register_student name email password w = Ok None w' ->
  file w' = file w.
Proof.
  unfold StudentController.register_student. unfold bind at 1.
  unfold Database.load_data at 1.
  destruct (PyDict.contains email (file w)).
  - unfold bind, print, ret. intros H. now injection H as <-.
  - unfold bind at 1.
    destruct (StudentController.generate_student_id w) as [sid w1| |]; try discriminate.
    unfold Student.new, bind, randint, ret, Database.save_data.
    destruct (entropy w1); discriminate.
Qed.

Lemma login_inv (email password : string) (w w' : World) (result : string + Student.t) :
  StudentController.login_student email password w = Ok result w' ->
  file w' = file w /\ entropy w' = entropy w
  /\ forall student, result = inr student ->
                     PyDict.getitem email (file w) = Some student.
Proof.
  unfold StudentController.login_student, bind, Database.load_data.
  destruct (negb (_is_valid_email email) || negb (_is_valid_password password)).
  { intros H. injection H as <- <-. repeat split. discriminate. }
  destruct (negb (PyDict.contains email (file w))).
  { intros H. injection H as <- <-. repeat split. discriminate. }
  destruct (PyDict.getitem email (file w)) as [stored|]; [|discriminate].
  destruct (String.eqb (Student.password stored) password).
  - unfold print, ret. intros H. injection H as <- <-. repeat split.
    intros s E. now injection E as <-.
  - intros H. injection H as <- <-. repeat split. discriminate.
Qed.

Lemma change_password_step (student student' : Student.t) (np : string) (w w' : World) :
  StudentController.change_student_password student np w = Ok student' w' ->
  saves_or_not (fun s s' => s' = Student.set_password np s) student student' w w'.
Proof.
  unfold StudentController.change_student_password, saves_or_not.
  destruct (_is_valid_password np); simpl;
    unfold bind, print, ret, Database.load_data, Database.save_data; simpl;
    intros H; injection H as <- <-; simpl; auto.
Qed.

Lemma enroll_step (student student' : Student.t) (w w' : World) :
  SubjectController.enroll_subject student w = Ok student' w' ->
  saves_or_not
    (fun s s' =>
       exists r m,
         (List.length (Student.subjects s) < 4)%nat
         /\ ~ In (subject_id_of r) (map Subject.id (Student.subjects s))
         /\ s' = Student.set_subjects (Student.subjects s ++ [subject_of r m])%list s)
    student student' w w'.
Proof.
  unfold saves_or_not. intros H.
  destruct (Nat.le_gt_cases 4 (List.length (Student.subjects student))) as [L|L].
  - rewrite controller_enroll_full in H by assumption.
    injection H as <- <-. auto.
  - right. revert H. unfold SubjectController.enroll_subject. unfold bind at 1.
    destruct (Student.enroll_subject student w) as [[result self'] w1| |] eqn:E;
      try discriminate.
    apply (Student_enroll_shape _ _ _ _ _ L) in E as (r & m & -> & -> & Hnew & F & O).
    unfold bind, print, Database.load_data, Database.save_data, ret. simpl.
    intros H. injection H as <- <-. simpl. rewrite F. split; [|reflexivity].
    exists r, m. auto.
Qed.

Lemma remove_subject_step (student student' : Student.t) (sid : string) (w w' : World) :
  SubjectController.remove_subject student sid w = Ok student' w' ->
  saves_or_not (fun s s' => s' = Student.drop_subject s sid) student student' w w'.
Proof.
  unfold SubjectController.remove_subject, saves_or_not.
  destruct (negb _); simpl;
    unfold bind, print, ret, Database.load_data, Database.save_data; simpl;
    intros H; injection H as <- <-; simpl; auto.
Qed.

Lemma remove_student_step (student_id : string) (w w' : World) (result : bool) :
  AdminController.remove_student student_id w = Ok result w' ->
  file w' = file w \/ exists k, PyDict.delitem k (file w) = Some (file w').
Proof.
  unfold AdminController.remove_student, bind, Database.load_data.
  destruct (map fst _) as [|first rest].
  - intros H. injection H as _ <-. now left.
  - destruct (PyDict.delitem first (file w)) as [data|] eqn:D; [|discriminate].
    unfold Database.save_data, ret. intros H. injection H as _ <-. simpl. eauto.
Qed.

Section SessionInvariant.
Variable P : Student.t -> Prop.
Hypothesis P_new : forall i name email password, P (Student.mk i name email password []).
Hypothesis P_password : forall s np, P s -> P (Student.set_password np s).
Hypothesis P_enroll :
  forall s r m,
    (List.length (Student.subjects s) < 4)%nat ->
    ~ In (subject_id_of r) (map Subject.id (Student.subjects s)) ->
    P s -> P (Student.set_subjects (Student.subjects s ++ [subject_of r m])%list s).
Hypothesis P_drop : forall s sid, P s -> P (Student.drop_subject s sid).

Let holds (w : World) (held : list Student.t) : Prop :=
  Forall P (PyDict.values (file w)) /\ Forall P held.

Lemma put_keeps (who : nat) (s : Student.t) (held : list Student.t) :
  P s -> Forall P held -> Forall P (Session.put who s held).
Proof.
  intros C. revert who. induction held as [|h held IH]; intros who H; simpl.
  - constructor.
  - inversion H; subst. destruct who; constructor; auto.
Qed.

Lemma on_keeps (Q : Student.t -> Student.t -> Prop) who held
      (call : Student.t -> M Student.t) w held' w' :
  (forall s s' w w', call s w = Ok s' w' -> saves_or_not Q s s' w w') ->
  (forall s s', Q s s' -> P s -> P s') ->
  Session.on who held call w = Ok held' w' ->
  holds w held -> holds w' held'.
Proof.
  unfold Session.on, holds. intros Hcall HQ H [F Hh].
  destruct (nth_error held who) as [student|] eqn:N.
  - unfold bind in H. destruct (call student w) as [student' w1| |] eqn:E;
      try discriminate.
    unfold ret in H. injection H as <- <-.
    apply nth_error_In in N. rewrite Forall_forall in Hh.
    pose proof (Hh _ N) as Ps.
    destruct (Hcall _ _ _ _ E) as [[-> ->] | [Hq ->]].
    + split; [assumption|]. apply put_keeps; [assumption|now apply Forall_forall].
    + pose proof (HQ _ _ Hq Ps) as Ps'. split.
      * now apply Forall_values_setitem.
      * apply put_keeps; [assumption|now apply Forall_forall].
  - injection H as <- <-. auto.
Qed.

Lemma serve_keeps (r : Session.request) held w held' w' :
  holds w held -> Session.serve r held w = Ok held' w' -> holds w' held'.
Proof.
  intros A H. destruct r as [n e p | e p | who np | who | who sid | sid | ]; simpl in H.
  - unfold bind in H.
    destruct (StudentController.register_student n e p w) as [[s|] w1| |] eqn:E;
      try discriminate; injection H as <- <-; destruct A as [F Hh].
    + apply register_inv in E as (_ & (r & ->) & _ & Fw & _).
      unfold holds, PyDict.values. rewrite Fw, map_app.
      split; apply Forall_app; split; auto. simpl. auto.
    + apply register_none in E. unfold holds. rewrite E. auto.
  - unfold bind in H.
    destruct (StudentController.login_student e p w) as [res w1| |] eqn:E;
      try discriminate.
    destruct A as [F Hh]. apply login_inv in E as (Fw & _ & G).
    destruct res as [m|s]; injection H as <- <-; unfold holds; rewrite Fw; split; auto.
    apply Forall_app. split; auto. constructor; [|constructor].
    specialize (G s eq_refl). apply getitem_In, values_In in G.
    rewrite Forall_forall in F. auto.
  - eapply on_keeps; [| |exact H|exact A].
    + intros ? ? ? ? E. apply change_password_step in E. exact E.
    + intros s s' -> Ps. simpl. auto.
  - eapply on_keeps; [| |exact H|exact A].
    + intros ? ? ? ? E. apply enroll_step in E. exact E.
    + intros s s' (r & m & L & N & ->) Ps. auto.
  - eapply on_keeps; [| |exact H|exact A].
    + intros ? ? ? ? E. apply remove_subject_step in E. exact E.
    + intros s s' -> Ps. simpl. auto.
  - unfold bind in H.
    destruct (AdminController.remove_student sid w) as [res w1| |] eqn:E;
      try discriminate.
    injection H as <- <-. destruct A as [F Hh]. split; [|assumption].
    apply remove_student_step in E as [->|(k & D)]; [assumption|].
    eapply Forall_values_delitem; eauto.
  - unfold AdminController.clear_all_student_data, bind, Database.clear_data,
      print, ret in H.
    injection H as <- <-. destruct A as [F Hh]. split; [constructor|assumption].
Qed.

Lemma run_keeps (rs : list Session.request) :
  forall held w held' w',
    holds w held -> Session.run rs held w = Ok held' w' -> holds w' held'.
Proof.
  induction rs as [|r rs IH]; intros held w held' w' A H; simpl in H.
  - injection H as <- <-. assumption.
  - unfold bind in H. destruct (Session.serve r held w) as [held1 w1| |] eqn:E;
      try discriminate.
    eapply IH; [|exact H]. eapply serve_keeps; eauto.
Qed.
End SessionInvariant.

(** Dropping subjects keeps the ids of the others distinct. *)
Lemma distinct_ids_filter (keep : Subject.t -> bool) (subjects : list Subject.t) :
  NoDup (map Subject.id subjects) ->
  NoDup (map Subject.id (filter keep subjects)).
Proof.
  intros D. induction subjects as [|x rest IH]; simpl; [constructor|].
  simpl in D. apply NoDup_cons_iff in D as [N D].
  destruct (keep x); simpl; [|now apply IH].
  constructor; [|now apply IH].
  rewrite in_map_iff. intros (y & E & Hy).
  apply filter_In in Hy as [Hy _]. apply N. rewrite <- E. now apply in_map.
Qed.

(** X15. Whatever requests a front end makes, in a file and with objects
    whose subjects are as [Subject()] makes them, they stay so: within
    every student the subject ids differ, every mark lies from 25 to 100,
    and every stored grade is the grade of its mark. *)
Theorem run_keeps_subjects_sound (rs : list Session.request)
        (held held' : list Student.t) (w w' : World) :
  all_sound w held -> Session.run rs held w = Ok held' w' -> all_sound w' held'.
Proof.
  unfold all_sound. apply (run_keeps student_sound).
  - intros. split; constructor.
  - intros s np H. exact H.
  - intros s r m L N [D F]. unfold student_sound. simpl. split.
    + rewrite map_app. simpl. apply NoDup_app.
      * assumption.
      * repeat constructor. intros [].
      * intros x Hx [<-|[]]. contradiction.
    + apply Forall_app. split; [assumption|].
      constructor; [apply subject_of_sound|constructor].
  - intros s sid [D F]. unfold student_sound. simpl. split.
    + now apply distinct_ids_filter.
    + apply Forall_forall. intros x Hx. apply filter_In in Hx as [Hx _].
      rewrite Forall_forall in F. auto.
Qed.

Lemma run_keeps_subjects_sound_witness :
  exists held' w',
    Session.run
      [Session.Register "Eve" "eve.roe@university.com" "Abcde123";
       Session.Enroll 0; Session.Enroll 0; Session.Drop 0 "006"]
      [] (fresh_world [41; 0; 5; 10; 5; 10; 6; 80]%Z)
    = Ok held' w'
    /\ all_sound w' held'.
Proof.
  eexists. eexists.
  match goal with
  | |- ?eq /\ _ => assert (E : eq) by (vm_compute; reflexivity)
  end.
  split; [exact E|].
  refine (run_keeps_subjects_sound _ [] _ (fresh_world _) _ _ E).
  split; constructor.
Defined.

(** ** The file stays keyed by e-mail *)

Lemma keys_setitem_absent {V} (k : string) (v : V) (d : PyDict.t V) :
  ~ In k (PyDict.keys d) -> PyDict.keys (PyDict.setitem k v d) = (PyDict.keys d ++ [k])%list.
Proof.
  intros N. apply getitem_None_iff in N. rewrite (setitem_absent _ _ _ N).
  unfold PyDict.keys. now rewrite map_app.
Qed.

Lemma store_keyed_setitem (s : Student.t) (d : PyDict.t Student.t) :
  store_keyed d -> store_keyed (PyDict.setitem (Student.email s) s d).
Proof.
  intros [W K]. split.
  - unfold PyDict.wf in *.
    destruct (in_dec string_dec (Student.email s) (PyDict.keys d)) as [I|N].
    + now rewrite keys_setitem_present.
    + rewrite keys_setitem_absent by assumption.
      apply NoDup_app; [assumption|repeat constructor; intros []|].
      intros x Hx [<-|[]]. contradiction.
  - clear W. induction d as [|[k v] d IH]; simpl.
    + repeat constructor.
    + inversion K; subst. destruct (String.eqb_spec k (Student.email s)) as [->|N];
        constructor; auto.
Qed.

Lemma store_keyed_delitem (k : string) (d d' : PyDict.t Student.t) :
  PyDict.delitem k d = Some d' -> store_keyed d -> store_keyed d'.
Proof.
  unfold store_keyed, PyDict.wf. revert d'.
  induction d as [|[k0 v0] d IH]; simpl; intros d' E [W K]; [discriminate|].
  inversion W as [|? ? N W']; subst. inversion K as [|? ? K0 K']; subst.
  destruct (String.eqb k0 k).
  - injection E as <-. auto.
  - destruct (PyDict.delitem k d) as [d''|] eqn:D; [|discriminate].
    injection E as <-. destruct (IH d'' eq_refl (conj W' K')) as [W'' K''].
    split; simpl; constructor; auto.
    intros Hin. apply N. clear -D Hin. revert d'' D Hin.
    induction d as [|[k1 v1] d IH]; simpl; intros d'' D Hin; [discriminate|].
    destruct (String.eqb k1 k).
    + injection D as <-. now right.
    + destruct (PyDict.delitem k d) as [d1|]; [|discriminate].
      injection D as <-. destruct Hin as [<-|Hin]; [now left|].
      right. eapply IH; eauto.
Qed.

(** Every request leaves the file as it is, or writes one student under
    the student's own e-mail, or deletes one record, or empties the
    file. *)
Lemma serve_file_step (r : Session.request) (held held' : list Student.t) (w w' : World) :
  Session.serve r held w = Ok held' w' ->
  file w' = file w
  \/ (exists s, file w' = PyDict.setitem (Student.email s) s (file w))
  \/ (exists k, PyDict.delitem k (file w) = Some (file w'))
  \/ file w' = [].
Proof.
  assert (On : forall Q who (call : Student.t -> M Student.t),
             (forall s s' w w', call s w = Ok s' w' -> saves_or_not Q s s' w w') ->
             Session.on who held call w = Ok held' w' ->
             file w' = file w
             \/ (exists s, file w' = PyDict.setitem (Student.email s) s (file w))).
  { intros Q who call Hcall. unfold Session.on.
    destruct (nth_error held who) as [student|].
    - unfold bind. destruct (call student w) as [student' w1| |] eqn:E; try discriminate.
      unfold ret. intros H. injection H as _ <-.
      destruct (Hcall _ _ _ _ E) as [[_ F] | [_ F]]; eauto.
    - intros H. injection H as _ <-. auto. }
  destruct r as [n e p | e p | who np | who | who sid | sid | ]; simpl; intros H.
  - unfold bind in H.
    destruct (StudentController.register_student n e p w) as [[s|] w1| |] eqn:E;
      try discriminate; injection H as _ <-.
    + apply register_inv in E as (G & (r & ->) & _ & F & _).
      right. left. exists (Student.mk (student_id_of r) n e p []).
      rewrite F. simpl. now rewrite (setitem_absent _ _ _ G).
    + apply register_none in E. auto.
  - unfold bind in H.
    destruct (StudentController.login_student e p w) as [res w1| |] eqn:E;
      try discriminate.
    apply login_inv in E as (F & _).
    destruct res; injection H as _ <-; auto.
  - eapply On in H; [tauto|]. intros ? ? ? ? E. apply change_password_step in E. exact E.
  - eapply On in H; [tauto|]. intros ? ? ? ? E. apply enroll_step in E. exact E.
  - eapply On in H; [tauto|]. intros ? ? ? ? E. apply remove_subject_step in E. exact E.
  - unfold bind in H.
    destruct (AdminController.remove_student sid w) as [res w1| |] eqn:E;
      try discriminate.
    injection H as _ <-. apply remove_student_step in E as [F|D]; auto.
  - unfold AdminController.clear_all_student_data, bind, Database.clear_data,
      print, ret in H.
    injection H as _ <-. simpl. auto.
Qed.

(** X16. Whatever requests a front end makes, the file stays a dictionary
    in which every record is stored under the e-mail of its student; so no
    two records hold the same e-mail. *)
Theorem run_keeps_store_keyed (rs : list Session.request) :
  forall (held held' : list Student.t) (w w' : World),
    store_keyed (file w) ->
    Session.run rs held w = Ok held' w' ->
    store_keyed (file w')
    /\ NoDup (map Student.email (PyDict.values (file w'))).
Proof.
  assert (U : forall d : PyDict.t Student.t,
             store_keyed d -> NoDup (map Student.email (PyDict.values d))).
  { intros d [W K]. unfold PyDict.wf, PyDict.keys, PyDict.values in *.
    rewrite map_map. erewrite map_ext_in; [exact W|].
    intros item Hin. rewrite Forall_forall in K. symmetry. auto. }
  induction rs as [|r rs IH]; intros held held' w w' S H; simpl in H.
  - injection H as _ <-. auto.
  - unfold bind in H. destruct (Session.serve r held w) as [held1 w1| |] eqn:E;
      try discriminate.
    apply (IH _ _ _ _) in H; [assumption|].
    apply serve_file_step in E as [F | [(s & F) | [(k & D) | F]]]; rewrite ?F.
    + assumption.
    + now apply store_keyed_setitem.
    + eapply store_keyed_delitem; eauto.
    + split; constructor.
Qed.

Lemma run_keeps_store_keyed_witness :
  exists held' w',
    Session.run
      [Session.Register "Eve" "eve.roe@university.com" "Abcde123";
       Session.Register "Tom" "tom.two@university.com" "Abcde123";
       Session.ChangePassword 0 "Zyxwv987"]
      [] (fresh_world [41; 0; 7; 0]%Z)
    = Ok held' w'
    /\ store_keyed (file w')
    /\ NoDup (map Student.email (PyDict.values (file w'))).
Proof.
  eexists. eexists.
  match goal with
  | |- ?eq /\ _ => assert (E : eq) by (vm_compute; reflexivity)
  end.
  split; [exact E|].
  refine (run_keeps_store_keyed _ [] _ (fresh_world _) _ _ E).
  split; constructor.
Defined.

(** ** Student ids *)

(** X6. [generate_student_id] reads the file and draws until an id is new:
    a call that returns gives a string of six digits that is the id of no
    record, made from the last draw it used, and leaves file and terminal
    as they are; and the call returns at the first draw whose id no record
    has. *)
Theorem generate_student_id_fresh (w : World) :
  (forall student_id w',
      StudentController.generate_student_id w = Ok student_id w' ->
      digits 6 student_id
      /\ ~ has_id student_id (file w)
      /\ file w' = file w /\ stdout w' = stdout w
      /\ exists used r,
          entropy w = (used ++ r :: entropy w')%list /\ student_id = student_id_of r)
  /\ (forall used r rest,
         entropy w = (used ++ r :: rest)%list ->
         Forall (fun x => has_id (student_id_of x) (file w)) used ->
         ~ has_id (student_id_of r) (file w) ->
         StudentController.generate_student_id w
         = Ok (student_id_of r) (with_entropy rest w)).
Proof.
  split.
  - intros sid w' H.
    apply generate_student_id_inv in H as (Hnew & F & O & pre & r & E & ->).
    repeat split; eauto; apply student_id_of_digits.
  - intros used r rest E Hu Hr. now apply generate_student_id_returns with (pre := used).
Qed.

Lemma generate_student_id_fresh_witness :
  StudentController.generate_student_id (with_entropy [41; 7]%Z john_world)
  = Ok "000008" (with_entropy [] john_world)
  /\ digits 6 "000008".
Proof.
  assert (E : StudentController.generate_student_id (with_entropy [41; 7]%Z john_world)
              = Ok "000008" (with_entropy [] john_world)).
  { apply (proj2 (generate_student_id_fresh (with_entropy [41; 7]%Z john_world))
                 [41%Z] 7%Z []).
    - reflexivity.
    - constructor; [|constructor]. exists john. split; [now left|reflexivity].
    - intros (s & [<-|[]] & H). vm_compute in H. discriminate. }
  split; [exact E|].
  apply (proj1 (generate_student_id_fresh (with_entropy [41; 7]%Z john_world)) _ _ E).
Defined.

(** ** No exception leaves a controller *)

Lemma until_never_raises {A} (body : M (option A)) (fuel : nat) :
  (forall w e, body w <> Raise e) ->
  forall w e, until_fuel fuel body w <> Raise e.
Proof.
  intros Hb. induction fuel as [|fuel IH]; intros w e; simpl; [discriminate|].
  unfold bind. destruct (body w) as [[a|] w1|e'|] eqn:E; try discriminate.
  - apply IH.
  - exfalso. eapply Hb; eauto.
Qed.

Lemma while_never_raises {X} (cond : X -> bool) (body : X -> M X) (fuel : nat) :
  (forall x w e, body x w <> Raise e) ->
  forall x w e, while_fuel fuel cond body x w <> Raise e.
Proof.
  intros Hb. induction fuel as [|fuel IH]; intros x w e; simpl; [discriminate|].
  destruct (cond x); [|discriminate].
  unfold bind. destruct (body x w) as [x' w1|e'|] eqn:E; try discriminate.
  - apply IH.
  - exfalso. eapply Hb; eauto.
Qed.

Lemma Subject_new_never_raises (w : World) (e : string) : Subject_new w <> Raise e.
Proof.
  unfold Subject_new, bind, randint, ret.
  destruct (entropy w) as [|r [|m rs]]; simpl; discriminate.
Qed.

Lemma delitem_present {V} (k : string) (d : PyDict.t V) :
  In k (PyDict.keys d) -> PyDict.delitem k d <> None.
Proof.
  induction d as [|[k' v'] d IH]; simpl; [contradiction|].
  destruct (String.eqb_spec k' k) as [->|N]; [discriminate|].
  intros [E|H]; [contradiction|].
  destruct (PyDict.delitem k d); [discriminate|]. now apply IH.
Qed.

(** X17. Given a file that loads and saves, no call of a controller
    raises [KeyError], whatever the arguments and the record set: the
    look-ups [data[email]] and [groups[grade]] and the deletion
    [del data[...]] always find their key.  [login_student],
    [change_student_password], [remove_subject], [remove_student] and
    [show_all_students] always return; [register_student] and
    [enroll_subject] raise nothing; the two reports return on a record
    set without a mean beyond the floats, and on the others the one
    exception they raise is [OverflowError]. *)
Theorem controllers_raise_no_key_error (w : World) :
  (forall email password,
      exists result w', StudentController.login_student email password w = Ok result w')
  /\ (forall student new_password,
         exists student' w',
           StudentController.change_student_password student new_password w
           = Ok student' w')
  /\ (forall student subject_id,
         exists student' w',
           SubjectController.remove_subject student subject_id w = Ok student' w')
  /\ (forall student_id,
         exists result w', AdminController.remove_student student_id w = Ok result w')
  /\ (exists text, AdminController.show_all_students w = Ok text w)
  /\ (forall name email password e,
         StudentController.register_student name email password w <> Raise e)
  /\ (forall student e, SubjectController.enroll_subject student w <> Raise e)
  /\ (representable (file w) ->
      exists groups, AdminController.group_students_by_grade w = Ok groups w)
  /\ (representable (file w) ->
      exists lists, AdminController.partition_students_pass_fail w = Ok lists w)
  /\ (forall e,
         AdminController.group_students_by_grade w = Raise e ->
         e = "OverflowError" /\ ~ representable (file w))
  /\ (forall e,
         AdminController.partition_students_pass_fail w = Raise e ->
         e = "OverflowError" /\ ~ representable (file w)).
Proof.
  split; [|split; [|split; [|split; [|split; [|split; [|split; [|split; [|split; [|split]]]]]]]]].
  - intros email password.
    unfold StudentController.login_student, bind, Database.load_data.
    destruct (negb (_is_valid_email email) || negb (_is_valid_password password));
      [unfold ret; eauto|].
    destruct (PyDict.contains email (file w)) eqn:C; simpl; [|unfold ret; eauto].
    apply contains_true in C as (v & G). rewrite G.
    unfold print, ret. destruct (String.eqb (Student.password v) password); eauto.
  - intros student np. unfold StudentController.change_student_password.
    destruct (_is_valid_password np); simpl;
      unfold bind, print, ret, Database.load_data, Database.save_data; eauto.
  - intros student sid. unfold SubjectController.remove_subject.
    destruct (negb _); simpl;
      unfold bind, print, ret, Database.load_data, Database.save_data; eauto.
  - intros sid. unfold AdminController.remove_student, bind, Database.load_data.
    destruct (map fst _) as [|first rest] eqn:E; [unfold ret; eauto|].
    assert (Hin : In first (PyDict.keys (file w))).
    { assert (H : In first (first :: rest)) by now left.
      rewrite <- E in H. apply in_map_iff in H as (item & <- & Hi).
      apply filter_In in Hi as [Hi _]. now apply in_map. }
    apply delitem_present in Hin.
    destruct (PyDict.delitem first (file w)); [|congruence].
    unfold Database.save_data, ret. eauto.
  - unfold AdminController.show_all_students, bind, Database.load_data, ret.
    destruct (file w); eauto.
  - intros name email password e.
    unfold StudentController.register_student. unfold bind at 1.
    unfold Database.load_data at 1.
    destruct (PyDict.contains email (file w)); [unfold bind, print, ret; discriminate|].
    unfold bind at 1.
    destruct (StudentController.generate_student_id w) as [sid w1|e'|] eqn:G;
      try discriminate.
    + unfold Student.new, bind, randint, ret, Database.save_data.
      destruct (entropy w1); discriminate.
    + exfalso. revert G.
      unfold StudentController.generate_student_id, bind, Database.load_data, while_true.
      apply until_never_raises. intros w0 e0. unfold bind, randint, ret.
      destruct (entropy w0); discriminate.
  - intros student e. unfold SubjectController.enroll_subject. unfold bind at 1.
    destruct (Student.enroll_subject student w) as [[[info|] s'] w1|e'|] eqn:E;
      try (unfold bind, print, ret, Database.load_data, Database.save_data; discriminate).
    exfalso. revert E. unfold Student.enroll_subject.
    destruct (4 <=? List.length (Student.subjects student))%nat; [discriminate|].
    unfold bind at 1.
    destruct (Subject_new w) as [x w1|e0|] eqn:N; try discriminate.
    + unfold bind, while_.
      match goal with
      | |- context [while_fuel ?f ?c ?b ?x ?w] =>
          destruct (while_fuel f c b x w) as [y w2|e1|] eqn:Wh; try discriminate
      end.
      exfalso. revert Wh. apply while_never_raises.
      intros _ w0 e0. apply Subject_new_never_raises.
    + exfalso. revert N. apply Subject_new_never_raises.
  - intros R.
    unfold AdminController.group_students_by_grade, bind, Database.load_data.
    destruct (group_loop_spec (PyDict.items (file w))
                [("HD", []); ("D", []); ("C", []); ("P", []); ("Z", [])] w eq_refl R)
      as (groups & E & _).
    exists groups. exact E.
  - intros R.
    unfold AdminController.partition_students_pass_fail, bind, Database.load_data.
    rewrite partition_loop_spec by exact R. eauto.
  - intros e H.
    unfold AdminController.group_students_by_grade, bind, Database.load_data in H.
    destruct (representable_or_not (PyDict.values (file w))) as [R|R].
    + destruct (group_loop_spec (PyDict.items (file w))
                  [("HD", []); ("D", []); ("C", []); ("P", []); ("Z", [])] w eq_refl R)
        as (groups & E & _).
      rewrite E in H. discriminate.
    + rewrite (group_loop_raises (PyDict.items (file w))
                 [("HD", []); ("D", []); ("C", []); ("P", []); ("Z", [])] w eq_refl R) in H.
      injection H as <-. split; [reflexivity|].
      intros F. unfold representable in F. rewrite Forall_forall in F.
      apply Exists_exists in R as (s & Hs & O). rewrite (F s Hs) in O. discriminate.
  - intros e H.
    unfold AdminController.partition_students_pass_fail, bind, Database.load_data in H.
    destruct (representable_or_not (PyDict.values (file w))) as [R|R].
    + rewrite partition_loop_spec in H by exact R. discriminate.
    + rewrite (partition_loop_raises (PyDict.items (file w)) _ _ w R) in H.
      injection H as <-. split; [reflexivity|].
      intros F. unfold representable in F. rewrite Forall_forall in F.
      apply Exists_exists in R as (s & Hs & O). rewrite (F s Hs) in O. discriminate.
Qed.

Lemma controllers_raise_no_key_error_witness :
  (exists result w',
      StudentController.login_student "john.smith@university.com" "Abcde123" john_world
      = Ok result w')
  /\ (exists result w', AdminController.remove_student "000042" john_world = Ok result w')
  /\ SubjectController.enroll_subject bob john_world <> Raise "KeyError"
  /\ (exists groups, AdminController.group_students_by_grade john_world = Ok groups john_world)
  /\ AdminController.partition_students_pass_fail (mkWorld [(Student.email huge, huge)] [] [])
     <> Raise "KeyError".
Proof.
  pose proof (controllers_raise_no_key_error john_world)
    as (L & _ & _ & R & _ & _ & E & G & _).
  split; [apply L|split; [apply R|split; [apply E|split]]].
  - apply G. repeat constructor.
  - intros H.
    apply (proj2 (proj2 (proj2 (proj2 (proj2 (proj2 (proj2 (proj2 (proj2 (proj2
             (controllers_raise_no_key_error (mkWorld [(Student.email huge, huge)] [] []))
          )))))))))) in H.
    destruct H as [H _]. discriminate.
Defined.

(** ** Clearing the file *)

(** X18. After [clear_all_student_data] the file is empty whatever it held:
    every well-formed log-in is answered "Student does not exist.", no id
    can be removed, the listing shows nothing, the pass/fail lists and the
    five grade groups are empty, and every e-mail is free to register. *)
Theorem clear_all_empties (w : World) :
  exists w',
    AdminController.clear_all_student_data w = Ok tt w'
    /\ file w' = []
    /\ stdout w' = (stdout w ++ [yellow "All student data has been cleared."])%list
    /\ (forall email password,
           _is_valid_email email = true -> _is_valid_password password = true ->
           StudentController.login_student email password w'
           = Ok (inl msg_does_not_exist) w')
    /\ (forall student_id, AdminController.remove_student student_id w' = Ok false w')
    /\ AdminController.show_all_students w' = Ok AdminController.msg_nothing_to_display w'
    /\ AdminController.partition_students_pass_fail w' = Ok ([], []) w'
    /\ AdminController.group_students_by_grade w'
       = Ok [("HD", []); ("D", []); ("C", []); ("P", []); ("Z", [])] w'
    /\ (forall email, PyDict.contains email (file w') = false).
Proof.
  unfold AdminController.clear_all_student_data, bind, Database.clear_data, print, ret.
  eexists. split; [reflexivity|]. simpl. repeat split.
  intros email password Ve Vp. now apply login_absent.
Qed.

(** ** Grade groups and the pass/fail lists *)

Lemma passing_iff_not_Z (s : Student.t) :
  passes s = negb (in_bucket "Z" s).
Proof.
  unfold passes, in_bucket.
  destruct (assign_grade_cases (mean_mark s))
    as [[L E] | [(L & U & E) | [(L & U & E) | [(L & U & E) | [L E]]]]];
    rewrite E; simpl.
  - apply not_true_iff_false. rewrite Qle_bool_iff. now apply Qlt_not_le.
  - now apply Qle_bool_iff.
  - apply Qle_bool_iff. eapply Qle_trans; [|exact L]. discriminate.
  - apply Qle_bool_iff. eapply Qle_trans; [|exact L]. discriminate.
  - apply Qle_bool_iff. eapply Qle_trans; [|exact L]. discriminate.
Qed.

Lemma buckets_cover (students : list Student.t) :
  (List.length (filter (in_bucket "HD") students)
   + List.length (filter (in_bucket "D") students)
   + List.length (filter (in_bucket "C") students)
   + List.length (filter (in_bucket "P") students)
   + List.length (filter (in_bucket "Z") students))%nat
  = List.length students.
Proof.
  induction students as [|s l IH]; [reflexivity|].
  cbn [filter].
  assert (B : forall g, in_bucket g s
                        = String.eqb (Subject.assign_grade (mean_mark s)) g)
    by reflexivity.
  rewrite !B.
  destruct (assign_grade_cases (mean_mark s))
    as [[_ E] | [(_ & _ & E) | [(_ & _ & E) | [(_ & _ & E) | [_ E]]]]];
    rewrite E; simpl; lia.
Qed.

(** X19. The two admin reports agree.  The [failed] list holds exactly the
    students of the grade group Z, in the same order, and [passed] the
    students of the other four groups; every student is in exactly one of
    [passed] and [failed] and in exactly one of the five groups: the sizes
    add up to the number of records.  The two reports are produced on the
    same record sets, those without a mean beyond the floats; on the
    others both raise [OverflowError]. *)
Theorem reports_agree (w : World) :
  (representable (file w) ->
   exists passed failed groups hd d c p z,
     AdminController.partition_students_pass_fail w = Ok (passed, failed) w
     /\ AdminController.group_students_by_grade w = Ok groups w
     /\ PyDict.getitem "HD" groups = Some hd
     /\ PyDict.getitem "D" groups = Some d
     /\ PyDict.getitem "C" groups = Some c
     /\ PyDict.getitem "P" groups = Some p
     /\ PyDict.getitem "Z" groups = Some z
     /\ failed = map forget_grade z
     /\ (List.length passed + List.length failed = List.length (file w))%nat
     /\ (List.length hd + List.length d + List.length c + List.length p
         + List.length z = List.length (file w))%nat
     /\ (List.length passed
         = List.length hd + List.length d + List.length c + List.length p)%nat)
  /\ (~ representable (file w) ->
      AdminController.partition_students_pass_fail w = Raise "OverflowError"
      /\ AdminController.group_students_by_grade w = Raise "OverflowError")
  /\ (forall lists w',
         AdminController.partition_students_pass_fail w = Ok lists w' ->
         exists groups, AdminController.group_students_by_grade w = Ok groups w')
  /\ (forall groups w',
         AdminController.group_students_by_grade w = Ok groups w' ->
         exists lists, AdminController.partition_students_pass_fail w = Ok lists w').
Proof.
  assert (Good : representable (file w) ->
                 exists lists groups,
                   AdminController.partition_students_pass_fail w = Ok lists w
                   /\ AdminController.group_students_by_grade w = Ok groups w).
  { intros R.
    unfold AdminController.partition_students_pass_fail,
      AdminController.group_students_by_grade, bind, Database.load_data.
    rewrite partition_loop_spec by exact R.
    destruct (group_loop_spec (PyDict.items (file w))
                [("HD", []); ("D", []); ("C", []); ("P", []); ("Z", [])] w eq_refl R)
      as (groups & E & _).
    rewrite E. eauto. }
  assert (Bad : ~ representable (file w) ->
                AdminController.partition_students_pass_fail w = Raise "OverflowError"
                /\ AdminController.group_students_by_grade w = Raise "OverflowError").
  { intros N. apply not_representable in N.
    unfold AdminController.partition_students_pass_fail,
      AdminController.group_students_by_grade, bind, Database.load_data.
    rewrite partition_loop_raises by exact N.
    now rewrite (group_loop_raises (PyDict.items (file w))
                   [("HD", []); ("D", []); ("C", []); ("P", []); ("Z", [])] w eq_refl N). }
  assert (Dec : representable (file w) \/ ~ representable (file w)).
  { destruct (representable_or_not (PyDict.values (file w))) as [R|R]; [now left|right].
    intros F. unfold representable in F. rewrite Forall_forall in F.
    apply Exists_exists in R as (s & Hs & O). rewrite (F s Hs) in O. discriminate. }
  split; [|split; [exact Bad|split]].
  - intros R.
    unfold AdminController.partition_students_pass_fail,
      AdminController.group_students_by_grade, bind, Database.load_data.
    rewrite partition_loop_spec by exact R.
    destruct (group_loop_spec (PyDict.items (file w))
                [("HD", []); ("D", []); ("C", []); ("P", []); ("Z", [])] w eq_refl R)
      as (groups & E & _ & G).
    rewrite E. unfold PyDict.items in *.
    set (students := map snd (file w)) in *.
    do 8 eexists. split; [reflexivity|]. split; [reflexivity|].
    rewrite !G. simpl.
    do 5 (split; [reflexivity|]).
    assert (Ef : filter (fun s => negb (passes s)) students
                 = filter (in_bucket "Z") students).
    { apply filter_ext. intros s. rewrite passing_iff_not_Z. apply negb_involutive. }
    assert (Lp : (List.length (filter passes students)
                  + List.length (filter (in_bucket "Z") students))%nat
                 = List.length students).
    { rewrite <- Ef. clear. induction students as [|s l IH]; [reflexivity|].
      simpl. destruct (passes s); simpl; lia. }
    pose proof (buckets_cover students) as B.
    assert (Ls : List.length students = List.length (file w))
      by (unfold students; apply length_map).
    rewrite !length_map, Ef.
    repeat split.
    + rewrite map_map. apply map_ext. intros s. reflexivity.
    + lia.
    + lia.
    + lia.
  - intros lists w' H. destruct Dec as [R|N].
    + destruct (Good R) as (lists0 & groups & P & G).
      rewrite P in H. injection H as _ <-. eauto.
    + destruct (Bad N) as [P _]. rewrite P in H. discriminate.
  - intros groups w' H. destruct Dec as [R|N].
    + destruct (Good R) as (lists & groups0 & P & G).
      rewrite G in H. injection H as _ <-. eauto.
    + destruct (Bad N) as [_ G]. rewrite G in H. discriminate.
Qed.

Lemma reports_agree_witness :
  exists passed failed groups z,
    AdminController.partition_students_pass_fail
      (mkWorld [(Student.email ann, ann); (Student.email john, john)] [] [])
    = Ok (passed, failed)
         (mkWorld [(Student.email ann, ann); (Student.email john, john)] [] [])
    /\ PyDict.getitem "Z" groups = Some z
    /\ failed = map forget_grade z
    /\ (List.length passed + List.length failed = 2)%nat.
Proof.
  destruct (proj1 (reports_agree
              (mkWorld [(Student.email ann, ann); (Student.email john, john)] [] [])))
    as (passed & failed & groups & hd & d & c & p & z & P & _ & _ & _ & _ & _ & Z & F & L & _).
  - repeat constructor.
  - exists passed, failed, groups, z. auto.
Defined.

(** ** Showing the subjects *)

Lemma printed_printed (a b : list string) (w : World) :
  printed b (printed a w) = printed (a ++ b)%list w.
Proof. unfold printed. simpl. now rewrite app_assoc. Qed.

Lemma fold_print (line : Subject.t -> string) (subjects : list Subject.t) :
  forall (acc : M unit) (w w1 : World),
    acc w = Ok tt w1 ->
    fold_left (fun (printing : M unit) (subject : Subject.t) =>
                 printing ;;; print (line subject))
              subjects acc w
    = Ok tt (printed (map line subjects) w1).
Proof.
  induction subjects as [|x l IH]; intros acc w w1 H; simpl.
  - rewrite H. unfold printed. simpl. rewrite app_nil_r. now destruct w1.
  - rewrite (IH _ w (printed [line x] w1)).
    + now rewrite printed_printed.
    + unfold bind. rewrite H. reflexivity.
Qed.

(** X20. [show_enrolled_subjects] only prints: a heading with the number of
    subjects and then one line for each subject, in enrolment order; for a
    student without subjects it prints the heading "Showing 0 subjects"
    twice. *)
Theorem show_enrolled_subjects_lines (student : Student.t) (w : World) :
  exists lines,
    SubjectController.show_enrolled_subjects student w
    = Ok tt (mkWorld (file w) (entropy w) (stdout w ++ lines)%list)
    /\ List.length lines = S (Nat.max 1 (List.length (Student.subjects student)))
    /\ (Student.subjects student = [] ->
        lines = [yellow "Showing 0 subjects"; yellow "Showing 0 subjects"])
    /\ (Student.subjects student <> [] ->
        lines = yellow ("Showing " ++ str_of_nat (List.length (Student.subjects student))
                          ++ " subjects")
                :: map (fun subject =>
                          "[ Subject::" ++ Subject.id subject
                            ++ " -- mark = " ++ str_of_Z (Subject.mark subject)
                            ++ " -- grade = " ++ Subject.grade subject ++ " ]")
                       (Student.subjects student)).
Proof.
  unfold SubjectController.show_enrolled_subjects.
  destruct (Student.subjects student) as [|x l] eqn:E.
  - eexists. unfold bind, print. simpl. split.
    + rewrite <- app_assoc. reflexivity.
    + repeat split. intros H. congruence.
  - eexists. unfold bind at 1. unfold print at 1.
    erewrite fold_print; [|reflexivity].
    unfold printed. simpl. split.
    + rewrite <- app_assoc. reflexivity.
    + repeat split.
      * simpl. rewrite length_map. destruct (List.length l); reflexivity.
      * discriminate.
Qed.

Lemma show_enrolled_subjects_lines_witness :
  exists lines,
    SubjectController.show_enrolled_subjects john john_world
    = Ok tt (mkWorld (file john_world) (entropy john_world) (stdout john_world ++ lines)%list)
    /\ lines = [yellow "Showing 0 subjects"; yellow "Showing 0 subjects"].
Proof.
  destruct (show_enrolled_subjects_lines john john_world) as (lines & E & _ & Z & _).
  exists lines. split; [exact E|]. apply Z. reflexivity.
Defined.

(** ** The text menus *)

Section MenuInvariant.
Import UniversitySystem.

(** An invariant of the world and what a computation of the menus
    guarantees about its result when it keeps the invariant. *)
Variable I : World -> Prop.
Hypothesis I_file : forall w w', file w' = file w -> I w -> I w'.

Let keeps {A} (c : IO A) (Q : A -> Prop) : Prop :=
  forall lines w r w', I w -> c lines w = Ok r w' -> I w' /\ Q (fst r).

Lemma keeps_ret {A} (a : A) (Q : A -> Prop) : Q a -> keeps (io_ret a) Q.
Proof.
  intros Ha lines w r w' Hi H. unfold io_ret, ret in H.
  injection H as <- <-. auto.
Qed.

Lemma keeps_bind {A B} (c : IO A) (k : A -> IO B) (Q : A -> Prop) (R : B -> Prop) :
  keeps c Q -> (forall a, Q a -> keeps (k a) R) -> keeps (io_bind c k) R.
Proof.
  intros Hc Hk lines w r w' Hi H. unfold io_bind, bind in H.
  destruct (c lines w) as [[a lines1] w1| |] eqn:E; try discriminate.
  destruct (Hc _ _ _ _ Hi E) as [Hi1 Ha]. simpl in *.
  eapply Hk; eauto.
Qed.

Lemma keeps_lift {A} (c : M A) (Q : A -> Prop) :
  (forall w a w', I w -> c w = Ok a w' -> I w' /\ Q a) -> keeps (lift c) Q.
Proof.
  intros Hc lines w r w' Hi H. unfold lift, bind, ret in H.
  destruct (c w) as [a w1| |] eqn:E; try discriminate.
  injection H as <- <-. simpl. eauto.
Qed.

Lemma keeps_say (line : string) : keeps (say line) (fun _ => True).
Proof.
  apply keeps_lift. intros w a w' Hi H. unfold print in H.
  injection H as _ <-. split; [|exact Logic.I]. eapply I_file; [|exact Hi]. reflexivity.
Qed.

Lemma keeps_input (prompt : string) : keeps (input prompt) (fun _ => True).
Proof.
  intros lines w r w' Hi H. unfold input in H.
  destruct lines as [|line lines']; [discriminate|].
  unfold bind, print, ret in H. injection H as <- <-.
  split; [|exact Logic.I]. eapply I_file; [|exact Hi]. reflexivity.
Qed.

Lemma keeps_starved {A} (Q : A -> Prop) : keeps (fun _ _ => Starved) Q.
Proof. intros lines w r w' _ H. discriminate. Qed.

Lemma keeps_then {A B} (c : IO A) (k : IO B) (Q : A -> Prop) (R : B -> Prop) :
  keeps c Q -> keeps k R -> keeps (io_bind c (fun _ => k)) R.
Proof. intros Hc Hk. eapply keeps_bind; eauto. Qed.

Lemma ask_email_keeps (fuel : nat) :
  keeps (ask_email fuel) (fun email => _is_valid_email email = true).
Proof.
  induction fuel as [|fuel IH]; simpl; [apply keeps_starved|].
  eapply keeps_bind; [apply keeps_input|]. intros email _.
  destruct (_is_valid_email email) eqn:V.
  - now apply keeps_ret.
  - eapply keeps_then; [apply keeps_say|exact IH].
Qed.

Lemma ask_password_keeps (fuel : nat) :
  keeps (ask_password fuel) (fun password => _is_valid_password password = true).
Proof.
  induction fuel as [|fuel IH]; simpl; [apply keeps_starved|].
  eapply keeps_bind; [apply keeps_input|]. intros password _.
  destruct (_is_valid_password password) eqn:V.
  - eapply keeps_then; [apply keeps_say|now apply keeps_ret].
  - eapply keeps_then; [apply keeps_say|exact IH].
Qed.

Lemma confirm_password_keeps (fuel : nat) (new_password : string) :
  keeps (confirm_password fuel new_password) (fun _ => True).
Proof.
  induction fuel as [|fuel IH]; simpl; [apply keeps_starved|].
  eapply keeps_bind; [apply keeps_input|]. intros confirm _.
  destruct (negb (String.eqb new_password confirm)).
  - eapply keeps_then; [apply keeps_say|exact IH].
  - now apply keeps_ret.
Qed.

(** The calls of the controllers, as far as the menus need them. *)
Variable S : Student.t -> Prop.
Hypothesis H_change :
  forall student np w student' w',
    S student -> I w ->
    StudentController.change_student_password student np w = Ok student' w' ->
    I w' /\ S student'.
Hypothesis H_enroll :
  forall student w student' w',
    S student -> I w ->
    SubjectController.enroll_subject student w = Ok student' w' -> I w' /\ S student'.
Hypothesis H_drop :
  forall student sid w student' w',
    S student -> I w ->
    SubjectController.remove_subject student sid w = Ok student' w' -> I w' /\ S student'.
Hypothesis H_show :
  forall student w u w',
    I w -> SubjectController.show_enrolled_subjects student w = Ok u w' -> I w'.
Hypothesis H_login :
  forall email password w result w',
    I w -> StudentController.login_student email password w = Ok result w' ->
    I w' /\ forall student, result = inr student -> S student.
Hypothesis H_register :
  forall name email password w result w',
    _is_valid_email email = true -> _is_valid_password password = true ->
    I w -> StudentController.register_student name email password w = Ok result w' ->
    I w'.

Lemma subject_menu_loop_keeps (fuel : nat) :
  forall student, S student -> keeps (subject_menu_loop fuel student) S.
Proof.
  induction fuel as [|fuel IH]; intros student Hs; simpl; [apply keeps_starved|].
  eapply keeps_then; [apply keeps_say|].
  eapply keeps_bind; [apply keeps_input|]. intros choice _.
  destruct (String.eqb (lower choice) "c").
  { eapply keeps_then; [apply keeps_say|].
    eapply keeps_bind; [apply keeps_input|]. intros np _.
    eapply keeps_then; [apply confirm_password_keeps|].
    eapply keeps_bind with (Q := S).
    - apply keeps_lift. intros w a w' Hi H. eapply H_change; eauto.
    - intros student' Hs'. eapply keeps_then; [apply keeps_say|]. now apply IH. }
  destruct (String.eqb (lower choice) "e").
  { eapply keeps_bind with (Q := S).
    - apply keeps_lift. intros w a w' Hi H. eapply H_enroll; eauto.
    - intros student' Hs'. now apply IH. }
  destruct (String.eqb (lower choice) "r").
  { eapply keeps_bind; [apply keeps_input|]. intros sid _.
    eapply keeps_bind with (Q := S).
    - apply keeps_lift. intros w a w' Hi H. eapply H_drop; eauto.
    - intros student' Hs'. now apply IH. }
  destruct (String.eqb (lower choice) "s").
  { eapply keeps_then with (Q := fun _ => True); [|now apply IH].
    apply keeps_lift. intros w a w' Hi H. split; [|exact Logic.I]. eapply H_show; eauto. }
  destruct (String.eqb (lower choice) "x").
  { now apply keeps_ret. }
  eapply keeps_then; [apply keeps_say|]. now apply IH.
Qed.

Lemma student_menu_loop_keeps (fuel : nat) :
  keeps (student_menu_loop fuel) (fun _ => True).
Proof.
  induction fuel as [|fuel IH]; simpl; [apply keeps_starved|].
  eapply keeps_then; [apply keeps_say|].
  eapply keeps_bind; [apply keeps_input|]. intros choice _.
  destruct (String.eqb (lower choice) "l").
  { eapply keeps_then; [apply keeps_say|].
    eapply keeps_bind; [apply keeps_input|]. intros email _.
    eapply keeps_bind; [apply keeps_input|]. intros password _.
    eapply keeps_bind
      with (Q := fun result => forall student, result = inr student -> S student).
    - apply keeps_lift. intros w a w' Hi H. eapply H_login; eauto.
    - intros [message|student] Hr.
      + eapply keeps_then; [apply keeps_say|exact IH].
      + eapply keeps_then; [|exact IH].
        apply subject_menu_loop_keeps. now apply Hr. }
  destruct (String.eqb (lower choice) "r").
  { eapply keeps_then; [apply keeps_say|].
    eapply keeps_bind; [apply ask_email_keeps|]. intros email Ve.
    eapply keeps_bind; [apply ask_password_keeps|]. intros password Vp.
    eapply keeps_bind with (Q := fun _ => True).
    { apply keeps_lift. intros w a w' Hi H. unfold Database.load_data in H.
      injection H as _ <-. auto. }
    intros data _. destruct (PyDict.contains email data).
    - eapply keeps_then; [apply keeps_say|exact IH].
    - eapply keeps_bind; [apply keeps_input|]. intros name _.
      eapply keeps_bind with (Q := fun _ => True).
      + apply keeps_lift. intros w a w' Hi H. split; [|exact Logic.I].
        exact (H_register name email password w a w' Ve Vp Hi H).
      + intros [student|] _; [|exact IH].
        eapply keeps_then; [apply keeps_say|exact IH]. }
  destruct (String.eqb (lower choice) "x").
  { now apply keeps_ret. }
  eapply keeps_then; [apply keeps_say|exact IH].
Qed.

Hypothesis H_remove :
  forall student_id w result w',
    I w -> AdminController.remove_student student_id w = Ok result w' -> I w'.
Hypothesis H_empty : forall w, file w = [] -> I w.

Lemma admin_menu_loop_keeps (fuel : nat) :
  keeps (admin_menu_loop fuel) (fun _ => True).
Proof.
  assert (Read : forall A (c : M A),
             (forall w a w', c w = Ok a w' -> file w' = file w) ->
             keeps (lift c) (fun _ => True)).
  { intros A c Hc. apply keeps_lift. intros w a w' Hi H.
    split; [|exact Logic.I]. eapply I_file; [|exact Hi]. eapply Hc; eauto. }
  induction fuel as [|fuel IH]; simpl; [apply keeps_starved|].
  eapply keeps_then; [apply keeps_say|].
  eapply keeps_bind; [apply keeps_input|]. intros choice _.
  destruct (String.eqb (lower choice) "c").
  { eapply keeps_then; [apply keeps_say|].
    eapply keeps_bind; [apply keeps_input|]. intros confirm _.
    destruct (String.eqb (lower confirm) "y").
    - eapply keeps_then with (Q := fun _ => True).
      + apply keeps_lift. intros w a w' Hi H. split; [|exact Logic.I].
        apply H_empty.
        unfold AdminController.clear_all_student_data, bind, Database.clear_data,
          print, ret in H.
        now injection H as _ <-.
      + eapply keeps_then; [apply keeps_say|exact IH].
    - eapply keeps_then; [apply keeps_say|exact IH]. }
  destruct (String.eqb (lower choice) "g").
  { eapply keeps_then; [apply keeps_say|].
    eapply keeps_then; [|exact IH]. apply Read. intros w a w' H.
    unfold AdminController.group_students_by_grade, bind, Database.load_data in H.
    apply group_loop_world in H. now subst. }
  destruct (String.eqb (lower choice) "p").
  { eapply keeps_then; [apply keeps_say|].
    eapply keeps_then; [|exact IH]. apply Read. intros w a w' H.
    unfold AdminController.partition_students_pass_fail, bind, Database.load_data in H.
    apply partition_loop_world in H. now subst. }
  destruct (String.eqb (lower choice) "r").
  { eapply keeps_bind; [apply keeps_input|]. intros sid _.
    eapply keeps_bind with (Q := fun _ => True).
    - apply keeps_lift. intros w a w' Hi H. split; [|exact Logic.I].
      eapply H_remove; eauto.
    - intros [|] _; (eapply keeps_then; [apply keeps_say|exact IH]). }
  destruct (String.eqb (lower choice) "s").
  { eapply keeps_bind with (Q := fun _ => True).
    - apply Read. intros w a w' H.
      unfold AdminController.show_all_students, bind, Database.load_data in H.
      destruct (file w) eqn:F; unfold ret in H; injection H as _ <-; exact F.
    - intros result _. eapply keeps_then; [apply keeps_say|exact IH]. }
  destruct (String.eqb (lower choice) "x").
  { now apply keeps_ret. }
  eapply keeps_then; [apply keeps_say|exact IH].
Qed.
End MenuInvariant.

Lemma show_enrolled_subjects_file (student : Student.t) (w w' : World) (u : unit) :
  SubjectController.show_enrolled_subjects student w = Ok u w' -> file w' = file w.
Proof.
  unfold SubjectController.show_enrolled_subjects.
  destruct (Student.subjects student) as [|x l].
  - unfold bind, print. simpl. intros H. now injection H as _ <-.
  - unfold bind at 1. unfold print at 1.
    erewrite fold_print; [|reflexivity].
    intros H. now injection H as _ <-.
Qed.

(** X21. Through the text menus no malformed e-mail or password gets into
    the file.  If every record has an e-mail and a password that the
    validator accepts, this is still so when the student menu (log in,
    sign up, and the subject menu with its password change, enrolment and
    removal) or the admin menu returns, whatever the user types. *)
Theorem menus_keep_credentials_valid (lines rest : list string) (w w' : World) :
  Forall valid_credentials (PyDict.values (file w)) ->
  (UniversitySystem.student_menu lines w = Ok (tt, rest) w' ->
   Forall valid_credentials (PyDict.values (file w')))
  /\ (UniversitySystem.admin_menu lines w = Ok (tt, rest) w' ->
      Forall valid_credentials (PyDict.values (file w'))).
Proof.
  set (I := fun w : World => Forall valid_credentials (PyDict.values (file w))).
  assert (I_file : forall w w', file w' = file w -> I w -> I w').
  { unfold I. intros a b E. now rewrite E. }
  assert (H_save : forall (Q : Student.t -> Student.t -> Prop) s s' a b,
             (forall x y, Q x y -> valid_credentials x -> valid_credentials y) ->
             saves_or_not Q s s' a b ->
             valid_credentials s -> I a -> I b /\ valid_credentials s').
  { unfold I. intros Q s s' a b HQ [[-> F] | [Hq F]] Vs Ia; rewrite F.
    - auto.
    - pose proof (HQ _ _ Hq Vs) as Vs'. split; [|assumption].
      now apply Forall_values_setitem. }
  assert (H_remove : forall sid a res b,
             I a -> AdminController.remove_student sid a = Ok res b -> I b).
  { unfold I. intros sid a res b Ia H.
    apply remove_student_step in H as [F|(k & D)]; [now rewrite F|].
    eapply Forall_values_delitem; eauto. }
  intros Hi. split; intros H.
  - refine (proj1 (student_menu_loop_keeps I I_file valid_credentials
                     _ _ _ _ _ _ _ _ _ _ _ Hi H)).
    + intros s np a s' b Vs Ia E.
      unfold StudentController.change_student_password in E.
      destruct (_is_valid_password np) eqn:V; simpl in E;
        unfold bind, print, ret, Database.load_data, Database.save_data in E;
        simpl in E; injection E as <- <-.
      * split; [|destruct Vs; split; assumption].
        unfold I. simpl. apply Forall_values_setitem; [exact Ia|].
        destruct Vs. split; assumption.
      * split; [|assumption]. exact Ia.
    + intros s a s' b Vs Ia E. apply enroll_step in E.
      eapply H_save; eauto. intros x y (r & m & _ & _ & ->) Vx. exact Vx.
    + intros s sid a s' b Vs Ia E. apply remove_subject_step in E.
      eapply H_save; eauto. intros x y -> Vx. exact Vx.
    + intros s a u b Ia E. apply show_enrolled_subjects_file in E.
      eapply I_file; eauto.
    + intros e p a res b Ia E. apply login_inv in E as (F & _ & G).
      split; [eapply I_file; eauto|].
      intros s ->. specialize (G s eq_refl).
      apply getitem_In, values_In in G. unfold I in Ia.
      rewrite Forall_forall in Ia. auto.
    + intros n e p a res b Ve Vp Ia E. destruct res as [s|].
      * apply register_inv in E as (_ & (r & ->) & _ & F & _).
        unfold I, PyDict.values. rewrite F, map_app. apply Forall_app.
        split; [exact Ia|]. constructor; [|constructor]. split; assumption.
      * apply register_none in E. eapply I_file; eauto.
  - refine (proj1 (admin_menu_loop_keeps I I_file _ _ _ _ _ _ _ Hi H)).
    + exact H_remove.
    + unfold I. intros a ->. constructor.
Qed.

Lemma menus_keep_credentials_valid_witness :
  exists w',
    UniversitySystem.student_menu
      ["r"; "eve"; "eve.roe@university.com"; "secret"; "Abcde123"; "Eve";
       "l"; "eve.roe@university.com"; "Abcde123"; "c"; "Zyxwv987"; "Zyxwv987"; "e"; "x"; "x"]
      (with_entropy [41; 0; 0; 5; 10]%Z john_world)
    = Ok (tt, []) w'
    /\ PyDict.keys (file w') = ["john.smith@university.com"; "eve.roe@university.com"]
    /\ Forall valid_credentials (PyDict.values (file w')).
Proof.
  eexists.
  match goal with
  | |- ?eq /\ _ => assert (E : eq) by (vm_compute; reflexivity)
  end.
  split; [exact E|]. split; [reflexivity|].
  refine (proj1 (menus_keep_credentials_valid _ _ _ _ _) E).
  constructor; [split; reflexivity|constructor].
Defined.

(** Running the menus step by step. *)

Lemma io_say (line : string) {B} (k : UniversitySystem.IO B) (lines : list string) (w : World) :
  UniversitySystem.io_bind (UniversitySystem.say line) (fun _ => k) lines w
  = k lines (printed [line] w).
Proof. reflexivity. Qed.

Lemma io_input (prompt line : string) {B} (k : string -> UniversitySystem.IO B)
      (lines : list string) (w : World) :
  UniversitySystem.io_bind (UniversitySystem.input prompt) k (line :: lines) w
  = k line lines (printed [prompt] w).
Proof. reflexivity. Qed.

Lemma io_lift {A B} (c : M A) (k : A -> UniversitySystem.IO B)
      (lines : list string) (w w1 : World) (a : A) :
  c w = Ok a w1 ->
  UniversitySystem.io_bind (UniversitySystem.lift c) k lines w = k a lines w1.
Proof.
  intros H. unfold UniversitySystem.io_bind, UniversitySystem.lift, bind.
  rewrite H. reflexivity.
Qed.

Lemma subject_menu_loop_S (fuel : nat) (student : Student.t) :
  UniversitySystem.subject_menu_loop (S fuel) student
  = ltac:(let body := eval cbn [UniversitySystem.subject_menu_loop]
                      in (UniversitySystem.subject_menu_loop (S fuel) student)
          in exact body).
Proof. reflexivity. Qed.

Lemma confirm_password_S (fuel : nat) (new_password : string) :
  UniversitySystem.confirm_password (S fuel) new_password
  = ltac:(let body := eval cbn [UniversitySystem.confirm_password]
                      in (UniversitySystem.confirm_password (S fuel) new_password)
          in exact body).
Proof. reflexivity. Qed.

Lemma admin_menu_loop_S (fuel : nat) :
  UniversitySystem.admin_menu_loop (S fuel)
  = ltac:(let body := eval cbn [UniversitySystem.admin_menu_loop]
                      in (UniversitySystem.admin_menu_loop (S fuel))
          in exact body).
Proof. reflexivity. Qed.

Lemma leave_subject_menu (fuel : nat) (student : Student.t) (rest : list string) (w : World) :
  UniversitySystem.subject_menu_loop (S fuel) student ("x" :: rest) w
  = Ok (student, rest)
       (printed [nl ++ UniversitySystem.blue "--- Subject Enrolment System ---";
                 UniversitySystem.blue
                   ("(c) change password" ++ nl ++ "(e) enroll" ++ nl
                      ++ "(r) remove" ++ nl ++ "(s) show" ++ nl ++ "(x) exit")
                   ++ nl ++ "Select an option: "] w).
Proof.
  rewrite subject_menu_loop_S, io_say, io_input.
  change (UniversitySystem.lower "x") with "x".
  change (String.eqb "x" "c") with false. change (String.eqb "x" "e") with false.
  change (String.eqb "x" "r") with false. change (String.eqb "x" "s") with false.
  change (String.eqb "x" "x") with true. cbv iota.
  unfold UniversitySystem.io_ret, ret. now rewrite printed_printed.
Qed.

Lemma leave_admin_menu (fuel : nat) (rest : list string) (w : World) :
  UniversitySystem.admin_menu_loop (S fuel) ("x" :: rest) w
  = Ok (tt, rest)
       (printed [nl ++ UniversitySystem.blue "--- Admin System (c/g/p/r/s/x) ---";
                 UniversitySystem.blue "Select an option: "] w).
Proof.
  rewrite admin_menu_loop_S, io_say, io_input.
  change (UniversitySystem.lower "x") with "x".
  change (String.eqb "x" "c") with false. change (String.eqb "x" "g") with false.
  change (String.eqb "x" "p") with false.
  change (String.eqb "x" "r") with false. change (String.eqb "x" "s") with false.
  change (String.eqb "x" "x") with true. cbv iota.
  unfold UniversitySystem.io_ret, ret. now rewrite printed_printed.
Qed.

Lemma change_rejected (student : Student.t) (password : string) (w : World) :
  _is_valid_password password = false ->
  StudentController.change_student_password student password w
  = Ok student (printed [msg_invalid_password] w).
Proof.
  intros V. unfold StudentController.change_student_password. now rewrite V.
Qed.

(** X22. In the subject menu, a new password that the validator rejects
    changes nothing, and yet the menu prints "Password updated
    successfully." right after the complaint of the controller. *)
Theorem rejected_password_reported_as_updated
        (student : Student.t) (password : string) (rest : list string) (w : World) :
  _is_valid_password password = false ->
  exists before after,
    UniversitySystem.subject_menu student ("c" :: password :: password :: "x" :: rest) w
    = Ok (student, rest)
         (printed (before
                     ++ [msg_invalid_password; yellow "Password updated successfully."]
                     ++ after)%list w).
Proof.
  intros V. unfold UniversitySystem.subject_menu. cbn [List.length].
  rewrite subject_menu_loop_S, io_say, io_input.
  change (UniversitySystem.lower "c") with "c".
  change (String.eqb "c" "c") with true. cbv iota.
  rewrite io_say, io_input, confirm_password_S.
  unfold UniversitySystem.io_bind at 1. unfold bind at 1.
  rewrite io_input, String.eqb_refl. cbn [negb].
  unfold UniversitySystem.io_ret at 1. unfold ret at 1. cbn [fst snd].
  erewrite io_lift by (apply change_rejected; exact V).
  rewrite io_say, leave_subject_menu, !printed_printed.
  eexists [_; _; _; _; _]. eexists [_; _]. reflexivity.
Qed.

Lemma rejected_password_reported_as_updated_witness :
  exists before after,
    UniversitySystem.subject_menu john ["c"; "short"; "short"; "x"] john_world
    = Ok (john, [])
         (printed (before
                     ++ [msg_invalid_password; yellow "Password updated successfully."]
                     ++ after)%list john_world).
Proof.
  apply (rejected_password_reported_as_updated john "short" [] john_world).
  reflexivity.
Defined.

(** X23. The admin menu clears the file only when the answer to "Are you
    sure" is y or Y; any other answer leaves the file as it is. *)
Theorem clearing_needs_confirmation (answer : string) (rest : list string) (w : World) :
  exists w',
    UniversitySystem.admin_menu ("c" :: answer :: "x" :: rest) w = Ok (tt, rest) w'
    /\ entropy w' = entropy w
    /\ ((answer = "y" \/ answer = "Y") -> file w' = [])
    /\ (UniversitySystem.lower answer <> "y" -> file w' = file w).
Proof.
  unfold UniversitySystem.admin_menu. cbn [List.length].
  rewrite admin_menu_loop_S, io_say, io_input.
  change (UniversitySystem.lower "c") with "c".
  change (String.eqb "c" "c") with true. cbv iota.
  rewrite io_say, io_input.
  destruct (String.eqb_spec (UniversitySystem.lower answer) "y") as [E|N].
  - erewrite io_lift.
    2:{ unfold AdminController.clear_all_student_data, bind, Database.clear_data,
          print, ret. reflexivity. }
    rewrite io_say, leave_admin_menu.
    eexists. split; [reflexivity|]. simpl. repeat split. contradiction.
  - rewrite io_say, leave_admin_menu.
    eexists. split; [reflexivity|]. simpl. repeat split.
    intros [-> | ->]; exfalso; apply N; reflexivity.
Qed.

Lemma clearing_needs_confirmation_witness :
  (exists w',
      UniversitySystem.admin_menu ["c"; "Y"; "x"] john_world = Ok (tt, []) w'
      /\ file w' = [])
  /\ (exists w',
         UniversitySystem.admin_menu ["c"; "yes"; "x"] john_world = Ok (tt, []) w'
         /\ file w' = file john_world).
Proof.
  split.
  - destruct (clearing_needs_confirmation "Y" [] john_world) as (w' & E & _ & Y & _).
    exists w'. split; [exact E|]. apply Y. now right.
  - destruct (clearing_needs_confirmation "yes" [] john_world) as (w' & E & _ & _ & N).
    exists w'. split; [exact E|]. apply N. intros H. vm_compute in H. discriminate.
Defined.

Lemma student_menu_loop_S (fuel : nat) :
  UniversitySystem.student_menu_loop (S fuel)
  = ltac:(let body := eval cbn [UniversitySystem.student_menu_loop]
                      in (UniversitySystem.student_menu_loop (S fuel))
          in exact body).
Proof. reflexivity. Qed.

Lemma leave_student_menu (fuel : nat) (rest : list string) (w : World) :
  UniversitySystem.student_menu_loop (S fuel) ("x" :: rest) w
  = Ok (tt, rest)
       (printed [nl ++ UniversitySystem.blue "--- Student System ---";
                 UniversitySystem.blue "(l) login, (r) register, (x) exit" ++ nl
                   ++ "Select an option: "] w).
Proof.
  rewrite student_menu_loop_S, io_say, io_input.
  change (UniversitySystem.lower "x") with "x".
  change (String.eqb "x" "l") with false. change (String.eqb "x" "r") with false.
  change (String.eqb "x" "x") with true. cbv iota.
  unfold UniversitySystem.io_ret, ret. now rewrite printed_printed.
Qed.

(** X24. Signing up through the student menu with an e-mail that is already
    registered is refused before a name is asked for: the menu prints
    "Student already exists.", reads no further line for the sign-up and
    leaves the file as it is. *)
Theorem sign_up_refuses_registered_email
        (email password : string) (rest : list string) (w : World) :
  _is_valid_email email = true -> _is_valid_password password = true ->
  PyDict.contains email (file w) = true ->
  exists before after,
    UniversitySystem.student_menu ("r" :: email :: password :: "x" :: rest) w
    = Ok (tt, rest) (printed (before ++ [msg_already_exists] ++ after)%list w).
Proof.
  intros Ve Vp C. unfold UniversitySystem.student_menu. cbn [List.length].
  rewrite student_menu_loop_S, io_say, io_input.
  change (UniversitySystem.lower "r") with "r".
  change (String.eqb "r" "l") with false. change (String.eqb "r" "r") with true.
  cbv iota. rewrite io_say.
  cbn [UniversitySystem.ask_email].
  unfold UniversitySystem.io_bind at 1. unfold bind at 1.
  rewrite io_input, Ve.
  unfold UniversitySystem.io_ret at 1. unfold ret at 1. cbn [fst snd].
  cbn [UniversitySystem.ask_password].
  unfold UniversitySystem.io_bind at 1. unfold bind at 1.
  rewrite io_input, Vp, io_say.
  unfold UniversitySystem.io_ret at 1. unfold ret at 1. cbn [fst snd].
  erewrite io_lift by reflexivity.
  cbn [file printed]. rewrite C.
  rewrite io_say, leave_student_menu, !printed_printed.
  eexists [_; _; _; _; _; _]. eexists [_; _]. reflexivity.
Qed.

Lemma sign_up_refuses_registered_email_witness :
  exists before after,
    UniversitySystem.student_menu
      ["r"; "john.smith@university.com"; "Abcde123"; "x"] john_world
    = Ok (tt, []) (printed (before ++ [msg_already_exists] ++ after)%list john_world).
Proof.
  apply (sign_up_refuses_registered_email
           "john.smith@university.com" "Abcde123" [] john_world); reflexivity.
Defined.

(** ** Witnesses for the properties of the validators and of the registration *)

Lemma is_valid_email_refinement_witness :
  spec_email "john.smith@university.com"
  \/ exists s', "john.smith@university.com" = s' ++ nl /\ spec_email s'.
Proof.
  apply (proj1 (is_valid_email_refinement "john.smith@university.com")).
  reflexivity.
Defined.

Lemma is_valid_password_refinement_witness :
  (spec_password "Abcde123"
   \/ exists s', "Abcde123" = s' ++ nl /\ spec_password s')
  /\ Wide._is_valid_password Wide.arabic_indic [65; 98; 99; 100; 101; 1633; 1633; 1633]%N
     = true.
Proof.
  pose proof (is_valid_password_refinement Wide.arabic_indic) as (_ & _ & H8 & HW).
  split.
  - apply (proj1 (H8 "Abcde123")). reflexivity.
  - apply (HW 1633%N); reflexivity.
Defined.

Lemma register_student_duplicate_witness :
  StudentController.register_student "Jon" "john.smith@university.com" "Abcde123" john_world
  = Ok None (printed [msg_already_exists] john_world)
  /\ List.length (filter (fun item => String.eqb (fst item) "john.smith@university.com")
                         (file john_world)) = 1%nat.
Proof.
  apply (register_student_duplicate "Jon" "john.smith@university.com" "Abcde123" john_world).
  - unfold PyDict.wf. simpl. constructor; [intros []|constructor].
  - reflexivity.
Defined.

Lemma register_student_returns_witness :
  StudentController.register_student "Eve" "eve.roe@university.com" "Abcde123"
    (with_entropy [41; 7; 0]%Z john_world)
  = Ok (Some (Student.mk "000008" "Eve" "eve.roe@university.com" "Abcde123" []))
       (mkWorld (file john_world
                   ++ [("eve.roe@university.com",
                        Student.mk "000008" "Eve" "eve.roe@university.com" "Abcde123" [])])%list
                [] []).
Proof.
  apply (register_student_returns "Eve" "eve.roe@university.com" "Abcde123"
           (with_entropy [41; 7; 0]%Z john_world) [41%Z] 7%Z 0%Z []).
  - reflexivity.
  - reflexivity.
  - constructor; [|constructor]. exists john. split; [now left|reflexivity].
  - intros (s & [<-|[]] & H). vm_compute in H. discriminate.
Defined.

Lemma clear_all_empties_witness :
  exists w',
    AdminController.clear_all_student_data john_world = Ok tt w'
    /\ file w' = []
    /\ StudentController.login_student "john.smith@university.com" "Abcde123" w'
       = Ok (inl msg_does_not_exist) w'.
Proof.
  destruct (clear_all_empties john_world) as (w' & E & F & _ & L & _).
  exists w'. split; [exact E|]. split; [exact F|]. apply L; reflexivity.
Defined.

Example str_of_Z_ex :
  str_of_Z 0 = "0" /\ str_of_Z 40 = "40" /\ str_of_Z 100 = "100" /\ str_of_Z (-5) = "-5".
Proof. repeat split; reflexivity. Qed.

Example lower_ex :
  UniversitySystem.lower "Y" = "y" /\ UniversitySystem.lower "yes" = "yes"
  /\ UniversitySystem.lower "X1 ." = "x1 .".
Proof. repeat split; reflexivity. Qed.

Example show_all_students_ex :
  AdminController.show_all_students john_world
  = Ok (yellow "Student List" ++ nl
          ++ "John :: 000042 --> Email: john.smith@university.com") john_world.
Proof. reflexivity. Qed.
